(** * mashumaro: the dataclass (de)serialisation code builder

    A shallow embedding of [mashumaro/serializer/base/metaprogramming.py]
    (class [CodeBuilder]) and of [mashumaro/types.py] ([RoundedDecimal]),
    together with the semantics of the routines the builder generates.

    Layout: Python values and exceptions; type annotations; the code
    builder (lines, import bookkeeping, [_pack_value],
    [_unpack_field_value], [add_to_dict], [add_from_dict]); the meaning of
    the generated [to_dict] / [from_dict]; [RoundedDecimal]; the
    tag-mode discriminator; then the theorems. *)

From Stdlib Require Import String Ascii List ZArith NArith Lia Bool.
From Stdlib Require Import DecimalString DecimalN DecimalPos.
From stdpp Require Import base gmap strings list.

Open Scope string_scope.

Set Warnings "-register-all".

(** ** Strings *)

(** [" " * n] *)
Fixpoint spaces (n : nat) : string :=
  match n with
  | O => ""
  | S n' => String " " (spaces n')
  end.

(** [s[:-n]]: all of [s] but its last [n] characters. *)
Definition drop_last (n : nat) (s : string) : string :=
  substring 0 (String.length s - n) s.

(** [s.split(".")[0]]: the text before the first dot (all of [s] when it
    has none). *)
Fixpoint split_dot_head (s : string) : string :=
  match s with
  | EmptyString => ""
  | String c s' =>
      if Ascii.eqb c "."%char then "" else String c (split_dot_head s')
  end.

(** The decimal digits of [n], without leading zeros; ["0"] for zero. *)
Definition digits (n : N) : string :=
  NilEmpty.string_of_uint (N.to_uint n).

(** ** The builder's state

    [CodeBuilder.__init__] / [reset]: the generated lines, the modules and
    the root names already registered for the unit being generated, and the
    current indentation. *)

Record CodeBuilder := mkCodeBuilder {
  lines : list string;
  modules : gset string;
  globals : gset string;
  _current_indent : string
}.

Section Builder.

(** [INITIAL_MODULES = get_imported_module_names()]: the helper is not part
    of the sources at hand, so the set it returns is a parameter. *)
Variable INITIAL_MODULES : gset string.

Definition reset (b : CodeBuilder) : CodeBuilder :=
  {| lines := [];
     modules := INITIAL_MODULES;
     globals := ∅;
     _current_indent := "" |}.

(** [self.lines.append(f"{self._current_indent}{line}")] *)
Definition add_line (line : string) (b : CodeBuilder) : CodeBuilder :=
  {| lines := lines b ++ [_current_indent b +:+ line];
     modules := modules b;
     globals := globals b;
     _current_indent := _current_indent b |}.

Definition set_indent (i : string) (b : CodeBuilder) : CodeBuilder :=
  {| lines := lines b;
     modules := modules b;
     globals := globals b;
     _current_indent := i |}.

(** The [indent] context manager around a body that cannot raise: four
    spaces are appended on entry and the last four characters dropped on
    exit. *)
Definition indent (body : CodeBuilder -> CodeBuilder) (b : CodeBuilder)
  : CodeBuilder :=
  let b1 := body (set_indent (_current_indent b +:+ spaces 4) b) in
  set_indent (drop_last 4 (_current_indent b1)) b1.

Definition add_module (m : string) (b : CodeBuilder) : CodeBuilder :=
  {| lines := lines b;
     modules := {[ m ]} ∪ modules b;
     globals := globals b;
     _current_indent := _current_indent b |}.

Definition add_global (r : string) (b : CodeBuilder) : CodeBuilder :=
  {| lines := lines b;
     modules := modules b;
     globals := {[ r ]} ∪ globals b;
     _current_indent := _current_indent b |}.

Definition ensure_module_imported (module : string) (b : CodeBuilder)
  : CodeBuilder :=
  if bool_decide (module ∈ modules b) then b
  else
    let b := add_module module b in
    let b := add_line ("if '" +:+ module +:+ "' not in globals():") b in
    let b := indent (add_line ("import " +:+ module)) b in
    let root_module := split_dot_head module in
    if bool_decide (root_module ∈ globals b) then b
    else
      let b := add_global root_module b in
      let b := add_line "else:" b in
      indent (add_line ("global " +:+ root_module)) b.

End Builder.

(** ** Python values

    The objects the generated routines read and build.  [VSeq] covers the
    five iterable containers the builder knows; a [VDict] keeps its items
    in insertion order; [VObj] is an instance of a dataclass, known by the
    attributes of its [__dict__] (the class adds no method or property of
    its own to them); [VForeign] is an object of a library or user class
    (datetime, UUID, path, enum member, float, ...), opaque here. *)

Inductive seq_kind := KList | KTuple | KSet | KFrozenSet | KDeque.

Inductive value :=
| VNone
| VMissing                                   (* dataclasses.MISSING *)
| VBool (b : bool)
| VInt (z : Z)
| VStr (s : string)
| VBytes (s : string)
| VSeq (k : seq_kind) (items : list value)
| VDict (items : list (value * value))
| VChainMap (maps : list value)
| VObj (cls : string) (attrs : list (string * value))
| VForeign (cls : string) (repr : string).

Definition seq_kind_eqb (a b : seq_kind) : bool :=
  match a, b with
  | KList, KList | KTuple, KTuple | KSet, KSet
  | KFrozenSet, KFrozenSet | KDeque, KDeque => true
  | _, _ => false
  end.

(** Structural equality of values. *)
Fixpoint value_eqb (a b : value) {struct a} : bool :=
  let fix list_eqb (xs ys : list value) {struct xs} : bool :=
    match xs, ys with
    | [], [] => true
    | x :: xs', y :: ys' => value_eqb x y && list_eqb xs' ys'
    | _, _ => false
    end in
  let fix items_eqb (xs ys : list (value * value)) {struct xs} : bool :=
    match xs, ys with
    | [], [] => true
    | (k, v) :: xs', (k', v') :: ys' =>
        value_eqb k k' && value_eqb v v' && items_eqb xs' ys'
    | _, _ => false
    end in
  let fix attrs_eqb (xs ys : list (string * value)) {struct xs} : bool :=
    match xs, ys with
    | [], [] => true
    | (n, v) :: xs', (n', v') :: ys' =>
        String.eqb n n' && value_eqb v v' && attrs_eqb xs' ys'
    | _, _ => false
    end in
  match a, b with
  | VNone, VNone => true
  | VMissing, VMissing => true
  | VBool x, VBool y => Bool.eqb x y
  | VInt x, VInt y => Z.eqb x y
  | VStr x, VStr y => String.eqb x y
  | VBytes x, VBytes y => String.eqb x y
  | VSeq k xs, VSeq k' ys => seq_kind_eqb k k' && list_eqb xs ys
  | VDict xs, VDict ys => items_eqb xs ys
  | VChainMap xs, VChainMap ys => list_eqb xs ys
  | VObj c xs, VObj c' ys => String.eqb c c' && attrs_eqb xs ys
  | VForeign c r, VForeign c' r' => String.eqb c c' && String.eqb r r'
  | _, _ => false
  end.

(** ** Exceptions

    An exception has a class with its arguments, and the three attributes
    of exception chaining: [__cause__], set by [raise ... from e];
    [__context__], the exception that was being handled when this one was
    raised; and [__suppress_context__], set by [raise ... from] (also
    [from None]).  [KeyboardInterrupt], [SystemExit] and [GeneratorExit]
    derive from [BaseException] only; [LibraryError] stands for any other
    class that derives from [Exception] and from none of the classes
    listed before it. *)

Inductive exn_kind :=
| AttributeError (msg : string)
| TypeError (msg : string)
| ValueError (msg : string)
| KeyError (key : string)
| NameError (name : string)
| RecursionError
| MissingField (field_name field_type holder_class : string)
| InvalidFieldValue (field_name field_type : string) (field_value : value)
                    (holder_class : string)
| LibraryError (cls msg : string)
| KeyboardInterrupt
| SystemExit (code : Z)
| GeneratorExit.

Inductive exn :=
| Exc (kind : exn_kind) (cause context : option exn) (suppress_context : bool).

Definition exn_kind_of (e : exn) : exn_kind := let 'Exc k _ _ _ := e in k.
Definition exn_cause (e : exn) : option exn := let 'Exc _ c _ _ := e in c.
Definition exn_context (e : exn) : option exn := let 'Exc _ _ c _ := e in c.
Definition exn_suppress_context (e : exn) : bool := let 'Exc _ _ _ s := e in s.

(** An exception raised by a plain [raise X(...)]: no cause, the context
    given, nothing suppressed. *)
Definition Exn (kind : exn_kind) (context : option exn) : exn :=
  Exc kind None context false.

(** [except AttributeError]: [MissingField] derives from [LookupError] and
    [InvalidFieldValue] from [ValueError], so neither is caught. *)
Definition is_AttributeError (e : exn) : bool :=
  match exn_kind_of e with AttributeError _ => true | _ => false end.

(** [except Exception] *)
Definition is_Exception (e : exn) : bool :=
  match exn_kind_of e with
  | KeyboardInterrupt | SystemExit _ | GeneratorExit => false
  | _ => true
  end.

Inductive py_result (A : Type) :=
| Return (a : A)
| Raise (e : exn).
Arguments Return {A} a.
Arguments Raise {A} e.

Definition py_bind {A B} (r : py_result A) (k : A -> py_result B)
  : py_result B :=
  match r with
  | Return a => k a
  | Raise e => Raise e
  end.

Declare Scope py_scope.
Delimit Scope py_scope with py.
Notation "'let!' x := r 'in' k" := (py_bind r (fun x => k))
  (at level 10, x name, r at level 100, k at level 200) : py_scope.

Definition raise {A} (k : exn_kind) : py_result A := Raise (Exn k None).

(** Map a raising function over a list, left to right. *)
Fixpoint py_mapM {A B} (f : A -> py_result B) (l : list A)
  : py_result (list B) :=
  match l with
  | [] => Return []
  | x :: l' =>
      match f x with
      | Return y =>
          match py_mapM f l' with
          | Return ys => Return (y :: ys)
          | Raise e => Raise e
          end
      | Raise e => Raise e
      end
  end.

(** ** Type annotations

    The annotations the builder dispatches on.  The predicates it imports
    from [mashumaro.meta.helpers] ([get_type_origin], [is_generic],
    [is_union], [is_type_var], [is_special_typing_primitive],
    [is_class_var], [is_init_var], [type_name]) are not part of the sources
    at hand; they are read off the constructors below. *)

Inductive pyclass :=
| c_list | c_deque | c_tuple | c_set | c_frozenset | c_ChainMap | c_dict
| c_Sequence | c_Mapping | c_AbstractSet    (* collections.abc *)
| c_bytes | c_bytearray | c_str
| c_PosixPath | c_WindowsPath | c_Path
| c_PurePosixPath | c_PureWindowsPath | c_PurePath | c_PathLike
| c_Enum (name : string)                    (* a subclass of enum.Enum *)
| c_int | c_float | c_bool | c_NoneType
| c_datetime | c_date | c_time | c_timedelta | c_timezone
| c_UUID | c_Decimal | c_Fraction
| c_sub (name : string) (base : pyclass)    (* a user subclass of [base] *)
| c_other (name : string).                  (* any other class *)

Inductive ftype :=
| TClass (c : pyclass)                          (* a class, unsubscripted *)
| TGeneric (origin : pyclass) (args : list ftype)  (* typing.List[int], ... *)
| TDataclass (name : string)
| TSerializableType (name : string)   (* a subclass of SerializableType *)
| TStrategy (cls : string)            (* an instance of a SerializationStrategy *)
| TAny
| TUnion (args : list ftype)
| TAnyStr
| TTypeVar (name : string)
| TClassVar (arg : ftype)
| TInitVar (arg : ftype)
| TSpecial (repr : string).           (* any other typing construct *)

(** The typing bases the builder tests [issubclass] against. *)
Inductive typing_base :=
| Collection | List_ | Deque_ | Tuple_ | AbstractSet_ | FrozenSet_
| ChainMap_ | Mapping_ | ByteString_ | Str_ | Sequence_ | PathLike_
| PosixPath_ | WindowsPath_ | Path_ | PurePosixPath_ | PureWindowsPath_
| PurePath_ | Enum_.

Fixpoint issubclass (c : pyclass) (b : typing_base) : bool :=
  match c with
  | c_list => match b with Collection | List_ | Sequence_ => true | _ => false end
  | c_deque => match b with Collection | Deque_ | Sequence_ => true | _ => false end
  | c_tuple => match b with Collection | Tuple_ | Sequence_ => true | _ => false end
  | c_set => match b with Collection | AbstractSet_ => true | _ => false end
  | c_frozenset =>
      match b with Collection | FrozenSet_ | AbstractSet_ => true | _ => false end
  | c_ChainMap =>
      match b with Collection | ChainMap_ | Mapping_ => true | _ => false end
  | c_dict | c_Mapping => match b with Collection | Mapping_ => true | _ => false end
  | c_Sequence => match b with Collection | Sequence_ => true | _ => false end
  | c_AbstractSet => match b with Collection | AbstractSet_ => true | _ => false end
  | c_bytes | c_bytearray =>
      match b with Collection | ByteString_ | Sequence_ => true | _ => false end
  | c_str => match b with Collection | Str_ | Sequence_ => true | _ => false end
  | c_PosixPath =>
      match b with
      | PathLike_ | PurePath_ | PurePosixPath_ | Path_ | PosixPath_ => true
      | _ => false
      end
  | c_WindowsPath =>
      match b with
      | PathLike_ | PurePath_ | PureWindowsPath_ | Path_ | WindowsPath_ => true
      | _ => false
      end
  | c_Path => match b with PathLike_ | PurePath_ | Path_ => true | _ => false end
  | c_PurePosixPath =>
      match b with PathLike_ | PurePath_ | PurePosixPath_ => true | _ => false end
  | c_PureWindowsPath =>
      match b with PathLike_ | PurePath_ | PureWindowsPath_ => true | _ => false end
  | c_PurePath => match b with PathLike_ | PurePath_ => true | _ => false end
  | c_PathLike => match b with PathLike_ => true | _ => false end
  | c_Enum _ => match b with Enum_ => true | _ => false end
  | c_sub _ base => issubclass base b
  | c_int | c_float | c_bool | c_NoneType | c_datetime | c_date | c_time
  | c_timedelta | c_timezone | c_UUID | c_Decimal | c_Fraction
  | c_other _ => false
  end.

(** [a is b] on classes. *)
Fixpoint pyclass_eqb (a b : pyclass) : bool :=
  match a, b with
  | c_list, c_list | c_deque, c_deque | c_tuple, c_tuple | c_set, c_set
  | c_frozenset, c_frozenset | c_ChainMap, c_ChainMap | c_dict, c_dict
  | c_Sequence, c_Sequence | c_Mapping, c_Mapping
  | c_AbstractSet, c_AbstractSet | c_bytes, c_bytes
  | c_bytearray, c_bytearray | c_str, c_str | c_PosixPath, c_PosixPath
  | c_WindowsPath, c_WindowsPath | c_Path, c_Path
  | c_PurePosixPath, c_PurePosixPath
  | c_PureWindowsPath, c_PureWindowsPath | c_PurePath, c_PurePath
  | c_PathLike, c_PathLike | c_int, c_int | c_float, c_float
  | c_bool, c_bool | c_NoneType, c_NoneType | c_datetime, c_datetime
  | c_date, c_date | c_time, c_time | c_timedelta, c_timedelta
  | c_timezone, c_timezone | c_UUID, c_UUID | c_Decimal, c_Decimal
  | c_Fraction, c_Fraction => true
  | c_Enum n, c_Enum n' => String.eqb n n'
  | c_other n, c_other n' => String.eqb n n'
  | c_sub n a', c_sub n' b' => String.eqb n n' && pyclass_eqb a' b'
  | _, _ => false
  end.

(** [args[1] == NoneType] *)
Definition is_NoneType (t : ftype) : bool :=
  match t with TClass c_NoneType => true | _ => false end.

Definition is_dataclass (t : ftype) : bool :=
  match t with TDataclass _ => true | _ => false end.

Definition is_class_var (t : ftype) : bool :=
  match t with TClassVar _ => true | _ => false end.

Definition is_init_var (t : ftype) : bool :=
  match t with TInitVar _ => true | _ => false end.

(** The name of a class as [typing] prints it in the [repr] of a
    subscripted type: qualified by its module, unless that is
    [builtins]. *)
Definition class_name (c : pyclass) : string :=
  match c with
  | c_list => "list" | c_deque => "collections.deque" | c_tuple => "tuple"
  | c_set => "set" | c_frozenset => "frozenset"
  | c_ChainMap => "collections.ChainMap" | c_dict => "dict"
  | c_Sequence => "collections.abc.Sequence"
  | c_Mapping => "collections.abc.Mapping"
  | c_AbstractSet => "collections.abc.Set"
  | c_bytes => "bytes" | c_bytearray => "bytearray" | c_str => "str"
  | c_PosixPath => "pathlib.PosixPath" | c_WindowsPath => "pathlib.WindowsPath"
  | c_Path => "pathlib.Path" | c_PurePosixPath => "pathlib.PurePosixPath"
  | c_PureWindowsPath => "pathlib.PureWindowsPath"
  | c_PurePath => "pathlib.PurePath" | c_PathLike => "os.PathLike"
  | c_Enum n => n
  | c_int => "int" | c_float => "float" | c_bool => "bool"
  | c_NoneType => "NoneType"
  | c_datetime => "datetime.datetime" | c_date => "datetime.date"
  | c_time => "datetime.time" | c_timedelta => "datetime.timedelta"
  | c_timezone => "datetime.timezone" | c_UUID => "uuid.UUID"
  | c_Decimal => "decimal.Decimal" | c_Fraction => "fractions.Fraction"
  | c_sub n _ => n
  | c_other n => n
  end.

Definition is_builtin (c : pyclass) : bool :=
  match c with
  | c_list | c_tuple | c_set | c_frozenset | c_dict | c_bytes | c_bytearray
  | c_str | c_int | c_float | c_bool | c_NoneType => true
  | _ => false
  end.

(** [f"{c.__module__}.{c.__qualname__}"] *)
Definition qualified_name (c : pyclass) : string :=
  if is_builtin c then "builtins." +:+ class_name c else class_name c.

(** The [typing] spelling of a subscripted generic. *)
Definition typing_alias (c : pyclass) : string :=
  match c with
  | c_list => "typing.List" | c_deque => "typing.Deque"
  | c_tuple => "typing.Tuple" | c_set => "typing.Set"
  | c_frozenset => "typing.FrozenSet" | c_ChainMap => "typing.ChainMap"
  | c_dict => "typing.Dict" | c_Sequence => "typing.Sequence"
  | c_Mapping => "typing.Mapping" | c_AbstractSet => "typing.AbstractSet"
  | _ => class_name c
  end.

(** [origin_type.__name__] for the three date and time classes. *)
Definition short_name (c : pyclass) : string :=
  match c with
  | c_datetime => "datetime" | c_date => "date" | c_time => "time"
  | _ => class_name c
  end.

Fixpoint join_with (sep : string) (l : list string) : string :=
  match l with
  | [] => ""
  | [x] => x
  | x :: l' => x +:+ sep +:+ join_with sep l'
  end.

(** [str(t)] for a construct of [typing], as CPython 3.9 and later print
    it: a union with [None] is an [Optional]. *)
Fixpoint type_repr (t : ftype) : string :=
  match t with
  | TClass c => class_name c
  | TGeneric o args =>
      typing_alias o +:+ "[" +:+ join_with ", " (map type_repr args) +:+ "]"
  | TDataclass n => n
  | TSerializableType n => n
  | TStrategy c => c
  | TAny => "typing.Any"
  | TUnion args =>
      match args with
      | [a; b] =>
          if is_NoneType b then "typing.Optional[" +:+ type_repr a +:+ "]"
          else if is_NoneType a then "typing.Optional[" +:+ type_repr b +:+ "]"
          else "typing.Union[" +:+ type_repr a +:+ ", " +:+ type_repr b +:+ "]"
      | _ => "typing.Union[" +:+ join_with ", " (map type_repr args) +:+ "]"
      end
  | TAnyStr => "typing.AnyStr"
  | TTypeVar n => n
  | TClassVar a => "typing.ClassVar[" +:+ type_repr a +:+ "]"
  | TInitVar a => "dataclasses.InitVar[" +:+ type_repr a +:+ "]"
  | TSpecial r => r
  end.

(** [type_name(t)]: the expression that names [t] in generated code and in
    error reports, [module.qualname] for a class and [str(t)] for a
    construct of [typing]. *)
Definition type_name (t : ftype) : string :=
  match t with
  | TClass c => qualified_name c
  | _ => type_repr t
  end.

(** ** Record types as the builder sees them

    A class is given by its [__mro__], the class itself first.  Of every
    class on it the builder reads the own [__annotations__], the class
    namespace, whether it is a dataclass, and its dataclass fields
    ([getattr(ancestor, _FIELDS)]). *)

Inductive meta_value :=
| MetaStr (s : string)
| MetaCallable (module qualname : string)      (* a function or a class *)
| MetaCallableObject (module : string) (has_dict : bool)
                                               (* callable, no __qualname__ *)
| MetaOther (repr : string).

Record Field := mkField {
  f_name : string;
  f_default : option value;            (* [None]: MISSING *)
  f_default_factory : option value;    (* what the factory returns *)
  f_metadata : list (string * meta_value);
  f_init : bool                        (* field(init=...) *)
}.

(** A value of the [defaults] dictionary. *)
Inductive dflt :=
| DMissing
| DValue (v : value)
| DFactory (makes : value).

Inductive ns_entry :=
| NSField (f : Field)       (* [name: T = field(...)] *)
| NSValue (v : value).      (* [name: T = v] *)

Record pyclass_info := mkClass {
  cls_name : string;
  cls_annotations : list (string * ftype);
  cls_namespace : list (string * ns_entry);
  cls_is_dataclass : bool;
  cls_fields : list Field
}.

(** [cls], as its [__mro__]. *)
Definition pycls := list pyclass_info.

Definition the_object : pyclass_info :=
  mkClass "object" [] [] false [].

Definition cls_self (cls : pycls) : pyclass_info := hd the_object cls.

(** A dictionary with string keys that keeps insertion order: assigning to
    a key that is present keeps its place. *)
Fixpoint dict_set {V} (k : string) (v : V) (d : list (string * V))
  : list (string * V) :=
  match d with
  | [] => [(k, v)]
  | (k', v') :: d' =>
      if String.eqb k k' then (k, v) :: d' else (k', v') :: dict_set k v d'
  end.

Fixpoint dict_get {V} (k : string) (d : list (string * V)) : option V :=
  match d with
  | [] => None
  | (k', v) :: d' => if String.eqb k k' then Some v else dict_get k d'
  end.

Definition dict_update {V} (d new : list (string * V)) : list (string * V) :=
  fold_left (fun acc kv => dict_set (fst kv) (snd kv) acc) new d.

(** [typing.get_type_hints(cls)]: the annotations of every class on the
    mro, base classes first. *)
Definition get_type_hints (cls : pycls) : list (string * ftype) :=
  fold_left (fun hints base => dict_update hints (cls_annotations base))
            (rev cls) [].

(** [self.namespace] and [self.annotations] *)
Definition namespace (cls : pycls) : list (string * ns_entry) :=
  cls_namespace (cls_self cls).

Definition annotations (cls : pycls) : list (string * ftype) :=
  cls_annotations (cls_self cls).

Definition in_keys {V} (k : string) (d : list (string * V)) : bool :=
  match dict_get k d with Some _ => true | None => false end.

(** [__get_field_types] *)
Definition get_field_types (cls : pycls) (recursive : bool)
  : list (string * ftype) :=
  fold_left
    (fun fields '(fname, ftype) =>
       if is_class_var ftype || is_init_var ftype then fields
       else if recursive || in_keys fname (annotations cls)
            then dict_set fname ftype fields
            else fields)
    (get_type_hints cls) [].

Definition field_types (cls : pycls) : list (string * ftype) :=
  get_field_types cls true.

(** [field.default if field.default is not MISSING else
    field.default_factory] *)
Definition field_dflt (f : Field) : dflt :=
  match f_default f with
  | Some v => DValue v
  | None =>
      match f_default_factory f with
      | Some v => DFactory v
      | None => DMissing
      end
  end.

(** [self.namespace.get(name, MISSING)], then the [isinstance(field, Field)]
    split. *)
Definition own_dflt (cls : pycls) (name : string) : dflt :=
  match dict_get name (namespace cls) with
  | Some (NSField f) => field_dflt f
  | Some (NSValue VMissing) => DMissing
  | Some (NSValue v) => DValue v
  | None => DMissing
  end.

(** The loop over one dataclass ancestor. *)
Definition defaults_of_ancestor (d : gmap string dflt) (ancestor : pyclass_info)
  : gmap string dflt :=
  if cls_is_dataclass ancestor then
    fold_left (fun d field => <[ f_name field := field_dflt field ]> d)
              (cls_fields ancestor) d
  else d.

(** [self.cls.__mro__[-1:0:-1]]: every class but the first, last one
    first. *)
Definition mro_ancestors (cls : pycls) : list pyclass_info := rev (tl cls).

(** The [defaults] property. *)
Definition defaults (cls : pycls) : gmap string dflt :=
  let d := fold_left defaults_of_ancestor (mro_ancestors cls) ∅ in
  fold_left (fun d '(name, _) => <[ name := own_dflt cls name ]> d)
            (get_field_types cls false) d.

(** The [metadatas] property. *)
Definition metadatas (cls : pycls)
  : gmap string (list (string * meta_value)) :=
  fold_left
    (fun d '(name, _) =>
       match dict_get name (namespace cls) with
       | Some (NSField f) => <[ name := f_metadata f ]> d
       | _ => d
       end)
    (get_field_types cls false) ∅.

(** ** Generated expressions

    What [_pack_value] and [_unpack_field_value] return: the source builds
    the text of a Python expression; here the expression is kept as a tree
    and [render] gives the text. *)

Inductive expr :=
| EName (x : string)                               (* x *)
| ECall (f : string) (arg : expr)                  (* f(arg) *)
| ECallKw (f kw : string) (arg : expr)             (* f(kw=arg) *)
| EMethod (obj : expr) (m : string)                (* obj.m() *)
| EMethodNone (obj : expr) (m : string)            (* obj.m(None) *)
| EAttr (obj : expr) (a : string)                  (* obj.a *)
| EToDict (obj : expr)
    (* obj.to_dict(use_bytes, use_enum, use_datetime) *)
| EFromDict (T : string) (arg : expr)
    (* T.from_dict(arg, use_bytes, use_enum, use_datetime) *)
| EStrategy (owner fname m : string) (arg : expr)
    (* owner.__dataclass_fields__['fname'].type.m(arg) *)
| EListComp (elt iter : expr)                      (* [elt for value in iter] *)
| EDictComp (k v iter : expr)
    (* {k: v for key, value in iter.items()} *)
| EChainPack (k v : expr)
    (* [{k:v for key,value in m.items()} for m in value.maps] *)
| EChainUnpack (k v iter : expr)
    (* collections.ChainMap( *[{k:v for key, value in m.items()} for m in iter]) *)
| EIfElse (a : expr) (flag : string) (b : expr).   (* a if flag else b *)

Fixpoint render (e : expr) : string :=
  match e with
  | EName x => x
  | ECall f a => f +:+ "(" +:+ render a +:+ ")"
  | ECallKw f kw a => f +:+ "(" +:+ kw +:+ "=" +:+ render a +:+ ")"
  | EMethod o m => render o +:+ "." +:+ m +:+ "()"
  | EMethodNone o m => render o +:+ "." +:+ m +:+ "(None)"
  | EAttr o a => render o +:+ "." +:+ a
  | EToDict o => render o +:+ ".to_dict(use_bytes, use_enum, use_datetime)"
  | EFromDict T a =>
      T +:+ ".from_dict(" +:+ render a +:+ ", use_bytes, use_enum, use_datetime)"
  | EStrategy owner fname m a =>
      owner +:+ ".__dataclass_fields__['" +:+ fname +:+ "'].type." +:+ m
      +:+ "(" +:+ render a +:+ ")"
  | EListComp elt iter =>
      "[" +:+ render elt +:+ " for value in " +:+ render iter +:+ "]"
  | EDictComp k v iter =>
      "{" +:+ render k +:+ ": " +:+ render v +:+ " for key, value in "
      +:+ render iter +:+ ".items()}"
  | EChainPack k v =>
      "[{" +:+ render k +:+ ":" +:+ render v
      +:+ " for key,value in m.items()} for m in value.maps]"
  | EChainUnpack k v iter =>
      "collections.ChainMap(*[{" +:+ render k +:+ ":" +:+ render v
      +:+ " for key, value in m.items()} for m in " +:+ render iter +:+ "])"
  | EIfElse a flag b =>
      render a +:+ " if " +:+ flag +:+ " else " +:+ render b
  end.

(** ** Errors raised while a class is being built *)

Inductive build_error :=
| UnserializableDataError (msg : string)
| UnserializableField (field_name : string) (field_type : ftype)
                      (holder_class : string) (msg : option string)
| BuildKeyError (key : string)        (* self.defaults[fname] *)
| BuildIndexError.                    (* args[arg_num] *)

Inductive build_result (A : Type) :=
| Built (a : A)
| BuildError (e : build_error).
Arguments Built {A} a.
Arguments BuildError {A} e.

Definition is_generic (t : ftype) : bool :=
  match t with TGeneric _ _ => true | _ => false end.

(** [ftype is c] *)
Definition ftype_is (t : ftype) (c : pyclass) : bool :=
  match t with TClass c' => pyclass_eqb c' c | _ => false end.

(** [str(ftype)] in the last of the four messages. *)
Definition not_supported_msg (t : ftype) : string :=
  type_repr t +:+ " as a field type is not supported by mashumaro".

Section PackByOrigin.

(** The part of [_pack_value] below [origin_type = get_type_origin(ftype)]
    for an [origin_type] that is a class; [inner_expr] is the local
    function of the same name. *)
Variables (fname : string) (ftype_ : ftype) (parent : string)
          (value_name : string) (origin_type : pyclass) (args : list ftype).
Variable inner_expr : nat -> string -> build_result expr.

Definition args0_is_dataclass : build_result bool :=
  match args with
  | a :: _ => Built (is_dataclass a)
  | [] => BuildError BuildIndexError
  end.

Definition unserializable (msg : option string) : build_result expr :=
  BuildError (UnserializableField fname ftype_ parent msg).

Definition build_bind {A B} (r : build_result A) (k : A -> build_result B)
  : build_result B :=
  match r with
  | Built a => k a
  | BuildError e => BuildError e
  end.

Definition pack_by_origin : build_result expr :=
  let v := EName value_name in
  if issubclass origin_type Collection then
    if issubclass origin_type List_ || issubclass origin_type Deque_
       || issubclass origin_type Tuple_ || issubclass origin_type AbstractSet_
    then
      if is_generic ftype_ then
        build_bind (inner_expr 0 "value") (fun e => Built (EListComp e v))
      else if ftype_is ftype_ c_list then
        unserializable (Some "Use typing.List[T] instead")
      else if ftype_is ftype_ c_deque then
        unserializable (Some "Use typing.Deque[T] instead")
      else if ftype_is ftype_ c_tuple then
        unserializable (Some "Use typing.Tuple[T] instead")
      else if ftype_is ftype_ c_set then
        unserializable (Some "Use typing.Set[T] instead")
      else if ftype_is ftype_ c_frozenset then
        unserializable (Some "Use typing.FrozenSet[T] instead")
      else unserializable None
    else if issubclass origin_type ChainMap_ then
      if ftype_is ftype_ c_ChainMap then
        unserializable (Some "Use typing.ChainMap[KT,VT] instead")
      else if is_generic ftype_ then
        build_bind args0_is_dataclass (fun dc =>
        if dc then
          BuildError (UnserializableDataError
            "ChainMaps with dataclasses as keys are not supported by mashumaro")
        else
          build_bind (inner_expr 0 "key") (fun k =>
          build_bind (inner_expr 1 "value") (fun e =>
          Built (EChainPack k e))))
      else unserializable None
    else if issubclass origin_type Mapping_ then
      if ftype_is ftype_ c_dict then
        unserializable
          (Some "Use typing.Dict[KT,VT] or Mapping[KT,VT] instead")
      else if is_generic ftype_ then
        build_bind args0_is_dataclass (fun dc =>
        if dc then
          BuildError (UnserializableDataError
            "Mappings with dataclasses as keys are not supported by mashumaro")
        else
          build_bind (inner_expr 0 "key") (fun k =>
          build_bind (inner_expr 1 "value") (fun e =>
          Built (EDictComp k e v))))
      else unserializable None
    else if issubclass origin_type ByteString_ then
      Built (EIfElse v "use_bytes" (EMethod (ECall "encodebytes" v) "decode"))
    else if issubclass origin_type Str_ then
      Built v
    else if issubclass origin_type Sequence_ then
      if is_generic ftype_ then
        build_bind (inner_expr 0 "value") (fun e => Built (EListComp e v))
      else unserializable None
    else unserializable None
  else if issubclass origin_type PathLike_ then
    Built (EMethod v "__fspath__")
  else if issubclass origin_type Enum_ then
    Built (EIfElse v "use_enum" (EAttr v "value"))
  else if pyclass_eqb origin_type c_int then Built (ECall "int" v)
  else if pyclass_eqb origin_type c_float then Built (ECall "float" v)
  else if pyclass_eqb origin_type c_bool || pyclass_eqb origin_type c_NoneType
  then Built v
  else if pyclass_eqb origin_type c_datetime || pyclass_eqb origin_type c_date
          || pyclass_eqb origin_type c_time
  then Built (EIfElse v "use_datetime" (EMethod v "isoformat"))
  else if pyclass_eqb origin_type c_timedelta then
    Built (EMethod v "total_seconds")
  else if pyclass_eqb origin_type c_timezone then
    Built (EMethodNone v "tzname")
  else if pyclass_eqb origin_type c_UUID then Built (ECall "str" v)
  else if pyclass_eqb origin_type c_Decimal then Built (ECall "str" v)
  else if pyclass_eqb origin_type c_Fraction then Built (ECall "str" v)
  else unserializable None.

End PackByOrigin.

Fixpoint _pack_value (fname : string) (ftype_ : ftype) (parent : string)
                     (value_name : string) {struct ftype_}
  : build_result expr :=
  let inner_expr :=
    fix inner (args : list ftype) (arg_num : nat) (v_name : string)
      : build_result expr :=
      match args, arg_num with
      | a :: _, O => _pack_value fname a parent v_name
      | _ :: args', S n => inner args' n v_name
      | [], _ => BuildError BuildIndexError
      end in
  match ftype_ with
  | TDataclass _ => Built (EToDict (EName value_name))
  | TSerializableType _ => Built (EMethod (EName value_name) "_serialize")
  | TStrategy _ =>
      Built (EStrategy "self" fname "_serialize" (EName value_name))
  (* is_special_typing_primitive(origin_type) *)
  | TAny => Built (EName value_name)
  | TUnion args =>
      match args with
      | [a0; a1] =>
          if is_NoneType a1                          (* it is Optional *)
          then _pack_value fname a0 parent "value"
          else BuildError (UnserializableDataError
                             "Unions are not supported by mashumaro")
      | _ => BuildError (UnserializableDataError
                           "Unions are not supported by mashumaro")
      end
  | TAnyStr =>
      BuildError (UnserializableDataError "AnyStr is not supported by mashumaro")
  | TTypeVar _ =>
      BuildError (UnserializableDataError
                    "TypeVars are not supported by mashumaro")
  | TClassVar _ | TInitVar _ | TSpecial _ =>
      BuildError (UnserializableDataError (not_supported_msg ftype_))
  (* origin_type is a class *)
  | TClass origin_type =>
      pack_by_origin fname ftype_ parent value_name origin_type []
                     (inner_expr [])
  | TGeneric origin_type args =>
      pack_by_origin fname ftype_ parent value_name origin_type args
                     (inner_expr args)
  end.

(** ** The builder monad

    A builder method threads the [CodeBuilder] and may raise. *)

Definition M (A : Type) : Type := CodeBuilder -> build_result (A * CodeBuilder).

Definition m_ret {A} (a : A) : M A := fun b => Built (a, b).

Definition m_fail {A} (e : build_error) : M A := fun _ => BuildError e.

Definition m_bind {A B} (m : M A) (k : A -> M B) : M B :=
  fun b =>
    match m b with
    | Built (a, b') => k a b'
    | BuildError e => BuildError e
    end.

(** A method that only changes the builder. *)
Definition m_do (f : CodeBuilder -> CodeBuilder) : M unit :=
  fun b => Built (tt, f b).

Definition m_lift {A} (r : build_result A) : M A :=
  fun b =>
    match r with
    | Built a => Built (a, b)
    | BuildError e => BuildError e
    end.

Declare Scope m_scope.
Delimit Scope m_scope with M.
Notation "'do!' x := m 'in' k" := (m_bind m (fun x => k))
  (at level 10, x name, m at level 100, k at level 200) : m_scope.
Notation "m ;;; k" := (m_bind m (fun _ => k))
  (at level 100, k at level 200, right associativity) : m_scope.

(** [with self.indent(): body] when the body may raise. *)
Definition m_indent {A} (body : M A) : M A :=
  fun b =>
    match body (set_indent (_current_indent b +:+ spaces 4) b) with
    | Built (a, b1) => Built (a, set_indent (drop_last 4 (_current_indent b1)) b1)
    | BuildError e => BuildError e
    end.

Definition m_add_line (line : string) : M unit := m_do (add_line line).

Definition meta_str (d : option meta_value) : string :=
  match d with
  | None => "None"
  | Some (MetaStr s) => s
  | Some (MetaCallable m q) => "<function " +:+ q +:+ ">"
  | Some (MetaCallableObject m _) => "<" +:+ m +:+ " object>"
  | Some (MetaOther r) => r
  end.

(** [callable(deserialize)] *)
Definition callable (d : option meta_value) : bool :=
  match d with
  | Some (MetaCallable _ _) | Some (MetaCallableObject _ _) => true
  | _ => false
  end.

Section UnpackByOrigin.

Variables (fname : string) (ftype_ : ftype) (parent : string)
          (value_name : string) (origin_type : pyclass) (args : list ftype)
          (metadata : option (list (string * meta_value))).
Variable inner_expr : nat -> string -> M expr.

Local Open Scope m_scope.

Definition m_unserializable (msg : option string) : M expr :=
  m_fail (UnserializableField fname ftype_ parent msg).

(** [[inner_expr() for value in value_name]], wrapped in [ctor(...)] when
    a constructor is given. *)
Definition unpack_sequence (ctor : option string) : M expr :=
  do! e := inner_expr 0 "value" in
  let comp := EListComp e (EName value_name) in
  m_ret (match ctor with Some c => ECall c comp | None => comp end).

(** The date and time branch. *)
Definition unpack_datetime : M expr :=
  let v := EName value_name in
  match metadata with
  | Some md =>
      let deserialize := dict_get "deserialize" md in
      do! datetime_parser :=
        match deserialize with
        | Some (MetaStr s) =>
            if String.eqb s "ciso8601" then
              m_do (ensure_module_imported "ciso8601") ;;;
              m_ret (Some "ciso8601.parse_datetime")
            else if String.eqb s "pendulum" then
              m_do (ensure_module_imported "pendulum") ;;;
              m_ret (Some "pendulum.parse")
            else m_ret None
        | Some (MetaCallable module qualname) =>
            m_do (ensure_module_imported module) ;;;
            m_ret (Some (module +:+ "." +:+ qualname))
        | Some (MetaCallableObject module has_dict) =>
            m_do (ensure_module_imported module) ;;;
            if has_dict then
              m_unserializable
                (Some ("Using callable class instances in field "
                       +:+ "metadata deserialize option isn't supported yet"))
              ;;; m_ret None
            else m_ret None
        | _ => m_ret None
        end in
      match datetime_parser with
      | None =>
          m_unserializable
            (Some ("Unsupported field metadata deserialize option value: "
                   +:+ meta_str deserialize))
      | Some parser =>
          let parsed := ECall parser v in
          let suffixed :=
            if callable deserialize then parsed
            else if pyclass_eqb origin_type c_date then EMethod parsed "date"
            else if pyclass_eqb origin_type c_time then EMethod parsed "time"
            else parsed in
          m_ret (EIfElse v "use_datetime" suffixed)
      end
  | None =>
      m_ret (EIfElse v "use_datetime"
               (ECall ("datetime." +:+ short_name origin_type
                       +:+ ".fromisoformat") v))
  end.

Definition m_args0_is_dataclass : M bool := m_lift (args0_is_dataclass args).

Definition unpack_by_origin : M expr :=
  let v := EName value_name in
  if issubclass origin_type Collection then
    if issubclass origin_type List_ then
      if is_generic ftype_ then unpack_sequence None
      else if ftype_is ftype_ c_list then
        m_unserializable (Some "Use typing.List[T] instead")
      else m_unserializable None
    else if issubclass origin_type Deque_ then
      if is_generic ftype_ then unpack_sequence (Some "collections.deque")
      else if ftype_is ftype_ c_deque then
        m_unserializable (Some "Use typing.Deque[T] instead")
      else m_unserializable None
    else if issubclass origin_type Tuple_ then
      if is_generic ftype_ then unpack_sequence (Some "tuple")
      else if ftype_is ftype_ c_tuple then
        m_unserializable (Some "Use typing.Tuple[T] instead")
      else m_unserializable None
    else if issubclass origin_type FrozenSet_ then
      if is_generic ftype_ then unpack_sequence (Some "frozenset")
      else if ftype_is ftype_ c_frozenset then
        m_unserializable (Some "Use typing.FrozenSet[T] instead")
      else m_unserializable None
    else if issubclass origin_type AbstractSet_ then
      if is_generic ftype_ then unpack_sequence (Some "set")
      else if ftype_is ftype_ c_set then
        m_unserializable (Some "Use typing.Set[T] instead")
      else m_unserializable None
    else if issubclass origin_type ChainMap_ then
      if ftype_is ftype_ c_ChainMap then
        m_unserializable (Some "Use typing.ChainMap[KT,VT] instead")
      else if is_generic ftype_ then
        do! dc := m_args0_is_dataclass in
        if dc then
          m_fail (UnserializableDataError
            "ChainMaps with dataclasses as keys are not supported by mashumaro")
        else
          do! k := inner_expr 0 "key" in
          do! e := inner_expr 1 "value" in
          m_ret (EChainUnpack k e v)
      else m_unserializable None
    else if issubclass origin_type Mapping_ then
      if ftype_is ftype_ c_dict then
        m_unserializable
          (Some "Use typing.Dict[KT,VT] or Mapping[KT,VT] instead")
      else if is_generic ftype_ then
        do! dc := m_args0_is_dataclass in
        if dc then
          m_fail (UnserializableDataError
            "Mappings with dataclasses as keys are not supported by mashumaro")
        else
          do! k := inner_expr 0 "key" in
          do! e := inner_expr 1 "value" in
          m_ret (EDictComp k e v)
      else m_unserializable None
    else if issubclass origin_type ByteString_ then
      let decoded :=
        EIfElse v "use_bytes" (ECall "decodebytes" (EMethod v "encode")) in
      if pyclass_eqb origin_type c_bytes then m_ret decoded
      else if pyclass_eqb origin_type c_bytearray then
        m_ret (ECall "bytearray" decoded)
      else m_unserializable None
    else if issubclass origin_type Str_ then m_ret v
    else if issubclass origin_type Sequence_ then
      if is_generic ftype_ then unpack_sequence None
      else m_unserializable None
    else m_unserializable None
  else if issubclass origin_type PathLike_ then
    if issubclass origin_type PosixPath_ then
      m_ret (ECall "pathlib.PosixPath" v)
    else if issubclass origin_type WindowsPath_ then
      m_ret (ECall "pathlib.WindowsPath" v)
    else if issubclass origin_type Path_ then m_ret (ECall "pathlib.Path" v)
    else if issubclass origin_type PurePosixPath_ then
      m_ret (ECall "pathlib.PurePosixPath" v)
    else if issubclass origin_type PureWindowsPath_ then
      m_ret (ECall "pathlib.PureWindowsPath" v)
    else if issubclass origin_type PurePath_ then
      m_ret (ECall "pathlib.PurePath" v)
    else if pyclass_eqb origin_type c_PathLike then
      m_ret (ECall "pathlib.PurePath" v)
    else m_ret (ECall (qualified_name origin_type) v)
  else if issubclass origin_type Enum_ then
    m_ret (EIfElse v "use_enum" (ECall (qualified_name origin_type) v))
  else if pyclass_eqb origin_type c_int then m_ret (ECall "int" v)
  else if pyclass_eqb origin_type c_float then m_ret (ECall "float" v)
  else if pyclass_eqb origin_type c_bool || pyclass_eqb origin_type c_NoneType
  then m_ret v
  else if pyclass_eqb origin_type c_datetime || pyclass_eqb origin_type c_date
          || pyclass_eqb origin_type c_time
  then unpack_datetime
  else if pyclass_eqb origin_type c_timedelta then
    m_ret (ECallKw "datetime.timedelta" "seconds" v)
  else if pyclass_eqb origin_type c_timezone then
    m_ret (ECall "parse_timezone" v)
  else if pyclass_eqb origin_type c_UUID then m_ret (ECall "uuid.UUID" v)
  else if pyclass_eqb origin_type c_Decimal then m_ret (ECall "Decimal" v)
  else if pyclass_eqb origin_type c_Fraction then m_ret (ECall "Fraction" v)
  else m_unserializable None.

End UnpackByOrigin.

Fixpoint _unpack_field_value (fname : string) (ftype_ : ftype)
    (parent : string) (value_name : string)
    (metadata : option (list (string * meta_value))) {struct ftype_}
  : M expr :=
  let inner_expr :=
    fix inner (args : list ftype) (arg_num : nat) (v_name : string)
      : M expr :=
      match args, arg_num with
      | a :: _, O => _unpack_field_value fname a parent v_name None
      | _ :: args', S n => inner args' n v_name
      | [], _ => m_fail BuildIndexError
      end in
  match ftype_ with
  | TDataclass _ => m_ret (EFromDict (type_name ftype_) (EName value_name))
  | TSerializableType _ =>
      m_ret (ECall (type_name ftype_ +:+ "._deserialize") (EName value_name))
  | TStrategy _ =>
      m_ret (EStrategy "cls" fname "_deserialize" (EName value_name))
  (* is_special_typing_primitive(origin_type) *)
  | TAny => m_ret (EName value_name)
  | TUnion args =>
      match args with
      | [a0; a1] =>
          if is_NoneType a1                          (* it is Optional *)
          then _unpack_field_value fname a0 parent "value" None
          else m_fail (UnserializableDataError
                         "Unions are not supported by mashumaro")
      | _ => m_fail (UnserializableDataError
                       "Unions are not supported by mashumaro")
      end
  | TAnyStr =>
      m_fail (UnserializableDataError "AnyStr is not supported by mashumaro")
  | TTypeVar _ =>
      m_fail (UnserializableDataError "TypeVars are not supported by mashumaro")
  | TClassVar _ | TInitVar _ | TSpecial _ =>
      m_fail (UnserializableDataError (not_supported_msg ftype_))
  (* origin_type is a class *)
  | TClass origin_type =>
      unpack_by_origin fname ftype_ parent value_name origin_type []
                       metadata (inner_expr [])
  | TGeneric origin_type args =>
      unpack_by_origin fname ftype_ parent value_name origin_type args
                       metadata (inner_expr args)
  end.

(** ** Modules of the annotated types *)

(** The text before the last dot of a qualified name; ["__main__"] when
    there is no dot. *)
Fixpoint split_last_dot (s : string) : option string :=
  match s with
  | EmptyString => None
  | String c s' =>
      match split_last_dot s' with
      | Some m => Some (String c m)
      | None => if Ascii.eqb c "."%char then Some "" else None
      end
  end.

Definition module_of_name (n : string) : string :=
  match split_last_dot n with
  | Some m => m
  | None => "__main__"
  end.

Definition class_module (c : pyclass) : string :=
  match c with
  | c_list | c_tuple | c_set | c_frozenset | c_dict | c_bytes | c_bytearray
  | c_str | c_int | c_float | c_bool | c_NoneType => "builtins"
  | c_deque | c_ChainMap => "collections"
  | c_Sequence | c_Mapping | c_AbstractSet => "collections.abc"
  | c_PosixPath | c_WindowsPath | c_Path | c_PurePosixPath
  | c_PureWindowsPath | c_PurePath => "pathlib"
  | c_PathLike => "os"
  | c_datetime | c_date | c_time | c_timedelta | c_timezone => "datetime"
  | c_UUID => "uuid"
  | c_Decimal => "decimal"
  | c_Fraction => "fractions"
  | c_Enum n | c_sub n _ | c_other n => module_of_name n
  end.

(** [getattr(t, "__module__", None)] *)
Definition type_module (t : ftype) : option string :=
  match t with
  | TClass c => Some (class_module c)
  | TDataclass n | TSerializableType n | TStrategy n => Some (module_of_name n)
  | TGeneric _ _ | TAny | TUnion _ | TAnyStr | TTypeVar _ | TClassVar _
  | TSpecial _ => Some "typing"
  | TInitVar _ => Some "dataclasses"
  end.

(** [_add_type_modules(t)] for one type.  The flag tells whether the loop
    of the caller goes on: the source leaves it by [return] at a type
    without a module. *)
Fixpoint _add_type_modules (t : ftype) (b : CodeBuilder) {struct t}
  : bool * CodeBuilder :=
  let each :=
    fix each (l : list ftype) (b : CodeBuilder) : CodeBuilder :=
      match l with
      | [] => b
      | a :: l' =>
          let '(go_on, b') := _add_type_modules a b in
          if go_on then each l' b' else b'
      end in
  match type_module t with
  | None => (false, b)
  | Some module =>
      let b := ensure_module_imported module b in
      match t with
      | TGeneric _ args | TUnion args => (true, each args b)    (* __args__ *)
      | TClassVar a | TInitVar a => (true, snd (_add_type_modules a b))
      | TAnyStr =>                                      (* __constraints__ *)
          (true, ensure_module_imported "builtins"
                   (ensure_module_imported "builtins" b))
      | _ => (true, b)
      end
  end.

(** ** The two generated routines

    [add_from_dict] and [add_to_dict] write the lines of the routine and
    [compile] them.  What the compiled routine does is fixed by one entry
    per field: the plan returned here next to the lines. *)

Record field_plan := mkPlan {
  fp_name : string;
  fp_required : bool;          (* self.defaults[fname] is MISSING *)
  fp_type_name : string;       (* the type named in the two error reports *)
  fp_expr : expr               (* unpacked_value *)
}.

Fixpoint m_for {A B} (l : list A) (body : A -> M B) : M (list B) :=
  match l with
  | [] => m_ret []
  | x :: l' =>
      m_bind (body x) (fun y =>
      m_bind (m_for l' body) (fun ys => m_ret (y :: ys)))
  end.

Definition is_DMissing (d : dflt) : bool :=
  match d with DMissing => true | _ => false end.

Section AddFromDict.

Variable INITIAL_MODULES : gset string.
Variable cls : pycls.

Local Open Scope m_scope.

Definition cls_qualname : string := cls_name (cls_self cls).

(** [type_name(ftype.__class__)] for a strategy, [type_name(ftype)]
    otherwise: [type_name] of a [TStrategy] already is its class. *)
Definition field_type_name (ftype_ : ftype) : string := type_name ftype_.

(** The [try] / [except Exception] block around the assignment. *)
Definition add_unpack_block (fname : string) (ftype_ : ftype)
    (metadata : option (list (string * meta_value))) : M expr :=
  do! unpacked_value :=
    _unpack_field_value fname ftype_ cls_qualname "value" metadata in
  m_add_line "try:" ;;;
  m_indent (m_add_line ("kwargs['" +:+ fname +:+ "'] = "
                        +:+ render unpacked_value)) ;;;
  m_add_line "except Exception as e:" ;;;
  m_indent (m_add_line ("raise InvalidFieldValue('" +:+ fname +:+ "',"
                        +:+ field_type_name ftype_ +:+ ",value,cls)")) ;;;
  m_ret unpacked_value.

(** The body of the loop over [self.field_types.items()]. *)
Definition add_from_dict_field (field : string * ftype) : M field_plan :=
  let '(fname, ftype_) := field in
  let metadata := metadatas cls !! fname in
  m_do (fun b => snd (_add_type_modules ftype_ b)) ;;;
  m_add_line ("value = d.get('" +:+ fname +:+ "', MISSING)") ;;;
  m_add_line "if value is None:" ;;;
  m_indent (m_add_line ("kwargs['" +:+ fname +:+ "'] = None")) ;;;
  m_add_line "else:" ;;;
  m_indent (
    match defaults cls !! fname with
    | None => m_fail (BuildKeyError fname)
    | Some dv =>
        if is_DMissing dv then
          m_add_line "if value is MISSING:" ;;;
          m_indent (m_add_line ("raise MissingField('" +:+ fname +:+ "',"
                                +:+ field_type_name ftype_ +:+ ",cls)")) ;;;
          m_add_line "else:" ;;;
          do! e := m_indent (add_unpack_block fname ftype_ metadata) in
          m_ret (mkPlan fname true (field_type_name ftype_) e)
        else
          m_add_line "if value is not MISSING:" ;;;
          do! e := m_indent (add_unpack_block fname ftype_ metadata) in
          m_ret (mkPlan fname false (field_type_name ftype_) e)
    end).

Definition add_from_dict : M (list field_plan) :=
  m_do (reset INITIAL_MODULES) ;;;
  m_add_line "@classmethod" ;;;
  m_add_line ("def from_dict(cls, d, use_bytes=False, use_enum=False, "
              +:+ "use_datetime=False):") ;;;
  do! plans := m_indent (
    m_add_line "try:" ;;;
    do! plans := m_indent (
      m_add_line "kwargs = {}" ;;;
      m_for (field_types cls) add_from_dict_field) in
    m_add_line "except AttributeError:" ;;;
    m_indent (
      m_add_line "if not isinstance(d, dict):" ;;;
      m_indent (m_add_line ("raise ValueError('Argument for "
                            +:+ cls_qualname +:+ ".from_dict method "
                            +:+ "should be a dict instance') from None")) ;;;
      m_add_line "else:" ;;;
      m_indent (m_add_line "raise")) ;;;
    m_add_line "return cls(**kwargs)" ;;;
    m_ret plans) in
  m_add_line "setattr(cls, 'from_dict', from_dict)" ;;;
  m_ret plans.

(** The body of the loop of [add_to_dict]. *)
Definition add_to_dict_field (field : string * ftype) : M (string * expr) :=
  let '(fname, ftype_) := field in
  m_add_line ("value = getattr(self, '" +:+ fname +:+ "')") ;;;
  m_add_line "if value is None:" ;;;
  m_indent (m_add_line ("kwargs['" +:+ fname +:+ "'] = None")) ;;;
  m_add_line "else:" ;;;
  do! packed_value := m_indent (
    do! packed_value :=
      m_lift (_pack_value fname ftype_ cls_qualname "value") in
    m_add_line ("kwargs['" +:+ fname +:+ "'] = " +:+ render packed_value) ;;;
    m_ret packed_value) in
  m_ret (fname, packed_value).

Definition add_to_dict : M (list (string * expr)) :=
  m_do (reset INITIAL_MODULES) ;;;
  m_add_line ("def to_dict(self, use_bytes=False, use_enum=False, "
              +:+ "use_datetime=False):") ;;;
  do! plans := m_indent (
    m_add_line "kwargs = {}" ;;;
    do! plans := m_for (field_types cls) add_to_dict_field in
    m_add_line "return kwargs" ;;;
    m_ret plans) in
  m_add_line "setattr(cls, 'to_dict', to_dict)" ;;;
  m_ret plans.

End AddFromDict.

(** A fresh [CodeBuilder(cls)]. *)
Definition new_builder : CodeBuilder :=
  {| lines := []; modules := ∅; globals := ∅; _current_indent := "" |}.

(** ** Python built-ins on values *)

Definition is_space (c : ascii) : bool :=
  let n := nat_of_ascii c in
  Nat.eqb n 32 || (Nat.leb 9 n && Nat.leb n 13).

Definition is_digit (c : ascii) : bool :=
  let n := nat_of_ascii c in Nat.leb 48 n && Nat.leb n 57.

Definition digit_val (c : ascii) : Z := Z.of_nat (nat_of_ascii c) - 48.

Fixpoint lstrip (s : string) : string :=
  match s with
  | String c s' => if is_space c then lstrip s' else s
  | EmptyString => s
  end.

Fixpoint rstrip (s : string) : string :=
  match s with
  | EmptyString => ""
  | String c s' =>
      match rstrip s' with
      | EmptyString => if is_space c then "" else String c ""
      | r => String c r
      end
  end.

(** Digits with single underscores between them, as [int] accepts;
    [acc] is the value read so far and [after_digit] tells whether the
    previous character was a digit. *)
Fixpoint parse_digits (s : string) (acc : Z) (after_digit : bool)
  : option Z :=
  match s with
  | EmptyString => if after_digit then Some acc else None
  | String c s' =>
      if is_digit c then parse_digits s' (10 * acc + digit_val c) true
      else if Ascii.eqb c "_"%char && after_digit then
        parse_digits s' acc false
      else None
  end.

(** [int(s)] for a string in base ten. *)
Definition parse_int (s : string) : option Z :=
  match rstrip (lstrip s) with
  | String "-" s' => option_map Z.opp (parse_digits s' 0 false)
  | String "+" s' => parse_digits s' 0 false
  | s' => parse_digits s' 0 false
  end.

Definition type_of (v : value) : string :=
  match v with
  | VNone => "NoneType" | VMissing => "_MISSING_TYPE" | VBool _ => "bool"
  | VInt _ => "int" | VStr _ => "str" | VBytes _ => "bytes"
  | VSeq KList _ => "list" | VSeq KTuple _ => "tuple" | VSeq KSet _ => "set"
  | VSeq KFrozenSet _ => "frozenset" | VSeq KDeque _ => "collections.deque"
  | VDict _ => "dict" | VChainMap _ => "collections.ChainMap"
  | VObj c _ => c | VForeign c _ => c
  end.

Definition no_attribute {A} (v : value) (a : string) : py_result A :=
  raise (AttributeError
           ("'" +:+ type_of v +:+ "' object has no attribute '" +:+ a +:+ "'")).

(** [hash(v)] succeeds. *)
Fixpoint hashable (v : value) : bool :=
  match v with
  | VNone | VMissing | VBool _ | VInt _ | VStr _ | VBytes _ => true
  | VSeq KTuple l => forallb hashable l
  | VSeq KFrozenSet _ => true
  | VSeq _ _ | VDict _ | VChainMap _ | VObj _ _ => false
  | VForeign _ _ => true
  end.

(** [a == b] between hashable values: structural, with [True == 1],
    [False == 0], and frozen sets compared as sets. *)
Fixpoint key_eqb (a b : value) {struct a} : bool :=
  let fix all2 (xs ys : list value) {struct xs} : bool :=
    match xs, ys with
    | [], [] => true
    | x :: xs', y :: ys' => key_eqb x y && all2 xs' ys'
    | _, _ => false
    end in
  let fix subset (xs ys : list value) {struct xs} : bool :=
    match xs with
    | [] => true
    | x :: xs' => existsb (key_eqb x) ys && subset xs' ys
    end in
  match a, b with
  | VBool x, VInt y => Z.eqb (if x then 1 else 0) y
  | VInt x, VBool y => Z.eqb x (if y then 1 else 0)
  | VSeq KTuple xs, VSeq KTuple ys => all2 xs ys
  | VSeq KFrozenSet xs, VSeq KFrozenSet ys =>
      subset xs ys && Nat.eqb (length xs) (length ys)
  | _, _ => value_eqb a b
  end.

(** [d[k] = v] on the items of a dictionary. *)
Fixpoint items_set (k v : value) (items : list (value * value))
  : list (value * value) :=
  match items with
  | [] => [(k, v)]
  | (k', v') :: items' =>
      if key_eqb k k' then (k', v) :: items'
      else (k', v') :: items_set k v items'
  end.

Fixpoint items_get (k : value) (items : list (value * value)) : option value :=
  match items with
  | [] => None
  | (k', v) :: items' => if key_eqb k k' then Some v else items_get k items'
  end.

Definition unhashable {A} (v : value) : py_result A :=
  raise (TypeError ("unhashable type: '" +:+ type_of v +:+ "'")).

(** [set(l)] / [frozenset(l)]: the distinct elements, first occurrences
    kept. *)
Fixpoint set_of_list (l seen : list value) : py_result (list value) :=
  match l with
  | [] => Return (rev seen)
  | x :: l' =>
      if negb (hashable x) then unhashable x
      else if existsb (key_eqb x) seen then set_of_list l' seen
      else set_of_list l' (x :: seen)
  end.

Definition chars_of (s : string) : list value :=
  map (fun c => VStr (String c "")) (list_ascii_of_string s).

Definition bytes_of (s : string) : list value :=
  map (fun c => VInt (Z.of_nat (nat_of_ascii c))) (list_ascii_of_string s).

Definition items_of (v : value) : list (value * value) :=
  match v with VDict items => items | _ => [] end.

(** The items a [ChainMap] shows: every key of any map, with the value
    of the first map that has it; keys in the order of [ChainMap.__iter__]
    (last map first). *)
Definition chain_items (maps : list value) : list (value * value) :=
  let keys :=
    fold_left (fun acc m =>
                 fold_left (fun acc kv => items_set (fst kv) VNone acc)
                           (items_of m) acc)
              (rev maps) [] in
  let lookup k :=
    fold_right (fun m r =>
                  match items_get k (items_of m) with
                  | Some v => v
                  | None => r
                  end)
               VNone maps in
  map (fun kv => (fst kv, lookup (fst kv))) keys.

Definition is_dict (v : value) : bool :=
  match v with VDict _ => true | _ => false end.

Record flags := mkFlags {
  use_bytes : bool;
  use_enum : bool;
  use_datetime : bool
}.

(** A routine of a record type, called from a generated expression. *)
Inductive routine :=
| ToDict (self : value)
| FromDict (T : string) (d : value).

(** ** What the generated routines do

    [extern] stands for everything that is not generated code or a
    built-in on the values above: library functions ([encodebytes],
    [uuid.UUID], [datetime.date.fromisoformat], ...), methods and
    attributes of foreign objects, and the hooks of user classes.  It is
    named by the text of the callee. *)

Section Semantics.

Variable extern : string -> list value -> py_result value.

Local Open Scope py_scope.

(** [int(v)] *)
Definition py_int (v : value) : py_result value :=
  match v with
  | VInt z => Return (VInt z)
  | VBool b => Return (VInt (if b then 1 else 0))
  | VStr s | VBytes s =>
      match parse_int s with
      | Some z => Return (VInt z)
      | None =>
          raise (ValueError
                   ("invalid literal for int() with base 10: '" +:+ s +:+ "'"))
      end
  | VForeign _ _ => extern "int" [v]
  | _ =>
      raise (TypeError
               ("int() argument must be a string, a bytes-like object or a "
                +:+ "real number, not '" +:+ type_of v +:+ "'"))
  end.

(** [str(v)] *)
Definition py_str (v : value) : py_result value :=
  match v with
  | VStr s => Return (VStr s)
  | VNone => Return (VStr "None")
  | VBool b => Return (VStr (if b then "True" else "False"))
  | _ => extern "str" [v]
  end.

(** [iter(v)], run to the end. *)
Definition py_iter (v : value) : py_result (list value) :=
  match v with
  | VSeq _ l => Return l
  | VDict items => Return (map fst items)
  | VChainMap maps => Return (map fst (chain_items maps))
  | VStr s => Return (chars_of s)
  | VBytes s => Return (bytes_of s)
  | VForeign _ _ =>
      match extern "iter" [v] with
      | Return (VSeq KList l) => Return l
      | Return _ => raise (TypeError "iter() returned non-iterator")
      | Raise e => Raise e
      end
  | _ => raise (TypeError ("'" +:+ type_of v +:+ "' object is not iterable"))
  end.

Definition pair_of (v : value) : py_result (value * value) :=
  match v with
  | VSeq _ [k; x] => Return (k, x)
  | _ => raise (ValueError "not enough values to unpack (expected 2)")
  end.

(** [list(v.items())] *)
Definition py_items (v : value) : py_result (list (value * value)) :=
  match v with
  | VDict items => Return items
  | VChainMap maps => Return (chain_items maps)
  | VForeign _ _ =>
      match extern ".items" [v] with
      | Return r =>
          match py_iter r with
          | Return l => py_mapM pair_of l
          | Raise e => Raise e
          end
      | Raise e => Raise e
      end
  | _ => no_attribute v "items"
  end.

(** [f( *args)] for an object [f]: of the values above only foreign
    objects can be called. *)
Definition py_call_object (f : value) (args : list value) : py_result value :=
  match f with
  | VForeign _ _ => extern "()" (f :: args)
  | _ => raise (TypeError ("'" +:+ type_of f +:+ "' object is not callable"))
  end.

(** [d.get(key, MISSING)] *)
Definition py_get (d : value) (key : string) : py_result value :=
  match d with
  | VDict items =>
      Return (match items_get (VStr key) items with
              | Some v => v
              | None => VMissing
              end)
  | VChainMap maps =>
      Return (match items_get (VStr key) (chain_items maps) with
              | Some v => v
              | None => VMissing
              end)
  | VForeign _ _ => extern ".get" [d; VStr key; VMissing]
  | VObj _ attrs =>
      match dict_get "get" attrs with
      | Some f => py_call_object f [VStr key; VMissing]
      | None => no_attribute d "get"
      end
  | _ => no_attribute d "get"
  end.

(** [getattr(o, a)] *)
Definition py_getattr (o : value) (a : string) : py_result value :=
  match o with
  | VObj _ attrs =>
      match dict_get a attrs with
      | Some v => Return v
      | None => no_attribute o a
      end
  | VChainMap maps =>
      if String.eqb a "maps" then Return (VSeq KList maps)
      else no_attribute o a
  | VForeign _ _ => extern ("." +:+ a) [o]
  | _ => no_attribute o a
  end.

(** [f(v)] for a global name [f]. *)
Definition py_call (f : string) (v : value) : py_result value :=
  if String.eqb f "int" then py_int v
  else if String.eqb f "str" then py_str v
  else if String.eqb f "tuple" then
    let! l := py_iter v in Return (VSeq KTuple l)
  else if String.eqb f "collections.deque" then
    let! l := py_iter v in Return (VSeq KDeque l)
  else if String.eqb f "set" then
    let! l := py_iter v in let! s := set_of_list l [] in Return (VSeq KSet s)
  else if String.eqb f "frozenset" then
    let! l := py_iter v in
    let! s := set_of_list l [] in Return (VSeq KFrozenSet s)
  else extern f [v].

(** The names a generated expression can read. *)
Record env := mkEnv {
  e_value : value;           (* value *)
  e_key : option value;      (* key, bound inside a dict comprehension *)
  e_owner : string;          (* the class of [self] / [cls] *)
  e_flags : flags
}.

Definition with_value (v : value) (ρ : env) : env :=
  mkEnv v (e_key ρ) (e_owner ρ) (e_flags ρ).

Definition with_item (k v : value) (ρ : env) : env :=
  mkEnv v (Some k) (e_owner ρ) (e_flags ρ).

Definition lookup_name (x : string) (ρ : env) : py_result value :=
  if String.eqb x "value" then Return (e_value ρ)
  else if String.eqb x "key" then
    match e_key ρ with
    | Some k => Return k
    | None => raise (NameError x)
    end
  else raise (NameError x).

Definition lookup_flag (x : string) (ρ : env) : py_result bool :=
  if String.eqb x "use_bytes" then Return (use_bytes (e_flags ρ))
  else if String.eqb x "use_enum" then Return (use_enum (e_flags ρ))
  else if String.eqb x "use_datetime" then Return (use_datetime (e_flags ρ))
  else raise (NameError x).

(** [{k: v for key, value in items}]: every key is evaluated before its
    value, and hashed on insertion. *)
Fixpoint dict_comp (ev : env -> py_result value * py_result value)
    (items acc : list (value * value)) (ρ : env)
  : py_result (list (value * value)) :=
  match items with
  | [] => Return acc
  | (k, v) :: items' =>
      let '(rk, rv) := ev (with_item k v ρ) in
      match rk with
      | Raise e => Raise e
      | Return k' =>
          match rv with
          | Raise e => Raise e
          | Return v' =>
              if hashable k' then dict_comp ev items' (items_set k' v' acc) ρ
              else unhashable k'
          end
      end
  end.

(** Calls into the routines of record types, supplied by [run] below. *)
Variable call : routine -> flags -> py_result value.

Fixpoint eval (ρ : env) (e : expr) {struct e} : py_result value :=
  match e with
  | EName x => lookup_name x ρ
  | ECall f a => let! v := eval ρ a in py_call f v
  | ECallKw f kw a =>
      let! v := eval ρ a in extern (f +:+ "(" +:+ kw +:+ "=)") [v]
  | EMethod o m => let! v := eval ρ o in extern ("." +:+ m +:+ "()") [v]
  | EMethodNone o m =>
      let! v := eval ρ o in extern ("." +:+ m +:+ "()") [v; VNone]
  | EAttr o a => let! v := eval ρ o in py_getattr v a
  | EToDict o =>
      let! v := eval ρ o in
      match v with
      | VObj _ _ => call (ToDict v) (e_flags ρ)
      | VForeign _ _ => extern ".to_dict()" [v]
      | _ => no_attribute v "to_dict"
      end
  | EFromDict T a => let! v := eval ρ a in call (FromDict T v) (e_flags ρ)
  | EStrategy _ fname m a =>
      let! v := eval ρ a in
      extern (e_owner ρ +:+ ".__dataclass_fields__['" +:+ fname +:+ "'].type."
              +:+ m) [v]
  | EListComp elt iter =>
      let! it := eval ρ iter in
      let! l := py_iter it in
      let! l' := py_mapM (fun x => eval (with_value x ρ) elt) l in
      Return (VSeq KList l')
  | EDictComp k v iter =>
      let! it := eval ρ iter in
      let! items := py_items it in
      let! d := dict_comp (fun ρ' => (eval ρ' k, eval ρ' v)) items [] ρ in
      Return (VDict d)
  | EChainPack k v =>
      let! maps := py_getattr (e_value ρ) "maps" in
      let! ms := py_iter maps in
      let! ds :=
        py_mapM (fun m =>
                   let! items := py_items m in
                   let! d := dict_comp (fun ρ' => (eval ρ' k, eval ρ' v))
                                       items [] ρ in
                   Return (VDict d)) ms in
      Return (VSeq KList ds)
  | EChainUnpack k v iter =>
      let! it := eval ρ iter in
      let! ms := py_iter it in
      let! ds :=
        py_mapM (fun m =>
                   let! items := py_items m in
                   let! d := dict_comp (fun ρ' => (eval ρ' k, eval ρ' v))
                                       items [] ρ in
                   Return (VDict d)) ms in
      Return (VChainMap (match ds with [] => [VDict []] | _ => ds end))
  | EIfElse a flag b =>
      let! c := lookup_flag flag ρ in
      if c then eval ρ a else eval ρ b
  end.

End Semantics.


(** ** The constructor of a record type

    [cls( **kwargs)] runs the [__init__] that [@dataclass], applied with
    its default options, writes when it processes the class; the builder
    has run before, from [__init_subclass__].  The parameters are the
    fields and the [InitVar] pseudo-fields declared with [init=True]; the
    default of a parameter is the one [@dataclass] finds, which is read
    with [getattr] and so can be inherited.  The classes are those
    [@dataclass] accepts (no parameter without a default after one with a
    default), and they define no [__post_init__]. *)

(** The value a default stands for. *)
Definition dflt_value (d : dflt) : option value :=
  match d with
  | DValue v | DFactory v => Some v
  | DMissing => None
  end.

(** What the class [a], an ancestor, holds under [name] once it is
    defined: [@dataclass] has replaced a [Field] by its default, and
    removed it when it has none. *)
Definition ancestor_attr (name : string) (a : pyclass_info) : option ns_entry :=
  match dict_get name (cls_namespace a) with
  | Some (NSField f) =>
      if cls_is_dataclass a then option_map NSValue (f_default f)
      else Some (NSField f)
  | r => r
  end.

Fixpoint inherited_attr (name : string) (ancestors : list pyclass_info)
  : option ns_entry :=
  match ancestors with
  | [] => None
  | a :: ancestors' =>
      match ancestor_attr name a with
      | Some e => Some e
      | None => inherited_attr name ancestors'
      end
  end.

(** [getattr(cls, name, MISSING)] while [@dataclass] processes [cls]. *)
Definition class_getattr (cls : pycls) (name : string) : option ns_entry :=
  match dict_get name (namespace cls) with
  | Some e => Some e
  | None => inherited_attr name (tl cls)
  end.

(** The field called [name] of the nearest dataclass among [ancestors]
    that has one: what the loop over the base classes leaves in
    [fields]. *)
Fixpoint inherited_field (name : string) (ancestors : list pyclass_info)
  : option Field :=
  match ancestors with
  | [] => None
  | a :: ancestors' =>
      match (if cls_is_dataclass a
             then find (fun f => String.eqb (f_name f) name)
                       (rev (cls_fields a))
             else None) with
      | Some f => Some f
      | None => inherited_field name ancestors'
      end
  end.

Record init_param := mkParam {
  p_name : string;
  p_init_var : bool;        (* an [InitVar]: passed on, not stored *)
  p_init : bool;            (* a parameter of [__init__] *)
  p_default : dflt
}.

(** The field [@dataclass] makes of an annotation: of one in the body of
    the class with the default [getattr] finds, of an inherited one as
    the base class has it.  A [ClassVar] is no field, and neither is a
    name that only a class that is not a dataclass annotates. *)
Definition init_param_of (cls : pycls) (hint : string * ftype)
  : option init_param :=
  let '(name, t) := hint in
  if is_class_var t then None
  else if in_keys name (annotations cls) then
    Some (match class_getattr cls name with
          | Some (NSField f) =>
              mkParam name (is_init_var t) (f_init f) (field_dflt f)
          | Some (NSValue VMissing) | None =>
              mkParam name (is_init_var t) true DMissing
          | Some (NSValue v) => mkParam name (is_init_var t) true (DValue v)
          end)
  else
    option_map (fun f => mkParam name (is_init_var t) (f_init f) (field_dflt f))
               (inherited_field name (tl cls)).

Definition init_params (cls : pycls) : list init_param :=
  flat_map (fun hint => match init_param_of cls hint with
                        | Some p => [p]
                        | None => []
                        end)
           (get_type_hints cls).

(** [name] is a parameter of [__init__]. *)
Definition accepts (params : list init_param) (name : string) : bool :=
  existsb (fun p => String.eqb (p_name p) name && p_init p) params.

(** The parameters without a default that [kwargs] does not give. *)
Definition missing_args (params : list init_param)
    (kwargs : list (string * value)) : list string :=
  map p_name
      (filter (fun p => p_init p && is_DMissing (p_default p)
                        && negb (in_keys (p_name p) kwargs))
              params).

(** ['a', 'b', and 'c'] *)
Fixpoint quoted_list (names : list string) : string :=
  match names with
  | [] => ""
  | [z] => "and '" +:+ z +:+ "'"
  | y :: names' => "'" +:+ y +:+ "', " +:+ quoted_list names'
  end.

Definition quoted_names (names : list string) : string :=
  match names with
  | [] => ""
  | [a] => "'" +:+ a +:+ "'"
  | [a; b] => "'" +:+ a +:+ "' and '" +:+ b +:+ "'"
  | _ => quoted_list names
  end.

(** The message of the [TypeError], as CPython words it up to 3.9; later
    versions put the qualified name of [__init__] in front. *)
Definition missing_args_msg (names : list string) : string :=
  "__init__() missing " +:+ digits (N.of_nat (length names))
  +:+ " required positional argument"
  +:+ (match names with [_] => "" | _ => "s" end)
  +:+ ": " +:+ quoted_names names.

(** What [__init__] stores for one parameter: the argument or the
    default of a field; nothing for an [InitVar], and nothing for a field
    with [init=False] and no default. *)
Definition init_attr (kwargs : list (string * value)) (p : init_param)
  : list (string * value) :=
  if p_init_var p then []
  else
    match (if p_init p then dict_get (p_name p) kwargs else None) with
    | Some v => [(p_name p, v)]
    | None =>
        match dflt_value (p_default p) with
        | Some v => [(p_name p, v)]
        | None => []
        end
    end.

(** [cls( **kwargs)] *)
Definition construct (cls : pycls) (kwargs : list (string * value))
  : py_result value :=
  let params := init_params cls in
  match find (fun kv => negb (accepts params (fst kv))) kwargs with
  | Some (name, _) =>
      raise (TypeError ("__init__() got an unexpected keyword argument '"
                        +:+ name +:+ "'"))
  | None =>
      match missing_args params kwargs with
      | [] =>
          Return (VObj (cls_qualname cls)
                       (flat_map (init_attr kwargs) params))
      | names => raise (TypeError (missing_args_msg names))
      end
  end.

Section Routines.

Variable extern : string -> list value -> py_result value.
Variable INITIAL_MODULES : gset string.

(** The record types of the program, by name. *)
Variable classes : list (string * pycls).

Local Open Scope py_scope.

Section Bodies.

(** The evaluator of generated expressions, with the calls it makes into
    other routines already fixed. *)
Variable ev : env -> expr -> py_result value.
Variable cls : pycls.
Variable fl : flags.

(** The lines [add_from_dict] writes for one field. *)
Definition from_dict_field (d : value) (kwargs : list (string * value))
    (p : field_plan) : py_result (list (string * value)) :=
  let fname := fp_name p in
  let! value := py_get extern d fname in          (* d.get(fname, MISSING) *)
  match value with
  | VNone => Return (dict_set fname VNone kwargs)
  | _ =>
      let unpack :=
        match ev (mkEnv value None (cls_qualname cls) fl) (fp_expr p) with
        | Return v => Return (dict_set fname v kwargs)
        | Raise e =>
            if is_Exception e then                (* except Exception as e *)
              Raise (Exn (InvalidFieldValue fname (fp_type_name p) value
                                            (cls_qualname cls))
                         (Some e))
            else Raise e
        end in
      if fp_required p then
        match value with
        | VMissing =>
            raise (MissingField fname (fp_type_name p) (cls_qualname cls))
        | _ => unpack
        end
      else
        match value with
        | VMissing => Return kwargs
        | _ => unpack
        end
  end.

Fixpoint from_dict_fields (d : value) (kwargs : list (string * value))
    (plans : list field_plan) : py_result (list (string * value)) :=
  match plans with
  | [] => Return kwargs
  | p :: plans' =>
      let! kwargs' := from_dict_field d kwargs p in
      from_dict_fields d kwargs' plans'
  end.

Definition not_a_dict_msg : string :=
  "Argument for " +:+ cls_qualname cls
  +:+ ".from_dict method should be a dict instance".

(** The generated [from_dict]. *)
Definition from_dict_routine (plans : list field_plan) (d : value)
  : py_result value :=
  match from_dict_fields d [] plans with
  | Return kwargs => construct cls kwargs
  | Raise e =>
      if is_AttributeError e then                 (* except AttributeError *)
        if negb (is_dict d) then                  (* raise ... from None *)
          Raise (Exc (ValueError not_a_dict_msg) None (Some e) true)
        else Raise e
      else Raise e
  end.

(** The lines [add_to_dict] writes for one field. *)
Definition to_dict_field (self : value) (kwargs : list (string * value))
    (p : string * expr) : py_result (list (string * value)) :=
  let '(fname, packed_value) := p in
  let! value := py_getattr extern self fname in
  match value with
  | VNone => Return (dict_set fname VNone kwargs)
  | _ =>
      let! v := ev (mkEnv value None (cls_qualname cls) fl) packed_value in
      Return (dict_set fname v kwargs)
  end.

Fixpoint to_dict_fields (self : value) (kwargs : list (string * value))
    (plans : list (string * expr)) : py_result (list (string * value)) :=
  match plans with
  | [] => Return kwargs
  | p :: plans' =>
      let! kwargs' := to_dict_field self kwargs p in
      to_dict_fields self kwargs' plans'
  end.

Definition as_dict (kwargs : list (string * value)) : value :=
  VDict (map (fun kv => (VStr (fst kv), snd kv)) kwargs).

(** The generated [to_dict]. *)
Definition to_dict_routine (plans : list (string * expr)) (self : value)
  : py_result value :=
  let! kwargs := to_dict_fields self [] plans in
  Return (as_dict kwargs).

End Bodies.

(** Running a routine.  [fuel] bounds the depth of calls from one record
    type into another, the way the interpreter's recursion limit does. *)
Fixpoint run (fuel : nat) (r : routine) (fl : flags) : py_result value :=
  match fuel with
  | O => raise RecursionError
  | S n =>
      let ev := eval extern (run n) in
      match r with
      | ToDict self =>
          match self with
          | VObj c _ =>
              match dict_get c classes with
              | Some cls =>
                  match add_to_dict INITIAL_MODULES cls new_builder with
                  | Built (plans, _) => to_dict_routine ev cls fl plans self
                  | BuildError _ => no_attribute self "to_dict"
                  end
              | None => no_attribute self "to_dict"
              end
          | _ => no_attribute self "to_dict"
          end
      | FromDict T d =>
          match dict_get T classes with
          | Some cls =>
              match add_from_dict INITIAL_MODULES cls new_builder with
              | Built (plans, _) => from_dict_routine ev cls fl plans d
              | BuildError _ => raise (AttributeError "from_dict")
              end
          | None => raise (NameError T)
          end
      end
  end.

Definition to_dict (fuel : nat) (self : value) (fl : flags) : py_result value :=
  run fuel (ToDict self) fl.

Definition from_dict (fuel : nat) (T : string) (d : value) (fl : flags)
  : py_result value :=
  run fuel (FromDict T d) fl.

End Routines.

(** ** [decimal.Decimal]

    [RoundedDecimal] rests on three operations of the standard library's
    [decimal] module: [str(d)], [Decimal(s)] and [d.quantize(exp,
    rounding)].  A [Decimal] is a sign, a coefficient and an exponent, or
    an infinity, or a NaN with its diagnostic digits. *)

Inductive PyDecimal :=
| Finite (sign : bool) (coefficient : N) (exponent : Z)
| Infinity (sign : bool)
| NaN (sign : bool) (signaling : bool) (payload : N).

Fixpoint zeros (n : nat) : string :=
  match n with
  | O => ""
  | S n' => String "0" (zeros n')
  end.

Definition sign_str (s : bool) : string := if s then "-" else "".

(** ["%+d" % z] *)
Definition signed_str (z : Z) : string :=
  (if (z <? 0)%Z then "-" else "+") +:+ digits (Z.abs_N z).

(** [str(d)]: the scientific string of the decimal arithmetic
    specification. *)
Definition str_Decimal (d : PyDecimal) : string :=
  match d with
  | Infinity s => sign_str s +:+ "Infinity"
  | NaN s signaling p =>
      sign_str s +:+ (if signaling then "sNaN" else "NaN")
      +:+ (if (p =? 0)%N then "" else digits p)
  | Finite s c e =>
      let _int := digits c in
      let len := Z.of_nat (String.length _int) in
      let leftdigits := (e + len)%Z in
      let dotplace :=
        if ((e <=? 0) && (-6 <? leftdigits))%Z then leftdigits else 1%Z in
      let intpart :=
        if (dotplace <=? 0)%Z then "0"
        else if (len <=? dotplace)%Z
             then _int +:+ zeros (Z.to_nat (dotplace - len))
             else substring 0 (Z.to_nat dotplace) _int in
      let fracpart :=
        if (dotplace <=? 0)%Z then "." +:+ zeros (Z.to_nat (- dotplace)) +:+ _int
        else if (len <=? dotplace)%Z then ""
             else "." +:+ substring (Z.to_nat dotplace)
                                    (Z.to_nat (len - dotplace)) _int in
      let exp :=
        if (leftdigits =? dotplace)%Z then ""
        else "E" +:+ signed_str (leftdigits - dotplace) in
      sign_str s +:+ intpart +:+ fracpart +:+ exp
  end.

Definition lower_char (c : ascii) : ascii :=
  let n := nat_of_ascii c in
  if Nat.leb 65 n && Nat.leb n 90 then ascii_of_nat (n + 32) else c.

Fixpoint lower (s : string) : string :=
  match s with
  | EmptyString => ""
  | String c s' => String (lower_char c) (lower s')
  end.

Fixpoint remove_underscores (s : string) : string :=
  match s with
  | EmptyString => ""
  | String c s' =>
      if Ascii.eqb c "_"%char then remove_underscores s'
      else String c (remove_underscores s')
  end.

(** The longest prefix of digits, and what follows it. *)
Fixpoint span_digits (s : string) : string * string :=
  match s with
  | EmptyString => ("", "")
  | String c s' =>
      if is_digit c then
        let '(d, r) := span_digits s' in (String c d, r)
      else ("", s)
  end.

(** [int(s)] for a string of digits. *)
Fixpoint digits_to_N (s : string) (acc : N) : N :=
  match s with
  | EmptyString => acc
  | String c s' => digits_to_N s' (10 * acc + N.of_nat (nat_of_ascii c - 48))%N
  end.

Definition is_empty (s : string) : bool :=
  match s with EmptyString => true | _ => false end.

Definition split_sign (s : string) : bool * string :=
  match s with
  | String "-" r => (true, r)
  | String "+" r => (false, r)
  | _ => (false, s)
  end.

(** [[-+]?\d+] up to the end of the text. *)
Definition parse_exponent (s : string) : option Z :=
  let '(neg, body) := split_sign s in
  let '(ds, rest) := span_digits body in
  if is_empty ds || negb (is_empty rest) then None
  else
    let n := Z.of_N (digits_to_N ds 0) in
    Some (if neg then (- n)%Z else n).

(** The numeric alternative of the parser: digits, an optional fraction,
    an optional exponent, with a digit somewhere before the exponent. *)
Definition parse_finite (s : string) : option (N * Z) :=
  let '(intpart, r1) := span_digits s in
  let '(fracpart, r2) :=
    match r1 with
    | String "." r => span_digits r
    | _ => ("", r1)
    end in
  if is_empty intpart && is_empty fracpart then None
  else
    let coefficient := digits_to_N (intpart +:+ fracpart) 0 in
    let shift := Z.of_nat (String.length fracpart) in
    match r2 with
    | EmptyString => Some (coefficient, (- shift)%Z)
    | String "e" r3 =>
        match parse_exponent r3 with
        | Some e => Some (coefficient, (e - shift)%Z)
        | None => None
        end
    | _ => None
    end.

(** [NaN] or [sNaN] followed by digits only. *)
Definition parse_nan (s : string) : option (bool * N) :=
  let '(signaling, r) :=
    match s with
    | String "s" r => (true, r)
    | _ => (false, s)
    end in
  match r with
  | String "n" (String "a" (String "n" diag)) =>
      let '(ds, rest) := span_digits diag in
      if is_empty rest then Some (signaling, digits_to_N ds 0) else None
  | _ => None
  end.

Definition invalid_operation {A} (msg : string) : py_result A :=
  raise (LibraryError "decimal.InvalidOperation" msg).

(** [decimal.Decimal(s)] for a string [s]. *)
Definition Decimal_of_str (s : string) : py_result PyDecimal :=
  let s' := lower (remove_underscores (rstrip (lstrip s))) in
  let '(sign, body) := split_sign s' in
  match parse_finite body with
  | Some (c, e) => Return (Finite sign c e)
  | None =>
      if String.eqb body "inf" || String.eqb body "infinity"
      then Return (Infinity sign)
      else
        match parse_nan body with
        | Some (signaling, p) => Return (NaN sign signaling p)
        | None => invalid_operation ("Invalid literal for Decimal: " +:+ s)
        end
  end.

(** The arithmetic context: precision, exponent range, rounding.
    [InvalidOperation] is trapped, as in the default context. *)
Inductive rounding_mode :=
| ROUND_DOWN | ROUND_HALF_UP | ROUND_HALF_EVEN | ROUND_CEILING | ROUND_FLOOR
| ROUND_UP | ROUND_HALF_DOWN | ROUND_05UP.

Record context := mkContext {
  prec : Z;
  Emax : Z;
  Emin : Z;
  ctx_rounding : rounding_mode
}.

Definition Etiny (ctx : context) : Z := (Emin ctx - prec ctx + 1)%Z.

(** Whether the coefficient [q] kept by a rounding is incremented, given
    the remainder [r] of the division by [m] that dropped the digits. *)
Definition round_up (mode : rounding_mode) (sign : bool) (q r m : N) : bool :=
  match mode with
  | ROUND_DOWN => false
  | ROUND_UP => negb (r =? 0)%N
  | ROUND_HALF_UP => (m <=? 2 * r)%N
  | ROUND_HALF_DOWN => (m <? 2 * r)%N
  | ROUND_HALF_EVEN => (m <? 2 * r)%N || ((m =? 2 * r)%N && N.odd q)
  | ROUND_CEILING => negb sign && negb (r =? 0)%N
  | ROUND_FLOOR => sign && negb (r =? 0)%N
  | ROUND_05UP =>
      negb (r =? 0)%N && ((q mod 10 =? 0)%N || (q mod 10 =? 5)%N)
  end.

(** [_rescale(exp, rounding)] on a finite decimal. *)
Definition rescale (sign : bool) (c : N) (e : Z) (exp : Z)
    (mode : rounding_mode) : PyDecimal :=
  if (exp <=? e)%Z then Finite sign (c * 10 ^ Z.to_N (e - exp))%N exp
  else
    let m := (10 ^ Z.to_N (exp - e))%N in
    let q := (c / m)%N in
    let r := (c mod m)%N in
    Finite sign (if round_up mode sign q r m then q + 1 else q)%N exp.

Definition num_digits (c : N) : Z := Z.of_nat (String.length (digits c)).

(** [adjusted()]: the exponent of the most significant digit. *)
Definition adjusted (c : N) (e : Z) : Z := (e + num_digits c - 1)%Z.

(** [_fix_nan]: a diagnostic longer than the precision loses its leading
    digits. *)
Definition fix_nan (ctx : context) (sign signaling : bool) (p : N)
  : PyDecimal :=
  NaN sign signaling (p mod 10 ^ Z.to_N (prec ctx))%N.

(** [self.quantize(exp, rounding)] *)
Definition quantize (ctx : context) (self exp : PyDecimal)
    (rounding : option rounding_mode) : py_result PyDecimal :=
  let mode :=
    match rounding with Some m => m | None => ctx_rounding ctx end in
  match self, exp with
  | NaN _ true _, _ => invalid_operation "sNaN"
  | _, NaN _ true _ => invalid_operation "sNaN"
  | NaN s false p, _ => Return (fix_nan ctx s false p)
  | _, NaN s false p => Return (fix_nan ctx s false p)
  | Infinity s, Infinity _ => Return (Infinity s)
  | Infinity _, _ | _, Infinity _ => invalid_operation "quantize with one INF"
  | Finite s c e, Finite _ _ exp_e =>
      if negb ((Etiny ctx <=? exp_e) && (exp_e <=? Emax ctx))%Z then
        invalid_operation "target exponent out of bounds in quantize"
      else if (c =? 0)%N then Return (Finite s 0 exp_e)
      else if (Emax ctx <? adjusted c e)%Z then
        invalid_operation
          "exponent of quantize result too large for current context"
      else if (prec ctx <? adjusted c e - exp_e + 1)%Z then
        invalid_operation
          "quantize result has too many digits for current context"
      else
        match rescale s c e exp_e mode with
        | Finite s' c' e' =>
            if (Emax ctx <? adjusted c' e')%Z then
              invalid_operation
                "exponent of quantize result too large for current context"
            else if (prec ctx <? num_digits c')%Z then
              invalid_operation
                "quantize result has too many digits for current context"
            else Return (Finite s' c' e')
        | ans => Return ans
        end
  end.

Definition is_nan (d : PyDecimal) : bool :=
  match d with NaN _ _ _ => true | _ => false end.

(** [a == b]: a signaling NaN raises [InvalidOperation], a quiet NaN is
    unequal to everything, itself included; otherwise the two are equal
    when [_cmp] finds the same number: the same infinity, two zeros of any
    sign and exponent, or the same sign and [c * 10 ** e]. *)
Definition Decimal_eq (a b : PyDecimal) : py_result bool :=
  match a, b with
  | NaN _ true _, _ | _, NaN _ true _ => invalid_operation "sNaN"
  | NaN _ false _, _ | _, NaN _ false _ => Return false
  | Infinity s, Infinity s' => Return (Bool.eqb s s')
  | Infinity _, Finite _ _ _ | Finite _ _ _, Infinity _ => Return false
  | Finite s c e, Finite s' c' e' =>
      if (c =? 0)%N then Return (c' =? 0)%N
      else if (c' =? 0)%N then Return false
      else
        let m := Z.min e e' in
        Return (Bool.eqb s s'
                && (c * 10 ^ Z.to_N (e - m) =? c' * 10 ^ Z.to_N (e' - m))%N)
  end.

(** ** [RoundedDecimal] ([mashumaro/types.py]) *)

Record RoundedDecimal := mkRoundedDecimal {
  exp : option PyDecimal;
  rounding : option rounding_mode
}.

(** [__init__]: [decimal.Decimal((0, (1,), -places))] is [1E-places]. *)
Definition RoundedDecimal_init (places : option Z)
    (rounding : option rounding_mode) : RoundedDecimal :=
  {| exp := match places with
            | Some p => Some (Finite false 1 (- p))
            | None => None
            end;
     rounding := rounding |}.

(** [bool(d)] *)
Definition Decimal_bool (d : PyDecimal) : bool :=
  match d with
  | Finite _ c _ => negb (c =? 0)%N
  | _ => true
  end.

Definition serialize (ctx : context) (self : RoundedDecimal)
    (value : PyDecimal) : py_result string :=
  match exp self with
  | Some e =>
      if Decimal_bool e then
        match rounding self with
        | Some r =>
            match quantize ctx value e (Some r) with
            | Return q => Return (str_Decimal q)
            | Raise x => Raise x
            end
        | None =>
            match quantize ctx value e None with
            | Return q => Return (str_Decimal q)
            | Raise x => Raise x
            end
        end
      else Return (str_Decimal value)
  | None => Return (str_Decimal value)
  end.

(** [decimal.Decimal(str(value))]; [value] is a string. *)
Definition deserialize (self : RoundedDecimal) (value : string)
  : py_result PyDecimal :=
  Decimal_of_str value.

(** ** Discriminated fields, tag mode *)

(** Modelled from the spec: the Discriminator Resolver (section 4.4) in
    tag mode.  Of the resolver only its tests are among the sources
    ([tests/test_discriminated_unions/test_parent_by_field.py]); the
    definitions below follow the wording of the specification, and the
    names of the test file.  A class is given with the attributes assigned
    in its own body and with its direct subclasses in declaration order. *)
Inductive class_tree :=
| ClassNode (name : string) (attrs : list (string * value))
            (subclasses : list class_tree).

Definition class_tree_name (c : class_tree) : string :=
  let 'ClassNode n _ _ := c in n.

Definition class_tree_attrs (c : class_tree) : list (string * value) :=
  let 'ClassNode _ a _ := c in a.

(** Modelled from the spec: [Discriminator(field=..., include_subtypes=...,
    include_supertypes=..., variant_tagger_fn=...)]. *)
Record Discriminator := mkDiscriminator {
  field : option string;
  include_subtypes : bool;
  include_supertypes : bool;
  variant_tagger_fn : option (string -> value)
}.

(** Modelled from the spec: "[include_subtypes] walks the full descendant
    tree, not just direct children, recursively". *)
Fixpoint descendants (c : class_tree) : list class_tree :=
  match c with
  | ClassNode _ _ subs => flat_map (fun s => s :: descendants s) subs
  end.

(** Modelled from the spec: the subtypes of the declared type, and the
    declared type itself "as a fallback candidate" when
    [include_supertypes] is set. *)
Definition candidates (D : Discriminator) (B : class_tree) : list class_tree :=
  (if include_subtypes D then descendants B else [])
  ++ (if include_supertypes D then [B] else []).

(** Modelled from the spec: "each subtype's tag value is either the
    literal value assigned to [tag field] on that subtype, or the result
    of [variant_tagger_fn(subtype)] if supplied". *)
Definition variant_tag (D : Discriminator) (tag_field : string)
    (c : class_tree) : option value :=
  match variant_tagger_fn D with
  | Some tagger => Some (tagger (class_tree_name c))
  | None => dict_get tag_field (class_tree_attrs c)
  end.

(** Modelled from the spec: the mapping, with "equals" read as equality
    of generic trees; a later subtype with the same tag replaces an
    earlier one. *)
Fixpoint tags_set (tag : value) (c : string) (m : list (value * string))
  : list (value * string) :=
  match m with
  | [] => [(tag, c)]
  | (tag', c') :: m' =>
      if value_eqb tag tag' then (tag', c) :: m'
      else (tag', c') :: tags_set tag c m'
  end.

Fixpoint tags_get (tag : value) (m : list (value * string)) : option string :=
  match m with
  | [] => None
  | (tag', c) :: m' => if value_eqb tag tag' then Some c else tags_get tag m'
  end.

(** Modelled from the spec: "a mapping from tag value to subtype". *)
Definition tag_map (D : Discriminator) (tag_field : string) (B : class_tree)
  : list (value * string) :=
  fold_left
    (fun m c =>
       match variant_tag D tag_field c with
       | Some tag => tags_set tag (class_tree_name c) m
       | None => m
       end)
    (candidates D B) [].

Section TagMode.

(** The decode routine of every record type, by name. *)
Variable decode_of : string -> value -> py_result value.

(** Modelled from the spec: "Read the tag field's raw value from the input
    tree; look up the mapping; if absent, raise InvalidFieldValue; if
    present, decode directly via the matched subtype's own decode
    routine".  [fname], [ftype_name] and [owner] identify the
    discriminated field in the error. *)
Definition decode_tagged (D : Discriminator) (tag_field : string)
    (B : class_tree) (fname ftype_name owner : string) (tree : value)
  : py_result value :=
  let unknown_tag :=
    raise (InvalidFieldValue fname ftype_name tree owner) in
  match tree with
  | VDict items =>
      match items_get (VStr tag_field) items with
      | Some tag =>
          match tags_get tag (tag_map D tag_field B) with
          | Some c => decode_of c tree
          | None => unknown_tag
          end
      | None => unknown_tag
      end
  | _ => unknown_tag
  end.

End TagMode.

(** [cls.__name__.lower()], the tagger of the test file. *)
Definition lower_name_tagger (class_name : string) : value :=
  VStr (lower class_name).

(** ** Notions used to state the properties *)

(** *** Defaults, as the specification words them

    "Subtype declarations override base declarations of the same name":
    the default of a name is the one of the most derived class that
    declares it. *)

(** What a dataclass ancestor declares for [name]. *)
Definition declared_by_ancestor (name : string) (a : pyclass_info)
  : option dflt :=
  if cls_is_dataclass a then
    option_map field_dflt
      (find (fun f => String.eqb (f_name f) name) (rev (cls_fields a)))
  else None.


Fixpoint first_declaration (name : string) (ancestors : list pyclass_info)
  : option dflt :=
  match ancestors with
  | [] => None
  | a :: ancestors' =>
      match declared_by_ancestor name a with
      | Some d => Some d
      | None => first_declaration name ancestors'
      end
  end.


(** *** Shapes without a conversion *)

Definition bare_container (c : pyclass) : bool :=
  match c with
  | c_list | c_dict | c_set | c_frozenset | c_tuple | c_deque | c_ChainMap =>
      true
  | _ => false
  end.

(** A free type variable, [AnyStr], a bare container, a union of more
    than two arms, or a union of two arms that is not [Optional]. *)
Definition unsupported_shape (t : ftype) : bool :=
  match t with
  | TTypeVar _ | TAnyStr => true
  | TClass c => bare_container c
  | TUnion [_; b] => negb (is_NoneType b)
  | TUnion (_ :: _ :: _ :: _) => true
  | _ => false
  end.

Definition container_hint (c : pyclass) : string :=
  match c with
  | c_list => "Use typing.List[T] instead"
  | c_deque => "Use typing.Deque[T] instead"
  | c_tuple => "Use typing.Tuple[T] instead"
  | c_set => "Use typing.Set[T] instead"
  | c_frozenset => "Use typing.FrozenSet[T] instead"
  | c_ChainMap => "Use typing.ChainMap[KT,VT] instead"
  | _ => "Use typing.Dict[KT,VT] or Mapping[KT,VT] instead"
  end.

(** The error each such shape is reported with. *)
Definition shape_error (fname : string) (t : ftype) (parent : string)
  : build_error :=
  match t with
  | TClass c => UnserializableField fname t parent (Some (container_hint c))
  | TAnyStr => UnserializableDataError "AnyStr is not supported by mashumaro"
  | TTypeVar _ =>
      UnserializableDataError "TypeVars are not supported by mashumaro"
  | _ => UnserializableDataError "Unions are not supported by mashumaro"
  end.

Definition is_built {A} (r : build_result A) : bool :=
  match r with Built _ => true | BuildError _ => false end.

(** *** Instances that survive a round trip *)

Definition is_None (v : value) : bool :=
  match v with VNone => true | _ => false end.

Definition is_Missing (v : value) : bool :=
  match v with VMissing => true | _ => false end.

(** The container a subscripted sequence type is decoded into. *)
Definition seq_kind_for (c : pyclass) : option seq_kind :=
  match c with
  | c_list | c_Sequence => Some KList
  | c_deque => Some KDeque
  | c_tuple => Some KTuple
  | c_frozenset => Some KFrozenSet
  | c_set | c_AbstractSet => Some KSet
  | _ => None
  end.

Definition is_set_kind (k : seq_kind) : bool :=
  match k with KSet | KFrozenSet => true | _ => false end.

Definition is_mapping_origin (c : pyclass) : bool :=
  match c with c_dict | c_Mapping => true | _ => false end.

(** No element equals one before it. *)
Fixpoint no_dups (l seen : list value) : bool :=
  match l with
  | [] => true
  | x :: l' => negb (existsb (key_eqb x) seen) && no_dups l' (x :: seen)
  end.

(** The expression reads the name [vn] and no other: it has no
    comprehension, which would bind a name, and calls no routine of a
    record type. *)
Fixpoint reads_only (vn : string) (e : expr) : bool :=
  match e with
  | EName x => String.eqb x vn
  | ECall _ a | ECallKw _ _ a | EMethod a _ | EMethodNone a _ | EAttr a _
  | EStrategy _ _ _ a => reads_only vn a
  | EIfElse a _ b => reads_only vn a && reads_only vn b
  | EToDict _ | EFromDict _ _ | EListComp _ _ | EDictComp _ _ _
  | EChainPack _ _ | EChainUnpack _ _ _ => false
  end.

(** The attributes of an instance are those of the fields, in field
    order, each accepted by [ok] at the name and the type of its
    field. *)
Fixpoint attrs_match (ok : string -> ftype -> value -> bool)
    (fs : list (string * ftype)) (attrs : list (string * value)) : bool :=
  match fs, attrs with
  | [], [] => true
  | (f, ft) :: fs', (a, x) :: attrs' =>
      String.eqb f a && ok f ft x && attrs_match ok fs' attrs'
  | _, _ => false
  end.

(** The elements of a sequence of kind [kind]: accepted by [ok], and
    hashable and distinct in a set. *)
Definition elements_ok (kind : seq_kind) (ok : value -> bool) (l : list value)
  : bool :=
  forallb ok l
  && (negb (is_set_kind kind) || (forallb hashable l && no_dups l [])).

Definition is_VDict_with (ok : list (value * value) -> bool) (m : value)
  : bool :=
  match m with VDict items => ok items | _ => false end.

Section Valid.

Variable extern : string -> list value -> py_result value.
Variable INITIAL_MODULES : gset string.
Variable classes : list (string * pycls).
Variable fl : flags.

(** Both routines of the class could be generated. *)
Definition compiles (cls : pycls) : bool :=
  is_built (add_to_dict INITIAL_MODULES cls new_builder)
  && is_built (add_from_dict INITIAL_MODULES cls new_builder).

(** [v == w] is [True] for a [w] built anew with the content of [v]: the
    objects of library and user classes in [v] are equal to their copies
    (a NaN is not, nor is an object of a class that compares by
    identity). *)
Fixpoint equals_copy (v : value) : bool :=
  match v with
  | VForeign _ _ =>
      match extern "==" [v; v] with
      | Return (VBool true) => true
      | _ => false
      end
  | VSeq _ l => forallb equals_copy l
  | VDict items =>
      forallb (fun kv => let '(k, x) := kv in equals_copy k && equals_copy x)
              items
  | VChainMap maps => forallb equals_copy maps
  | VObj _ attrs => forallb (fun a => let '(_, x) := a in equals_copy x) attrs
  | _ => true
  end.

(** The two expressions the builder writes for the type [t] of the field
    [fname] of the class [owner], over the name [vn]. *)
Definition codec (owner fname vn : string)
    (md : option (list (string * meta_value))) (t : ftype)
  : option (expr * expr) :=
  match _pack_value fname t owner vn,
        _unpack_field_value fname t owner vn md new_builder with
  | Built ep, Built (eu, _) => Some (ep, eu)
  | _, _ => None
  end.

(** An expression over one name, evaluated with that name bound to
    [x]. *)
Definition eval_scalar (owner : string) (x : value) (e : expr)
  : py_result value :=
  eval extern (fun _ _ => raise RecursionError) (mkEnv x (Some x) owner fl) e.

(** What [ep] writes for [x], [MISSING] if it raises. *)
Definition written (owner : string) (ep : expr) (x : value) : value :=
  match eval_scalar owner x ep with
  | Return w => w
  | Raise _ => VMissing
  end.

(** The library functions named in [ep] and [eu] invert each other at
    [x]: [ep] writes some [w] for [x] and [eu] reads [x] back from [w].
    At the top of a field, [w] is neither [None] nor [MISSING], which
    [from_dict] would not decode. *)
Definition inverts (owner vn : string) (top : bool) (ep eu : expr) (x : value)
  : bool :=
  reads_only vn ep && reads_only vn eu && equals_copy x
  && match eval_scalar owner x ep with
     | Return w =>
         (negb top || (negb (is_None w) && negb (is_Missing w)))
         && match eval_scalar owner w eu with
            | Return x' => value_eqb x' x
            | Raise _ => false
            end
     | Raise _ => false
     end.

(** The types whose conversion looks at no type argument: every
    annotation but the containers, [Optional] and the record types. *)
Definition is_scalar_type (t : ftype) : bool :=
  match t with
  | TClass _ | TSerializableType _ | TStrategy _ | TAny => true
  | TGeneric c _ => negb (issubclass c Collection)
  | _ => false
  end.

(** A value of such a type: a number, a string, bytes, an enum member, a
    date, a path, a UUID, a decimal, an object with its own [_serialize],
    a value under a strategy, anything under [Any]. *)
Definition scalar_ok (owner fname : string)
    (md : option (list (string * meta_value))) (top : bool) (t : ftype)
    (x : value) : bool :=
  is_scalar_type t
  && match codec owner fname "value" md t with
     | Some (ep, eu) => inverts owner "value" top ep eu x
     | None => false
     end.

(** A key of a dictionary: of a scalar type, hashable, written as a
    hashable key and read back from it. *)
Definition key_ok (owner fname : string) (k : ftype) (key : value) : bool :=
  is_scalar_type k
  && match codec owner fname "key" None k with
     | Some (ek, eu) =>
         inverts owner "key" false ek eu key
         && hashable key && hashable (written owner ek key)
     | None => false
     end.

Definition written_key (owner fname : string) (k : ftype) (key : value)
  : value :=
  match codec owner fname "key" None k with
  | Some (ek, _) => written owner ek key
  | None => VMissing
  end.

(** The items of a dictionary: keys accepted by [key_ok], distinct, and
    written as distinct keys; values accepted by [ok]. *)
Definition items_ok (owner fname : string) (k : ftype) (ok : value -> bool)
    (items : list (value * value)) : bool :=
  forallb (fun kv => key_ok owner fname k (fst kv) && ok (snd kv)) items
  && no_dups (map fst items) []
  && no_dups (map (fun kv => written_key owner fname k (fst kv)) items) [].

(** [valid n owner fname md top t v]: the value [v], of nesting depth at
    most [n], held under the annotation [t] in the field [fname] (with
    metadata [md]) of the class [owner], is one the two routines take
    back and forth.  [top] tells that [v] is the whole value of the
    field.

    - Under [Optional[T]], [v] is valid for [T]: [None] is admitted as
      the whole value of a field only, where it is not handed to the
      expressions at all.
    - Under a sequence type [v] is the container the decoder builds for
      it, with valid elements, hashable and distinct in a set.
    - Under [Dict], [Mapping] and [ChainMap], [v] is a dictionary, or a
      non-empty chain of dictionaries, with valid values and keys as
      [items_ok] has them.
    - Under a record type [v] is an instance of exactly that class, each
      attribute [None] or valid for its field, and [v] is what the
      constructor makes of its attributes.
    - Under any other type, [v] is a scalar the library functions of its
      two expressions take back and forth. *)
Fixpoint valid (n : nat) (owner fname : string)
    (md : option (list (string * meta_value))) (top : bool) (t : ftype)
    (v : value) {struct n} : bool :=
  match n with
  | O => false
  | S n' =>
      match t with
      | TUnion [a; b] => is_NoneType b && valid n' owner fname None top a v
      | TGeneric c (k :: rest) =>
          if is_mapping_origin c then
            match rest with
            | a :: _ =>
                is_VDict_with
                  (items_ok owner fname k (valid n' owner fname None false a))
                  v
            | [] => false
            end
          else if pyclass_eqb c c_ChainMap then
            match rest, v with
            | a :: _, VChainMap (m :: maps) =>
                forallb
                  (is_VDict_with
                     (items_ok owner fname k
                               (valid n' owner fname None false a)))
                  (m :: maps)
            | _, _ => false
            end
          else
            match seq_kind_for c, v with
            | Some kind, VSeq kind' l =>
                seq_kind_eqb kind kind'
                && elements_ok kind (valid n' owner fname None false k) l
            | Some _, _ => false
            | None, _ => scalar_ok owner fname md top t v
            end
      | TDataclass T =>
          match v with
          | VObj T' attrs =>
              String.eqb T T'
              && match dict_get T classes with
                 | Some cls =>
                     compiles cls && String.eqb (cls_qualname cls) T
                     && attrs_match
                          (fun f ft x =>
                             is_None x
                             || valid n' T f (metadatas cls !! f) true ft x)
                          (field_types cls) attrs
                     && match construct cls attrs with
                        | Return v' => value_eqb v' v
                        | Raise _ => false
                        end
                 | None => false
                 end
          | _ => false
          end
      | _ => scalar_ok owner fname md top t v
      end
  end.

(** An instance of the record type [T] that is valid to the depth
    [n]. *)
Definition valid_instance (n : nat) (T : string) (v : value) : bool :=
  valid n "" "" None true (TDataclass T) v.

End Valid.

(** ** Notions used in the proofs *)

(** The lines of an import guard and of a global declaration at the
    indentation [i]. *)
Definition guard_line (i m : string) : string :=
  i +:+ "if '" +:+ m +:+ "' not in globals():".
Definition import_line (i m : string) : string :=
  (i +:+ spaces 4) +:+ "import " +:+ m.
Definition else_line (i : string) : string := i +:+ "else:".
Definition global_line (i r : string) : string :=
  (i +:+ spaces 4) +:+ "global " +:+ r.

(** What one call adds. *)
Definition added_by (module : string) (b : CodeBuilder) : list string :=
  if bool_decide (module ∈ modules b) then []
  else
    [guard_line (_current_indent b) module;
     import_line (_current_indent b) module]
    ++ (if bool_decide (split_dot_head module ∈ globals b) then []
        else [else_line (_current_indent b);
              global_line (_current_indent b) (split_dot_head module)]).

Definition ensure_all (ms : list string) (b : CodeBuilder) : CodeBuilder :=
  fold_left (fun b m => ensure_module_imported m b) ms b.

Fixpoint added_all (ms : list string) (b : CodeBuilder) : list string :=
  match ms with
  | [] => []
  | m :: ms' => added_by m b ++ added_all ms' (ensure_module_imported m b)
  end.


(** The entry of [add_from_dict] for a field: its name, the name of its
    type, whether it has a default, and the expression
    [_unpack_field_value] returns for it. *)
Definition plan_for (cls : pycls) (field : string * ftype) (p : field_plan)
  : Prop :=
  fp_name p = fst field
  /\ fp_type_name p = type_name (snd field)
  /\ (exists dv, defaults cls !! fst field = Some dv
                 /\ fp_required p = is_DMissing dv)
  /\ exists b b',
      _unpack_field_value (fst field) (snd field) (cls_qualname cls) "value"
                          (metadatas cls !! fst field) b
      = Built (fp_expr p, b').

(** The entry of [add_to_dict] for a field. *)
Definition pack_for (cls : pycls) (field : string * ftype) (p : string * expr)
  : Prop :=
  fst p = fst field
  /\ _pack_value (fst field) (snd field) (cls_qualname cls) "value"
     = Built (snd p).

(** Values without an attribute [get]: [None], numbers, strings, bytes,
    the five sequences and sets, and the instances of record types that
    have no attribute of that name. *)
Definition has_no_get (d : value) : bool :=
  match d with
  | VDict _ | VChainMap _ | VForeign _ _ => false
  | VObj _ attrs => negb (in_keys "get" attrs)
  | _ => true
  end.

(** Strings of decimal digits. *)
Fixpoint all_digits (s : string) : bool :=
  match s with
  | EmptyString => true
  | String c s' => is_digit c && all_digits s'
  end.

(** No blank and no underscore. *)
Fixpoint clean (s : string) : bool :=
  match s with
  | EmptyString => true
  | String c s' => negb (is_space c) && negb (Ascii.eqb c "_") && clean s'
  end.

Definition starts_with_digit (s : string) : bool :=
  match s with
  | String c _ => is_digit c
  | EmptyString => false
  end.

(** The text of an optional fraction and of an optional exponent, as the
    parser of [Decimal] sees them after lowering the case. *)
Definition frac_str (fd : option string) : string :=
  match fd with
  | Some f => "." +:+ f
  | None => ""
  end.

Definition tail_str (z : option Z) : string :=
  match z with
  | Some z => "e" +:+ signed_str z
  | None => ""
  end.

Definition frac_digits (fd : option string) : string :=
  match fd with
  | Some f => f
  | None => ""
  end.

Definition tail_exp (z : option Z) : Z :=
  match z with
  | Some z => z
  | None => 0%Z
  end.

(** *** Encoding and decoding one value *)

(** The constructor [_unpack_field_value] wraps around the list
    comprehension of a sequence of kind [kind]. *)
Definition seq_wrap (kind : seq_kind) (e : expr) : expr :=
  match kind with
  | KList => e
  | KDeque => ECall "collections.deque" e
  | KTuple => ECall "tuple" e
  | KFrozenSet => ECall "frozenset" e
  | KSet => ECall "set" e
  end.

Section RoundTrips.

Variable extern : string -> list value -> py_result value.
Variable INITIAL_MODULES : gset string.
Variable classes : list (string * pycls).
Variable fl : flags.

(** The generated expressions as functions of [value], with calls into
    record types of depth up to [fuel]. *)
Definition eval_at (fuel : nat) (v : value) (key : option value)
    (owner : string) (e : expr) : py_result value :=
  eval extern (run extern INITIAL_MODULES classes fuel) (mkEnv v key owner fl) e.

(** In the class [owner], [ep] encodes [v] into some [w] and [eu] decodes
    [w] into [v], whatever [key] is bound to.  At the top of a field what
    is written is neither [None] nor missing, so the decoder does run on
    it. *)
Definition round_trips (fuel : nat) (owner : string) (top : bool)
    (ep eu : expr) (v : value) : Prop :=
  forall key key' : option value,
  exists w,
    eval_at fuel v key owner ep = Return w
    /\ eval_at fuel w key' owner eu = Return v
    /\ (top = true -> is_None w = false /\ is_Missing w = false).

End RoundTrips.

(** ** Record types used as examples *)

(** A class with the one field [x: Union[int, str]]. *)
Definition UnionHolder : pycls :=
  [ mkClass "app.UnionHolder"
            [("x", TUnion [TClass c_int; TClass c_str])] [] false [];
    the_object ].

(** A class with the one field [x: list]. *)
Definition ListHolder : pycls :=
  [ mkClass "app.ListHolder" [("x", TClass c_list)] [] false [];
    the_object ].


(** A library in which nothing is installed: every call outside the
    generated code and the built-ins fails. *)
Definition no_library (callee : string) (args : list value) : py_result value :=
  raise (LibraryError "NotFound" callee).

(** A library every call of which is interrupted from the keyboard. *)
Definition interrupted_library (callee : string) (args : list value)
  : py_result value :=
  raise KeyboardInterrupt.

(** [class Ticket: id: uuid.UUID] *)
Definition Ticket : pycls :=
  [ mkClass "app.Ticket" [("id", TClass c_UUID)] [] false []; the_object ].

(** [class Empty: pass] and [class Pair: x: int; y: int = 7] *)
Definition Empty : pycls :=
  [ mkClass "app.Empty" [] [] false []; the_object ].

Definition Pair : pycls :=
  [ mkClass "app.Pair" [("x", TClass c_int); ("y", TClass c_int)]
            [("y", NSValue (VInt 7))] false [];
    the_object ].

Definition app_classes : list (string * pycls) :=
  [("app.Empty", Empty); ("app.Pair", Pair)].

Definition no_flags : flags := mkFlags false false false.

(** What [add_from_dict] leaves for [Pair]. *)
Definition Pair_plans : list field_plan :=
  match add_from_dict ∅ Pair new_builder with
  | Built (plans, _) => plans
  | BuildError _ => []
  end.

Definition Pair_builder : CodeBuilder :=
  match add_from_dict ∅ Pair new_builder with
  | Built (_, b) => b
  | BuildError _ => new_builder
  end.

(** The record types of [test_parent_by_field.py]: [Foo1 <- Foo2 <- Foo3,
    Foo4], where [Foo3] and [Foo4] assign [type = 3] and [type = 4] in
    their bodies. *)
Definition Foo1_info : pyclass_info :=
  mkClass "Foo1" [("x1", TClass c_int)] [] true
          [mkField "x1" None None [] true].

Definition Foo2_info : pyclass_info :=
  mkClass "Foo2" [("x2", TClass c_int)] [] true
          [mkField "x1" None None [] true; mkField "x2" None None [] true].

Definition Foo_leaf (name : string) (tag : Z) : pyclass_info :=
  mkClass name [("x", TClass c_int)] [("type", NSValue (VInt tag))] true
          [mkField "x1" None None [] true; mkField "x2" None None [] true;
           mkField "x" None None [] true].

Definition foo_classes : list (string * pycls) :=
  [("Foo1", [Foo1_info; the_object]);
   ("Foo2", [Foo2_info; Foo1_info; the_object]);
   ("Foo3", [Foo_leaf "Foo3" 3; Foo2_info; Foo1_info; the_object]);
   ("Foo4", [Foo_leaf "Foo4" 4; Foo2_info; Foo1_info; the_object])].

Definition Foo_tree : class_tree :=
  ClassNode "Foo1" []
    [ClassNode "Foo2" []
       [ClassNode "Foo3" [("type", VInt 3)] [];
        ClassNode "Foo4" [("type", VInt 4)] []]].

(** [Discriminator(field="type", include_subtypes=True)] *)
Definition by_type_field : Discriminator :=
  mkDiscriminator (Some "type") true false None.

(** The decode routine of each of these record types. *)
Definition foo_decode (T : string) (d : value) : py_result value :=
  from_dict no_library ∅ foo_classes 2 T d no_flags.

(** [BaseVariantWitCustomTagger] and its two subtypes, without fields,
    under [Discriminator(field="type", include_subtypes=True,
    variant_tagger_fn=lambda cls: cls.__name__.lower())]. *)
Definition tagger_classes : list (string * pycls) :=
  [("VariantWitCustomTaggerSub1",
    [mkClass "VariantWitCustomTaggerSub1" [] [] true []; the_object]);
   ("VariantWitCustomTaggerSub2",
    [mkClass "VariantWitCustomTaggerSub2" [] [] true []; the_object])].

Definition tagger_tree : class_tree :=
  ClassNode "BaseVariantWitCustomTagger" []
    [ClassNode "VariantWitCustomTaggerSub1" [] [];
     ClassNode "VariantWitCustomTaggerSub2" [] []].

Definition by_custom_tagger : Discriminator :=
  mkDiscriminator (Some "type") true false (Some lower_name_tagger).

Definition tagger_decode (T : string) (d : value) : py_result value :=
  from_dict no_library ∅ tagger_classes 2 T d no_flags.

(** [class Base1: x: int = 1] and [class DBare(Base1): x: int], which
    annotates [x] again without a value. *)
Definition Base1_info : pyclass_info :=
  mkClass "app.Base1" [("x", TClass c_int)] [("x", NSValue (VInt 1))] true
          [mkField "x" (Some (VInt 1)) None [] true].

Definition DBare : pycls :=
  [ mkClass "app.DBare" [("x", TClass c_int)] [] false [];
    Base1_info; the_object ].

(** [class Points: xs: Sequence[int]] *)
Definition Points : pycls :=
  [ mkClass "app.Points" [("xs", TGeneric c_Sequence [TClass c_int])] []
            false [];
    the_object ].

(** [class Base: x: int], [class Sub(Base): y: int] and
    [class Holder: b: Base] *)
Definition Base_info : pyclass_info :=
  mkClass "app.Base" [("x", TClass c_int)] [] true
          [mkField "x" None None [] true].

Definition Sub_info : pyclass_info :=
  mkClass "app.Sub" [("y", TClass c_int)] [] true
          [mkField "x" None None [] true; mkField "y" None None [] true].

Definition Holder : pycls :=
  [ mkClass "app.Holder" [("b", TDataclass "app.Base")] [] false [];
    the_object ].

(** [class Order] with one field of each container shape. *)
Definition Order : pycls :=
  [ mkClass "app.Order"
      [("id", TClass c_int);
       ("tags", TGeneric c_list [TClass c_str]);
       ("prices", TGeneric c_dict [TClass c_str; TClass c_int]);
       ("pair", TUnion [TDataclass "app.Pair"; TClass c_NoneType]);
       ("seen", TGeneric c_set [TClass c_int]);
       ("codes", TGeneric c_list [TUnion [TClass c_int; TClass c_NoneType]])]
      [] false [];
    the_object ].

Definition shop_classes : list (string * pycls) :=
  [("app.Points", Points);
   ("app.Base", [Base_info; the_object]);
   ("app.Sub", [Sub_info; Base_info; the_object]);
   ("app.Holder", Holder);
   ("app.Pair", Pair);
   ("app.Order", Order)].

(** [Order(id=5, tags=["a", "b"], prices={"a": 1, "b": 2},
    pair=Pair(x=1, y=None), seen={3, 4}, codes=codes)] *)
Definition an_order (codes : value) : value :=
  VObj "app.Order"
       [("id", VInt 5);
        ("tags", VSeq KList [VStr "a"; VStr "b"]);
        ("prices", VDict [(VStr "a", VInt 1); (VStr "b", VInt 2)]);
        ("pair", VObj "app.Pair" [("x", VInt 1); ("y", VNone)]);
        ("seen", VSeq KSet [VInt 3; VInt 4]);
        ("codes", codes)].

(** A small library: [decimal.Decimal], [uuid.UUID], [datetime.date],
    [float] and the enum [app.Colour].  A decimal is known by its [str], a
    UUID by its canonical text, a date by its ISO format, an enum member by
    its value, a float by its [repr]; [Decimal(s)], [str(d)] and [==] on
    decimals are the ones modelled above, and the float [nan] is unequal
    to itself. *)
Definition not_found {A} (callee : string) : py_result A :=
  raise (LibraryError "NotFound" callee).

Definition small_library (callee : string) (args : list value)
  : py_result value :=
  match args with
  | [VForeign cls r] =>
      if String.eqb callee "str" then Return (VStr r)
      else if String.eqb callee "float" && String.eqb cls "float"
      then Return (VForeign cls r)
      else if String.eqb callee ".isoformat()"
              && String.eqb cls "datetime.date"
      then Return (VStr r)
      else if String.eqb callee ".value" && String.eqb cls "app.Colour"
      then Return (VStr r)
      else not_found callee
  | [VStr s] =>
      if String.eqb callee "Decimal" then
        match Decimal_of_str s with
        | Return d => Return (VForeign "decimal.Decimal" (str_Decimal d))
        | Raise e => Raise e
        end
      else if String.eqb callee "uuid.UUID" then Return (VForeign "uuid.UUID" s)
      else if String.eqb callee "datetime.date.fromisoformat"
      then Return (VForeign "datetime.date" s)
      else if String.eqb callee "app.Colour"
      then Return (VForeign "app.Colour" s)
      else not_found callee
  | [VForeign cls r; VForeign cls' r'] =>
      if negb (String.eqb callee "==") then not_found callee
      else if String.eqb cls "decimal.Decimal"
              && String.eqb cls' "decimal.Decimal" then
        match Decimal_of_str r, Decimal_of_str r' with
        | Return a, Return b =>
            match Decimal_eq a b with
            | Return c => Return (VBool c)
            | Raise e => Raise e
            end
        | _, _ => Return (VBool false)
        end
      else if String.eqb cls "float" && String.eqb r "nan"
      then Return (VBool false)
      else Return (VBool (String.eqb cls cls' && String.eqb r r'))
  | _ => not_found callee
  end.

(** [class Invoice: number: uuid.UUID; total: Decimal;
    lines: Dict[uuid.UUID, Decimal]; issued: datetime.date;
    colour: Colour; rates: Tuple[float]; order: Order] *)
Definition Invoice : pycls :=
  [ mkClass "app.Invoice"
      [("number", TClass c_UUID);
       ("total", TClass c_Decimal);
       ("lines", TGeneric c_dict [TClass c_UUID; TClass c_Decimal]);
       ("issued", TClass c_date);
       ("colour", TClass (c_Enum "app.Colour"));
       ("rates", TGeneric c_tuple [TClass c_float]);
       ("order", TDataclass "app.Order")]
      [] false [];
    the_object ].

(** [class Vars: c: int; b: InitVar[int]] *)
Definition Vars : pycls :=
  [ mkClass "app.Vars" [("c", TClass c_int); ("b", TInitVar (TClass c_int))]
            [] false [];
    the_object ].

(** [class Stamp: at: int; seq: int = field(default=0, init=False)] *)
Definition Stamp : pycls :=
  [ mkClass "app.Stamp" [("at", TClass c_int); ("seq", TClass c_int)]
            [("seq", NSField (mkField "seq" (Some (VInt 0)) None [] false))]
            false [];
    the_object ].

Definition billing_classes : list (string * pycls) :=
  shop_classes
  ++ [("app.Invoice", Invoice); ("app.Vars", Vars); ("app.Stamp", Stamp)].

Definition a_uuid (last : string) : value :=
  VForeign "uuid.UUID" ("12345678-1234-5678-1234-56781234567" +:+ last).

(** [Invoice(number=UUID(...), total=Decimal(total),
    lines={UUID(...): Decimal("1.50"), UUID(...): Decimal("2E+3")},
    issued=date(2020, 2, 29), colour=Colour.RED, rates=(0.25, 1e-07),
    order=Order(...))] *)
Definition an_invoice (total : string) : value :=
  VObj "app.Invoice"
       [("number", a_uuid "0");
        ("total", VForeign "decimal.Decimal" total);
        ("lines", VDict [(a_uuid "1", VForeign "decimal.Decimal" "1.50");
                         (a_uuid "2", VForeign "decimal.Decimal" "2E+3")]);
        ("issued", VForeign "datetime.date" "2020-02-29");
        ("colour", VForeign "app.Colour" "red");
        ("rates", VSeq KTuple [VForeign "float" "0.25";
                               VForeign "float" "1e-07"]);
        ("order", an_order (VSeq KList [VInt 1; VInt 2]))].

(** [decimal.getcontext()] as the interpreter starts with it. *)
Definition default_context : context :=
  mkContext 28 999999 (-999999) ROUND_HALF_EVEN.

(** ** Further notions and examples *)

(** The two messages for a mapping whose keys are record types. *)
Definition dataclass_key_error (c : pyclass) : build_error :=
  UnserializableDataError
    ((if pyclass_eqb c c_ChainMap then "ChainMaps" else "Mappings")
     +:+ " with dataclasses as keys are not supported by mashumaro").

(** [class Plain: x: int] is not a dataclass;
    [class Child(Plain): y: int] is being built. *)
Definition Plain_info : pyclass_info :=
  mkClass "app.Plain" [("x", TClass c_int)] [] false [].

Definition Child : pycls :=
  [ mkClass "app.Child" [("y", TClass c_int)] [] false [];
    Plain_info; the_object ].

(** [class Index: by_pair: Dict[Pair, int]] *)
Definition Index : pycls :=
  [ mkClass "app.Index"
            [("by_pair", TGeneric c_dict [TDataclass "app.Pair"; TClass c_int])]
            [] false [];
    the_object ].

(** *** What the builder leaves behind *)

(** The line starts with the text [i]. *)
Definition starts_with (i line : string) : Prop :=
  exists rest, line = i +:+ rest.

(** [b'] is [b] after some calls of builder methods that kept their
    discipline: the indentation is back where it was, every line added
    starts with it, no module is forgotten, and a module that is new is
    imported by a line added. *)
Definition extends (b b' : CodeBuilder) : Prop :=
  _current_indent b' = _current_indent b
  /\ modules b ⊆ modules b'
  /\ exists added,
      lines b' = (lines b ++ added)%list
      /\ Forall (starts_with (_current_indent b)) added
      /\ forall m, m ∈ modules b' ->
                   m ∈ modules b \/ exists i, In (import_line i m) added.

Definition extending {A} (m : M A) : Prop :=
  forall b a b', m b = Built (a, b') -> extends b b'.

(** An annotation and the annotations nested in it: [__args__], to any
    depth. *)
Fixpoint type_parts (t : ftype) : list ftype :=
  t :: match t with
       | TGeneric _ args | TUnion args => flat_map type_parts args
       | TClassVar a | TInitVar a => type_parts a
       | _ => []
       end.

(** Whenever [m] succeeds, the modules in [P] are registered afterwards. *)
Definition registers {A} (P : string -> Prop) (m : M A) : Prop :=
  forall b a b', m b = Built (a, b') -> forall s, P s -> s ∈ modules b'.

(** What [add_to_dict] leaves for [Pair], and [add_from_dict] for
    [Order]. *)
Definition Pair_pack_plans : list (string * expr) :=
  match add_to_dict ∅ Pair new_builder with
  | Built (plans, _) => plans
  | BuildError _ => []
  end.

Definition Pair_pack_builder : CodeBuilder :=
  match add_to_dict ∅ Pair new_builder with
  | Built (_, b) => b
  | BuildError _ => new_builder
  end.

Definition Order_plans : list field_plan :=
  match add_from_dict ∅ Order new_builder with
  | Built (plans, _) => plans
  | BuildError _ => []
  end.

Definition Order_builder : CodeBuilder :=
  match add_from_dict ∅ Order new_builder with
  | Built (_, b) => b
  | BuildError _ => new_builder
  end.

(** What the exception [e0] raised by the decode expression of a field
    becomes in [from_dict]. *)
Definition wrapped (cls : pycls) (fname type_name : string) (w : value)
    (e0 : exn) : exn :=
  if is_Exception e0
  then Exc (InvalidFieldValue fname type_name w (cls_qualname cls))
           None (Some e0) false
  else e0.

(** * Properties *)

(** ** Values *)

(** Induction on a value, with the property known of the values it
    contains. *)
Lemma value_nested_ind (P : value -> Prop) :
  P VNone -> P VMissing ->
  (forall b, P (VBool b)) -> (forall z, P (VInt z)) ->
  (forall s, P (VStr s)) -> (forall s, P (VBytes s)) ->
  (forall k l, Forall P l -> P (VSeq k l)) ->
  (forall items, Forall (fun kv => P (fst kv) /\ P (snd kv)) items ->
                 P (VDict items)) ->
  (forall maps, Forall P maps -> P (VChainMap maps)) ->
  (forall c attrs, Forall (fun a => P (snd a)) attrs -> P (VObj c attrs)) ->
  (forall c r, P (VForeign c r)) ->
  forall v, P v.
Proof.
  intros HN HM HB HI HS HBy HSeq HD HC HO HF.
  fix IH 1. intros v. destruct v as [| |b|z|s|s|k l|items|maps|c attrs|c r].
  - exact HN.
  - exact HM.
  - apply HB.
  - apply HI.
  - apply HS.
  - apply HBy.
  - apply HSeq. induction l as [|x l IHl]; constructor; [apply IH|exact IHl].
  - apply HD. induction items as [|[k x] items IHl]; constructor;
      [split; apply IH|exact IHl].
  - apply HC. induction maps as [|x l IHl]; constructor; [apply IH|exact IHl].
  - apply HO. induction attrs as [|[a x] attrs IHl]; constructor;
      [apply IH|exact IHl].
  - apply HF.
Qed.

Lemma seq_kind_eqb_eq (a b : seq_kind) : seq_kind_eqb a b = true <-> a = b.
Proof. destruct a, b; cbn; split; congruence. Qed.

(** [value_eqb] decides equality. *)
Lemma value_eqb_eq (a b : value) : value_eqb a b = true <-> a = b.
Proof.
  revert b.
  induction a as [| |x|x|x|x|k xs IH|xs IH|xs IH|c xs IH|c r]
    using value_nested_ind;
    intros [| |y|y|y|y|k' ys|ys|ys|c' ys|c' r']; cbn [value_eqb];
    try (split; [discriminate|congruence]); try (split; reflexivity).
  - rewrite Bool.eqb_true_iff. split; congruence.
  - rewrite Z.eqb_eq. split; congruence.
  - rewrite String.eqb_eq. split; congruence.
  - rewrite String.eqb_eq. split; congruence.
  - rewrite andb_true_iff, seq_kind_eqb_eq.
    match goal with |- _ /\ ?f xs ys = true <-> _ =>
      assert (Hl : forall ys, f xs ys = true <-> xs = ys) end.
    { clear ys. induction IH as [|x l Hx Hl IHl]; intros [|y ys];
        try (split; [discriminate|congruence]); try (split; reflexivity).
      rewrite andb_true_iff, Hx, IHl. split; [intros [-> ->]|intros [= -> ->]];
        auto. }
    rewrite Hl. split; [intros [-> ->]|intros [= -> ->]]; auto.
  - match goal with |- ?f xs ys = true <-> _ =>
      assert (Hl : forall ys, f xs ys = true <-> xs = ys) end.
    { clear ys. induction IH as [|[k x] l [Hk Hx] Hl IHl]; intros [|[k' y] ys];
        try (split; [discriminate|congruence]); try (split; reflexivity).
      cbn [fst snd] in *.
      rewrite !andb_true_iff, Hk, Hx, IHl.
      split; [intros [[-> ->] ->]|intros [= -> -> ->]]; auto. }
    rewrite Hl. split; congruence.
  - match goal with |- ?f xs ys = true <-> _ =>
      assert (Hl : forall ys, f xs ys = true <-> xs = ys) end.
    { clear ys. induction IH as [|x l Hx Hl IHl]; intros [|y ys];
        try (split; [discriminate|congruence]); try (split; reflexivity).
      rewrite andb_true_iff, Hx, IHl. split; [intros [-> ->]|intros [= -> ->]];
        auto. }
    rewrite Hl. split; congruence.
  - rewrite andb_true_iff, String.eqb_eq.
    match goal with |- _ /\ ?f xs ys = true <-> _ =>
      assert (Hl : forall ys, f xs ys = true <-> xs = ys) end.
    { clear ys. induction IH as [|[n x] l Hx Hl IHl]; intros [|[n' y] ys];
        try (split; [discriminate|congruence]); try (split; reflexivity).
      cbn [fst snd] in *.
      rewrite !andb_true_iff, String.eqb_eq, Hx, IHl.
      split; [intros [[-> ->] ->]|intros [= -> -> ->]]; auto. }
    rewrite Hl. split; [intros [-> ->]|intros [= -> ->]]; auto.
  - rewrite andb_true_iff, !String.eqb_eq.
    split; [intros [-> ->]|intros [= -> ->]]; auto.
Qed.

Lemma value_eqb_refl (a : value) : value_eqb a a = true.
Proof. now apply value_eqb_eq. Qed.

(** ** Strings *)

Lemma append_cons (c : ascii) (a b : string) :
  String c a +:+ b = String c (a +:+ b).
Proof. reflexivity. Qed.

Lemma append_nil_l (b : string) : "" +:+ b = b.
Proof. reflexivity. Qed.

Lemma append_nil_r (s : string) : s +:+ "" = s.
Proof. induction s; rewrite ?append_cons, ?append_nil_l; congruence. Qed.

Lemma append_assoc (a b c : string) : (a +:+ b) +:+ c = a +:+ (b +:+ c).
Proof. induction a; rewrite ?append_cons, ?append_nil_l; congruence. Qed.

Lemma append_length (a b : string) :
  String.length (a +:+ b) = String.length a + String.length b.
Proof. induction a; rewrite ?append_cons, ?append_nil_l; simpl; lia. Qed.

Lemma substring_0_append (a b : string) :
  substring 0 (String.length a) (a +:+ b) = a.
Proof.
  induction a as [|c a IH]; rewrite ?append_cons, ?append_nil_l; simpl.
  - destruct b; reflexivity.
  - now rewrite IH.
Qed.

Lemma spaces_length (n : nat) : String.length (spaces n) = n.
Proof. induction n; simpl; congruence. Qed.

Lemma drop_last_append (i : string) (n : nat) :
  drop_last n (i +:+ spaces n) = i.
Proof.
  unfold drop_last. rewrite append_length, spaces_length.
  replace (String.length i + n - n) with (String.length i) by lia.
  apply substring_0_append.
Qed.

(** Cancellation on the right. *)
Lemma append_inj_r (a b t : string) : a +:+ t = b +:+ t -> a = b.
Proof.
  revert b. induction a as [|c a IH]; intros [|d b] H;
    rewrite ?append_cons, ?append_nil_l in H.
  - reflexivity.
  - exfalso. apply (f_equal String.length) in H. simpl in H.
    rewrite append_length in H. lia.
  - exfalso. apply (f_equal String.length) in H. simpl in H.
    rewrite append_length in H. lia.
  - injection H as -> H. f_equal. now apply IH.
Qed.

Lemma append_inj_l (a s t : string) : a +:+ s = a +:+ t -> s = t.
Proof.
  induction a; rewrite ?append_cons, ?append_nil_l; intros H; [assumption|].
  injection H. auto.
Qed.

(** ** The builder's bookkeeping *)

Lemma indent_add_line (line : string) (b : CodeBuilder) :
  indent (add_line line) b =
  {| lines := lines b ++ [(_current_indent b +:+ spaces 4) +:+ line];
     modules := modules b;
     globals := globals b;
     _current_indent := _current_indent b |}.
Proof.
  unfold indent, add_line, set_indent. cbn [lines modules globals _current_indent].
  now rewrite drop_last_append.
Qed.

Lemma ensure_module_imported_spec (module : string) (b : CodeBuilder) :
  ensure_module_imported module b =
  {| lines := lines b ++ added_by module b;
     modules := {[ module ]} ∪ modules b;
     globals := if bool_decide (module ∈ modules b) then globals b
                else {[ split_dot_head module ]} ∪ globals b;
     _current_indent := _current_indent b |}.
Proof.
  unfold ensure_module_imported, added_by. cbv zeta.
  destruct (bool_decide (module ∈ modules b)) eqn:Hm.
  - apply bool_decide_eq_true in Hm. destruct b as [l ms gs i]. cbn in *.
    rewrite app_nil_r. f_equal. symmetry.
    apply subseteq_union_1_L. now apply singleton_subseteq_l.
  - rewrite !indent_add_line.
    cbn [lines modules globals _current_indent add_module add_line add_global].
    destruct (bool_decide (split_dot_head module ∈ globals b)) eqn:Hg.
    + apply bool_decide_eq_true in Hg.
      rewrite app_nil_r. unfold guard_line, import_line.
      rewrite <- app_assoc. cbn [app]. f_equal. symmetry.
      apply subseteq_union_1_L. now apply singleton_subseteq_l.
    + rewrite ?indent_add_line.
      cbn [lines modules globals _current_indent add_module add_line add_global].
      unfold guard_line, import_line, else_line, global_line.
      rewrite <- !app_assoc. cbn [app]. reflexivity.
Qed.

Lemma ensure_module_imported_registered (module : string) (b : CodeBuilder) :
  module ∈ modules b -> ensure_module_imported module b = b.
Proof.
  intros H. unfold ensure_module_imported.
  now rewrite (bool_decide_eq_true_2 _ H).
Qed.

(** The four kinds of line differ, and a line tells its module. *)
Lemma import_line_inj (i m m' : string) :
  import_line i m = import_line i m' -> m = m'.
Proof.
  unfold import_line. intros H.
  apply append_inj_l in H. now apply append_inj_l in H.
Qed.

Lemma global_line_inj (i r r' : string) :
  global_line i r = global_line i r' -> r = r'.
Proof.
  unfold global_line. intros H.
  apply append_inj_l in H. now apply append_inj_l in H.
Qed.

Lemma guard_line_inj (i m m' : string) :
  guard_line i m = guard_line i m' -> m = m'.
Proof.
  unfold guard_line. intros H.
  apply append_inj_l in H. apply append_inj_l in H.
  now apply append_inj_r in H.
Qed.

Lemma import_not_guard i m m' : import_line i m <> guard_line i m'.
Proof.
  unfold import_line, guard_line. rewrite append_assoc. intros H.
  apply append_inj_l in H. discriminate H.
Qed.

Lemma import_not_else i m : import_line i m <> else_line i.
Proof.
  unfold import_line, else_line. rewrite append_assoc. intros H.
  apply append_inj_l in H. discriminate H.
Qed.

Lemma import_not_global i m r : import_line i m <> global_line i r.
Proof.
  unfold import_line, global_line. intros H.
  apply append_inj_l in H. discriminate H.
Qed.

Lemma global_not_guard i r m : global_line i r <> guard_line i m.
Proof.
  unfold global_line, guard_line. rewrite append_assoc. intros H.
  apply append_inj_l in H. discriminate H.
Qed.

Lemma global_not_else i r : global_line i r <> else_line i.
Proof.
  unfold global_line, else_line. rewrite append_assoc. intros H.
  apply append_inj_l in H. discriminate H.
Qed.

Lemma guard_not_else i m : guard_line i m <> else_line i.
Proof.
  unfold guard_line, else_line. intros H.
  apply append_inj_l in H. discriminate H.
Qed.

Lemma ensure_all_lines (ms : list string) (b : CodeBuilder) :
  lines (ensure_all ms b) = (lines b ++ added_all ms b)%list.
Proof.
  revert b. induction ms as [|m ms IH]; intros b; simpl.
  - now rewrite app_nil_r.
  - unfold ensure_all in *. simpl. rewrite IH.
    rewrite (ensure_module_imported_spec m b) at 1. simpl.
    now rewrite <- app_assoc.
Qed.

Lemma ensure_indent (m : string) (b : CodeBuilder) :
  _current_indent (ensure_module_imported m b) = _current_indent b.
Proof. now rewrite ensure_module_imported_spec. Qed.

Lemma ensure_modules (m : string) (b : CodeBuilder) :
  modules (ensure_module_imported m b) = {[ m ]} ∪ modules b.
Proof. now rewrite ensure_module_imported_spec. Qed.

Ltac count_lines :=
  repeat match goal with
         | |- context [string_dec ?a ?b] => destruct (string_dec a b)
         | H : import_line _ _ = guard_line _ _ |- _ =>
             now apply import_not_guard in H
         | H : guard_line _ _ = import_line _ _ |- _ =>
             symmetry in H; now apply import_not_guard in H
         | H : import_line _ _ = else_line _ |- _ =>
             now apply import_not_else in H
         | H : else_line _ = import_line _ _ |- _ =>
             symmetry in H; now apply import_not_else in H
         | H : import_line _ _ = global_line _ _ |- _ =>
             now apply import_not_global in H
         | H : global_line _ _ = import_line _ _ |- _ =>
             symmetry in H; now apply import_not_global in H
         | H : global_line _ _ = guard_line _ _ |- _ =>
             now apply global_not_guard in H
         | H : guard_line _ _ = global_line _ _ |- _ =>
             symmetry in H; now apply global_not_guard in H
         | H : global_line _ _ = else_line _ |- _ =>
             now apply global_not_else in H
         | H : else_line _ = global_line _ _ |- _ =>
             symmetry in H; now apply global_not_else in H
         | H : guard_line _ _ = else_line _ |- _ =>
             now apply guard_not_else in H
         | H : else_line _ = guard_line _ _ |- _ =>
             symmetry in H; now apply guard_not_else in H
         | H : import_line _ _ = import_line _ _ |- _ =>
             apply import_line_inj in H
         | H : guard_line _ _ = guard_line _ _ |- _ =>
             apply guard_line_inj in H
         | H : global_line _ _ = global_line _ _ |- _ =>
             apply global_line_inj in H
         end.

(** Lines of a module that is registered are not added again; those of
    another one are added once at most. *)
Lemma import_count (i m : string) (ms : list string) (b : CodeBuilder) :
  _current_indent b = i ->
  count_occ string_dec (added_all ms b) (import_line i m)
  <= (if bool_decide (m ∈ modules b) then 0 else 1)
  /\ count_occ string_dec (added_all ms b) (guard_line i m)
     <= (if bool_decide (m ∈ modules b) then 0 else 1).
Proof.
  revert b. induction ms as [|m0 ms IH]; intros b Hi.
  - simpl. split; lia.
  - cbn [added_all]. rewrite !count_occ_app.
    specialize (IH (ensure_module_imported m0 b)).
    rewrite ensure_indent, ensure_modules in IH. specialize (IH Hi).
    unfold added_by. rewrite Hi.
    destruct (bool_decide (m0 ∈ modules b)) eqn:H0.
    + apply bool_decide_eq_true in H0.
      replace ({[m0]} ∪ modules b) with (modules b) in IH.
      2:{ symmetry. apply subseteq_union_1_L.
          now apply singleton_subseteq_l. }
      simpl. exact IH.
    + apply bool_decide_eq_false in H0.
      destruct (decide (m = m0)) as [->|Hne].
      * rewrite (bool_decide_eq_false_2 _ H0).
        rewrite bool_decide_eq_true_2 in IH by (apply elem_of_union_l; now apply elem_of_singleton).
        destruct IH as [IH1 IH2].
        destruct (bool_decide (split_dot_head m0 ∈ globals b));
          simpl; count_lines; try congruence; lia.
      * assert (bool_decide (m ∈ {[m0]} ∪ modules b)
                = bool_decide (m ∈ modules b)) as E.
        { apply bool_decide_ext. rewrite elem_of_union, elem_of_singleton.
          tauto. }
        rewrite E in IH. destruct IH as [IH1 IH2].
        destruct (bool_decide (split_dot_head m0 ∈ globals b));
          simpl; count_lines; try congruence; lia.
Qed.

Lemma ensure_globals (m : string) (b : CodeBuilder) :
  globals (ensure_module_imported m b)
  = if bool_decide (m ∈ modules b) then globals b
    else {[ split_dot_head m ]} ∪ globals b.
Proof. now rewrite ensure_module_imported_spec. Qed.

Lemma global_count (i r : string) (ms : list string) (b : CodeBuilder) :
  _current_indent b = i ->
  count_occ string_dec (added_all ms b) (global_line i r)
  <= (if bool_decide (r ∈ globals b) then 0 else 1).
Proof.
  revert b. induction ms as [|m0 ms IH]; intros b Hi.
  - simpl. lia.
  - cbn [added_all]. rewrite count_occ_app.
    specialize (IH (ensure_module_imported m0 b)).
    rewrite ensure_indent, ensure_globals in IH. specialize (IH Hi).
    unfold added_by. rewrite Hi.
    destruct (bool_decide (m0 ∈ modules b)) eqn:H0; [exact IH|].
    destruct (bool_decide (split_dot_head m0 ∈ globals b)) eqn:Hg.
    + apply bool_decide_eq_true in Hg.
      replace ({[split_dot_head m0]} ∪ globals b) with (globals b) in IH.
      2:{ symmetry. apply subseteq_union_1_L.
          now apply singleton_subseteq_l. }
      simpl. count_lines. exact IH.
    + apply bool_decide_eq_false in Hg.
      destruct (decide (r = split_dot_head m0)) as [->|Hne].
      * rewrite (bool_decide_eq_false_2 _ Hg).
        rewrite bool_decide_eq_true_2 in IH
          by (apply elem_of_union_l; now apply elem_of_singleton).
        simpl. count_lines; try congruence; lia.
      * assert (bool_decide (r ∈ {[split_dot_head m0]} ∪ globals b)
                = bool_decide (r ∈ globals b)) as E.
        { apply bool_decide_ext. rewrite elem_of_union, elem_of_singleton.
          tauto. }
        rewrite E in IH.
        simpl. count_lines; try congruence; lia.
Qed.

(** C8.  Registering a module for the generated code is idempotent: a
    second call of [ensure_module_imported] with the same name changes
    nothing, and whatever the sequence of modules registered in one unit,
    the guard and the import line of a module are added at most once, and
    so is the global declaration of a root, however many modules share
    it. *)
Theorem ensure_module_imported_once :
  (forall (m : string) (b : CodeBuilder),
      ensure_module_imported m (ensure_module_imported m b)
      = ensure_module_imported m b)
  /\ (forall (ms : list string) (b : CodeBuilder),
         exists added : list string,
           lines (ensure_all ms b) = (lines b ++ added)%list
           /\ (forall m : string,
                  count_occ string_dec added
                            (guard_line (_current_indent b) m) <= 1
                  /\ count_occ string_dec added
                               (import_line (_current_indent b) m) <= 1)
           /\ (forall r : string,
                  count_occ string_dec added
                            (global_line (_current_indent b) r) <= 1)).
Proof.
  split.
  - intros m b. apply ensure_module_imported_registered.
    rewrite ensure_modules. apply elem_of_union_l. now apply elem_of_singleton.
  - intros ms b. exists (added_all ms b). split; [apply ensure_all_lines|].
    split.
    + intros m.
      destruct (import_count (_current_indent b) m ms b eq_refl) as [H1 H2].
      destruct (bool_decide (m ∈ modules b)); lia.
    + intros r.
      assert (H := global_count (_current_indent b) r ms b eq_refl).
      destruct (bool_decide (r ∈ globals b)); lia.
Qed.

Example two_modules_one_root :
  lines (ensure_all ["os.path"; "os.path"; "os.errno"] new_builder)
  = ["if 'os.path' not in globals():"; "    import os.path";
     "else:"; "    global os";
     "if 'os.errno' not in globals():"; "    import os.errno"].
Proof. vm_compute. reflexivity. Qed.

(** ** Defaults *)

Lemma fields_fold_lookup (name : string) (fs : list Field)
    (d : gmap string dflt) :
  fold_left (fun d f => <[ f_name f := field_dflt f ]> d) fs d !! name
  = match find (fun f => String.eqb (f_name f) name) (rev fs) with
    | Some f => Some (field_dflt f)
    | None => d !! name
    end.
Proof.
  revert d. induction fs as [|f fs IH] using rev_ind; intros d.
  - reflexivity.
  - rewrite fold_left_app, rev_app_distr. cbn [fold_left rev app find].
    destruct (String.eqb (f_name f) name) eqn:E.
    + apply String.eqb_eq in E. subst name. apply lookup_insert_eq.
    + apply String.eqb_neq in E. rewrite lookup_insert_ne by assumption.
      apply IH.
Qed.

Lemma defaults_of_ancestor_lookup (name : string) (a : pyclass_info)
    (d : gmap string dflt) :
  defaults_of_ancestor d a !! name
  = match declared_by_ancestor name a with
    | Some x => Some x
    | None => d !! name
    end.
Proof.
  unfold defaults_of_ancestor, declared_by_ancestor.
  destruct (cls_is_dataclass a); [|reflexivity].
  rewrite fields_fold_lookup.
  now destruct (find _ _).
Qed.

Lemma ancestors_fold_lookup (name : string) (l : list pyclass_info)
    (d : gmap string dflt) :
  fold_left defaults_of_ancestor (rev l) d !! name
  = match first_declaration name l with
    | Some x => Some x
    | None => d !! name
    end.
Proof.
  induction l as [|a l IH]; [reflexivity|].
  cbn [rev first_declaration]. rewrite fold_left_app. cbn [fold_left].
  rewrite defaults_of_ancestor_lookup.
  destruct (declared_by_ancestor name a); [reflexivity|]. apply IH.
Qed.

Lemma own_fold_lookup (cls : pycls) (name : string)
    (l : list (string * ftype)) (d : gmap string dflt) :
  fold_left (fun d '(n, _) => <[ n := own_dflt cls n ]> d) l d !! name
  = if in_keys name l then Some (own_dflt cls name) else d !! name.
Proof.
  revert d. induction l as [|[n t] l IH] using rev_ind; intros d.
  - reflexivity.
  - rewrite fold_left_app. cbn [fold_left].
    assert (in_keys name (l ++ [(n, t)])
            = in_keys name l || String.eqb name n) as ->.
    { unfold in_keys. clear. induction l as [|[k v] l IH]; simpl.
      - now destruct (String.eqb name n).
      - destruct (String.eqb name k); [reflexivity|exact IH]. }
    destruct (String.eqb name n) eqn:E.
    + apply String.eqb_eq in E. subst n. rewrite orb_true_r.
      apply lookup_insert_eq.
    + apply String.eqb_neq in E. rewrite orb_false_r.
      rewrite lookup_insert_ne by congruence. apply IH.
Qed.


(** A base type with [x: int = 1], a subtype that redeclares [x: int = 2],
    and a third class below them that declares nothing. *)
Example subtype_default_overrides :
  let x_field v := mkField "x" (Some (VInt v)) None [] true in
  let Base := mkClass "app.Base" [("x", TClass c_int)] [("x", NSValue (VInt 1))]
                      true [x_field 1%Z] in
  let Sub := mkClass "app.Sub" [("x", TClass c_int)] [("x", NSValue (VInt 2))]
                     true [x_field 2%Z] in
  let Leaf := mkClass "app.Leaf" [] [] false [] in
  defaults [Sub; Base; the_object] !! "x" = Some (DValue (VInt 2))
  /\ defaults [Leaf; Sub; Base; the_object] !! "x" = Some (DValue (VInt 2))
  /\ defaults [Base; the_object] !! "x" = Some (DValue (VInt 1)).
Proof. repeat split; vm_compute; reflexivity. Qed.

(** ** Shapes without a conversion *)

Lemma pack_unsupported (fname : string) (t : ftype) (parent vn : string) :
  unsupported_shape t = true ->
  _pack_value fname t parent vn = BuildError (shape_error fname t parent).
Proof.
  intros H. destruct t as [c| | | | | |args| | | | |];
    try discriminate H; try reflexivity.
  - destruct c; try discriminate H; reflexivity.
  - destruct args as [|a [|b [|c r]]]; try discriminate H; try reflexivity.
    cbn in H |- *. apply negb_true_iff in H. now rewrite H.
Qed.

Lemma unpack_unsupported (fname : string) (t : ftype) (parent vn : string)
    (md : option (list (string * meta_value))) (b : CodeBuilder) :
  unsupported_shape t = true ->
  _unpack_field_value fname t parent vn md b
  = BuildError (shape_error fname t parent).
Proof.
  intros H. destruct t as [c| | | | | |args| | | | |];
    try discriminate H; try reflexivity.
  - destruct c; try discriminate H; reflexivity.
  - destruct args as [|a [|b' [|c r]]]; try discriminate H; try reflexivity.
    cbn in H |- *. apply negb_true_iff in H. now rewrite H.
Qed.

(** A loop of the builder fails as soon as one body does. *)
Lemma m_for_fails {A B} (body : A -> M B) (l : list A) (x : A) :
  In x l ->
  (forall b, exists e, body x b = BuildError e) ->
  forall b, exists e, m_for l body b = BuildError e.
Proof.
  intros Hin Hx. induction l as [|y l IH]; [destruct Hin|].
  intros b. cbn [m_for]. unfold m_bind at 1.
  destruct Hin as [->|Hin].
  - destruct (Hx b) as [e ->]. eauto.
  - destruct (body y b) as [[r b']|e]; [|eauto].
    unfold m_bind. destruct (IH Hin b') as [e ->]. eauto.
Qed.

Lemma m_for_first_failure {A B} (body : A -> M B) (pre post : list A) (x : A)
    (e : build_error) :
  (forall y b, In y pre -> is_built (body y b) = true) ->
  (forall b, body x b = BuildError e) ->
  forall b, m_for (pre ++ x :: post) body b = BuildError e.
Proof.
  induction pre as [|y pre IH]; intros Hpre Hx b.
  - cbn [app m_for]. unfold m_bind. now rewrite Hx.
  - cbn [app m_for]. unfold m_bind at 1.
    assert (Hy := Hpre y b (or_introl eq_refl)).
    destruct (body y b) as [[r b']|e'] eqn:Ey; [|discriminate Hy].
    unfold m_bind. rewrite IH; [reflexivity| |assumption].
    intros y' b0 Hin. apply Hpre. now right.
Qed.

Lemma add_to_dict_field_fails (cls : pycls) (fname : string) (t : ftype)
    (e : build_error) (b : CodeBuilder) :
  (forall vn, _pack_value fname t (cls_qualname cls) vn = BuildError e) ->
  add_to_dict_field cls (fname, t) b = BuildError e.
Proof.
  intros H. unfold add_to_dict_field, m_bind, m_add_line, m_do, m_indent,
    m_lift. now rewrite H.
Qed.

Lemma add_from_dict_field_fails (cls : pycls) (fname : string) (t : ftype)
    (e : build_error) (b : CodeBuilder) :
  (forall vn md b', _unpack_field_value fname t (cls_qualname cls) vn md b'
                    = BuildError e) ->
  add_from_dict_field cls (fname, t) b
  = BuildError (match defaults cls !! fname with
                | Some _ => e
                | None => BuildKeyError fname
                end).
Proof.
  intros H. unfold add_from_dict_field, m_bind, m_add_line, m_do, m_indent,
    m_fail.
  destruct (defaults cls !! fname) as [dv|]; [|reflexivity].
  destruct (is_DMissing dv);
    unfold m_bind, m_add_line, m_do, m_indent, add_unpack_block, m_bind;
    now rewrite H.
Qed.

(** Both generators succeed or fail with the loop over the fields. *)
Lemma add_to_dict_loop (IM : gset string) (cls : pycls) (b : CodeBuilder) :
  exists b0 finish,
    add_to_dict IM cls b =
    match m_for (field_types cls) (add_to_dict_field cls) b0 with
    | Built (plans, b1) => Built (plans, finish b1)
    | BuildError e => BuildError e
    end.
Proof.
  unfold add_to_dict, m_bind, m_add_line, m_do, m_indent, m_ret.
  match goal with |- context [m_for _ _ ?b0] => exists b0 end.
  eexists (fun b1 => _).
  destruct (m_for _ _ _) as [[plans b1]|e]; reflexivity.
Qed.

Lemma add_from_dict_loop (IM : gset string) (cls : pycls) (b : CodeBuilder) :
  exists b0 finish,
    add_from_dict IM cls b =
    match m_for (field_types cls) (add_from_dict_field cls) b0 with
    | Built (plans, b1) => Built (plans, finish b1)
    | BuildError e => BuildError e
    end.
Proof.
  unfold add_from_dict, m_bind, m_add_line, m_do, m_indent, m_ret.
  match goal with |- context [m_for _ _ ?b0] => exists b0 end.
  eexists (fun b1 => _).
  destruct (m_for _ _ _) as [[plans b1]|e]; reflexivity.
Qed.

(** C4, as the code has it.  A field whose type is a bare container, a
    free type variable, [AnyStr], or a union other than [Optional] makes
    both generators fail while the class is being built, so that no
    routine exists that could fail later.  The error of a bare container
    is an [UnserializableField] that names the field, its type and the
    owning class; the error of a type variable, of [AnyStr] and of a union
    is an [UnserializableDataError] that carries a fixed message only.
    Either is the error of the whole build when the fields before the
    offending one can be generated. *)
Theorem unsupported_shape_fails_at_build (IM : gset string) (cls : pycls)
    (fname : string) (t : ftype) (pre post : list (string * ftype)) :
  unsupported_shape t = true ->
  field_types cls = (pre ++ (fname, t) :: post)%list ->
  let parent := cls_qualname cls in
  let err := shape_error fname t parent in
  (forall vn, _pack_value fname t parent vn = BuildError err)
  /\ (forall vn md b, _unpack_field_value fname t parent vn md b
                      = BuildError err)
  /\ (forall b, exists e, add_to_dict IM cls b = BuildError e)
  /\ (forall b, exists e, add_from_dict IM cls b = BuildError e)
  /\ (forall b,
         (forall f b', In f pre ->
                       is_built (add_to_dict_field cls f b') = true) ->
         add_to_dict IM cls b = BuildError err)
  /\ (forall b,
         (forall f b', In f pre ->
                       is_built (add_from_dict_field cls f b') = true) ->
         defaults cls !! fname <> None ->
         add_from_dict IM cls b = BuildError err)
  /\ (forall c, t = TClass c ->
                err = UnserializableField fname t parent
                                          (Some (container_hint c)))
  /\ ((forall c, t <> TClass c) ->
      exists msg, err = UnserializableDataError msg).
Proof.
  intros H Hfields parent err.
  assert (Hp : forall vn, _pack_value fname t parent vn = BuildError err)
    by (intros; now apply pack_unsupported).
  assert (Hu : forall vn md b, _unpack_field_value fname t parent vn md b
                               = BuildError err)
    by (intros; now apply unpack_unsupported).
  assert (Hin : In (fname, t) (field_types cls)).
  { rewrite Hfields. apply in_or_app. right. now left. }
  repeat split; try assumption.
  - intros b. destruct (add_to_dict_loop IM cls b) as (b0 & fin & ->).
    destruct (m_for_fails (add_to_dict_field cls) _ _ Hin) with (b := b0)
      as [e ->]; [|eauto].
    intros b1. eexists. now apply add_to_dict_field_fails.
  - intros b. destruct (add_from_dict_loop IM cls b) as (b0 & fin & ->).
    destruct (m_for_fails (add_from_dict_field cls) _ _ Hin) with (b := b0)
      as [e ->]; [|eauto].
    intros b1. eexists. now apply add_from_dict_field_fails.
  - intros b Hpre. destruct (add_to_dict_loop IM cls b) as (b0 & fin & ->).
    rewrite Hfields.
    rewrite (m_for_first_failure (add_to_dict_field cls) pre post
               (fname, t) err); [reflexivity| |].
    + intros y b' Hy. now apply Hpre.
    + intros b'. now apply add_to_dict_field_fails.
  - intros b Hpre Hd. destruct (add_from_dict_loop IM cls b) as (b0 & fin & ->).
    rewrite Hfields.
    rewrite (m_for_first_failure (add_from_dict_field cls) pre post
               (fname, t) err); [reflexivity| |].
    + intros y b' Hy. now apply Hpre.
    + intros b'. rewrite (add_from_dict_field_fails cls fname t err b' Hu).
      now destruct (defaults cls !! fname).
  - intros c ->. reflexivity.
  - intros Hc. subst err. destruct t; try discriminate H; cbn; eauto.
    now destruct (Hc c).
Qed.

(** C4, as stated, fails: the error of a union names neither the field nor
    its type nor the class. *)
Lemma union_error_names_nothing :
  add_to_dict ∅ UnionHolder new_builder
  = BuildError (UnserializableDataError "Unions are not supported by mashumaro")
  /\ add_from_dict ∅ UnionHolder new_builder
     = BuildError (UnserializableDataError
                     "Unions are not supported by mashumaro")
  /\ ~ (exists msg,
          add_to_dict ∅ UnionHolder new_builder
          = BuildError (UnserializableField
                          "x" (TUnion [TClass c_int; TClass c_str])
                          "app.UnionHolder" msg)).
Proof.
  assert (E : add_to_dict ∅ UnionHolder new_builder
              = BuildError (UnserializableDataError
                              "Unions are not supported by mashumaro"))
    by (vm_compute; reflexivity).
  split; [exact E|]. split; [vm_compute; reflexivity|].
  intros [msg H]. rewrite E in H. discriminate H.
Qed.

Lemma unsupported_shape_fails_at_build_witness :
  unsupported_shape (TClass c_list) = true
  /\ field_types ListHolder = ([] ++ ("x", TClass c_list) :: [])%list
  /\ add_to_dict ∅ ListHolder new_builder
     = BuildError (UnserializableField "x" (TClass c_list) "app.ListHolder"
                                       (Some "Use typing.List[T] instead"))
  /\ add_from_dict ∅ ListHolder new_builder
     = BuildError (UnserializableField "x" (TClass c_list) "app.ListHolder"
                                       (Some "Use typing.List[T] instead")).
Proof.
  assert (H1 : unsupported_shape (TClass c_list) = true) by reflexivity.
  assert (H2 : field_types ListHolder
               = ([] ++ ("x", TClass c_list) :: [])%list) by reflexivity.
  destruct (unsupported_shape_fails_at_build ∅ ListHolder "x" (TClass c_list)
              [] [] H1 H2) as (_ & _ & _ & _ & Hto & Hfrom & _).
  split; [exact H1|]. split; [exact H2|]. split.
  - apply Hto. intros f b' [].
  - apply Hfrom; [intros f b' []|]. vm_compute. discriminate.
Defined.
(** ** Dictionaries and type hints *)

Lemma dict_get_set_eq {V} (k : string) (v : V) (d : list (string * V)) :
  dict_get k (dict_set k v d) = Some v.
Proof.
  induction d as [|[k' v'] d IH]; cbn.
  - now rewrite String.eqb_refl.
  - destruct (String.eqb k k') eqn:E; cbn; rewrite ?E, ?String.eqb_refl; auto.
Qed.

Lemma dict_get_set_ne {V} (k k' : string) (v : V) (d : list (string * V)) :
  k <> k' -> dict_get k (dict_set k' v d) = dict_get k d.
Proof.
  intros Hne. induction d as [|[k0 v0] d IH]; cbn.
  - apply String.eqb_neq in Hne. now rewrite Hne.
  - destruct (String.eqb k' k0) eqn:E; cbn.
    + apply String.eqb_eq in E. subst k0.
      apply String.eqb_neq in Hne. now rewrite Hne.
    + destruct (String.eqb k k0); auto.
Qed.

Lemma dict_set_fresh {V} (k : string) (v : V) (d : list (string * V)) :
  ~ In k (map fst d) -> dict_set k v d = (d ++ [(k, v)])%list.
Proof.
  induction d as [|[k' v'] d IH]; cbn; [reflexivity|]. intros H.
  destruct (String.eqb k k') eqn:E.
  - apply String.eqb_eq in E. subst k'. tauto.
  - rewrite IH; tauto.
Qed.

Lemma dict_set_keys {V} (k k0 : string) (v : V) (d : list (string * V)) :
  In k0 (map fst (dict_set k v d)) <-> k0 = k \/ In k0 (map fst d).
Proof.
  induction d as [|[k' v'] d IH]; cbn; [intuition congruence|].
  destruct (String.eqb k k') eqn:E; cbn.
  - apply String.eqb_eq in E. subst k'. intuition congruence.
  - rewrite IH. intuition congruence.
Qed.

Lemma dict_set_NoDup {V} (k : string) (v : V) (d : list (string * V)) :
  List.NoDup (map fst d) -> List.NoDup (map fst (dict_set k v d)).
Proof.
  induction d as [|[k' v'] d IH]; cbn; intros H.
  - constructor; [intros []|constructor].
  - inversion H as [|? ? Hk' Hd]; subst.
    destruct (String.eqb k k') eqn:E; cbn.
    + apply String.eqb_eq in E. subst k'. now constructor.
    + constructor; [|auto]. rewrite dict_set_keys. intros [->|Hin]; [|tauto].
      now rewrite String.eqb_refl in E.
Qed.

Lemma dict_update_fresh {V} (d new : list (string * V)) :
  List.NoDup (map fst (d ++ new)%list) -> dict_update d new = (d ++ new)%list.
Proof.
  unfold dict_update. revert d.
  induction new as [|[k v] new IH]; intros d H; cbn.
  - now rewrite app_nil_r.
  - assert (Hd : (d ++ (k, v) :: new = (d ++ [(k, v)]) ++ new)%list)
      by now rewrite <- app_assoc.
    rewrite Hd in H |- *.
    rewrite dict_set_fresh.
    + now apply IH.
    + rewrite !map_app in H. apply NoDup_app_remove_r in H.
      cbn in H. apply NoDup_remove_2 in H. now rewrite app_nil_r in H.
Qed.

Lemma dict_get_NoDup {V} (k : string) (v : V) (d : list (string * V)) :
  List.NoDup (map fst d) -> In (k, v) d -> dict_get k d = Some v.
Proof.
  induction d as [|[k' v'] d IH]; cbn; [tauto|]. intros H Hin.
  inversion H as [|? ? Hk' Hd]; subst.
  destruct Hin as [[= -> ->]|Hin].
  - now rewrite String.eqb_refl.
  - destruct (String.eqb k k') eqn:E; [|auto].
    apply String.eqb_eq in E. subst k'.
    exfalso. apply Hk'. apply (in_map fst) in Hin. exact Hin.
Qed.

Lemma dict_get_absent {V} (k : string) (d : list (string * V)) :
  ~ In k (map fst d) -> dict_get k d = None.
Proof.
  induction d as [|[k' v] d IH]; cbn; [reflexivity|]. intros H.
  destruct (String.eqb k k') eqn:E.
  - apply String.eqb_eq in E. subst k'. tauto.
  - apply IH. tauto.
Qed.

Lemma dict_update_NoDup {V} (d new : list (string * V)) :
  List.NoDup (map fst d) -> List.NoDup (map fst (dict_update d new)).
Proof.
  unfold dict_update. revert d.
  induction new as [|[k v] new IH]; intros d H; cbn; [exact H|].
  apply IH. now apply dict_set_NoDup.
Qed.

Lemma get_type_hints_NoDup (cls : pycls) :
  List.NoDup (map fst (get_type_hints cls)).
Proof.
  unfold get_type_hints.
  assert (H : List.NoDup (map fst (@nil (string * ftype)))) by constructor.
  revert H. generalize (@nil (string * ftype)). generalize (rev cls).
  induction l as [|base l IH]; intros acc H; cbn; [exact H|].
  apply IH. now apply dict_update_NoDup.
Qed.

Lemma get_field_types_fold (ann : list (string * ftype)) (r : bool)
    (f : string) (l acc : list (string * ftype)) :
  List.NoDup (map fst l) ->
  dict_get f
    (fold_left
       (fun fields '(fname, ftype) =>
          if is_class_var ftype || is_init_var ftype then fields
          else if r || in_keys fname ann
               then dict_set fname ftype fields
               else fields) l acc)
  = match dict_get f l with
    | Some t =>
        if is_class_var t || is_init_var t then dict_get f acc
        else if r || in_keys f ann then Some t else dict_get f acc
    | None => dict_get f acc
    end.
Proof.
  revert acc. induction l as [|[k t] l IH]; intros acc Hnd; [reflexivity|].
  cbn [map fst] in Hnd. inversion Hnd as [|? ? Hk Hl]; subst.
  cbn [fold_left dict_get]. rewrite (IH _ Hl).
  destruct (String.eqb f k) eqn:E.
  - apply String.eqb_eq in E. subst k. rewrite (dict_get_absent _ _ Hk).
    destruct (is_class_var t || is_init_var t); [reflexivity|].
    destruct (r || in_keys f ann); [|reflexivity].
    apply dict_get_set_eq.
  - apply String.eqb_neq in E.
    assert (Hacc : dict_get f
                     (if is_class_var t || is_init_var t then acc
                      else if r || in_keys k ann then dict_set k t acc
                           else acc)
                   = dict_get f acc).
    { destruct (is_class_var t || is_init_var t); [reflexivity|].
      destruct (r || in_keys k ann); [|reflexivity].
      now apply dict_get_set_ne. }
    now rewrite Hacc.
Qed.

Lemma field_types_NoDup (cls : pycls) : List.NoDup (map fst (field_types cls)).
Proof.
  unfold field_types, get_field_types.
  generalize (get_type_hints cls).
  assert (H : List.NoDup (map fst (@nil (string * ftype)))) by constructor.
  revert H. generalize (@nil (string * ftype)).
  intros acc H l. revert acc H.
  induction l as [|[f t] l IH]; intros acc H; cbn; [exact H|].
  apply IH. destruct (is_class_var t || is_init_var t); [exact H|].
  cbn. now apply dict_set_NoDup.
Qed.

(** ** The generated routines *)

Lemma m_for_built {A B} (body : A -> M B) (l : list A) (ys : list B)
    (b b' : CodeBuilder) :
  m_for l body b = Built (ys, b') ->
  Forall2 (fun x y => exists b1 b2, body x b1 = Built (y, b2)) l ys.
Proof.
  revert ys b b'. induction l as [|x l IH]; intros ys b b' H.
  - cbn in H. injection H as <- _. constructor.
  - cbn [m_for] in H. unfold m_bind at 1 in H.
    destruct (body x b) as [[y b1]|e] eqn:Ex; [|discriminate H].
    unfold m_bind at 1 in H.
    destruct (m_for l body b1) as [[ys' b2]|e] eqn:El; [|discriminate H].
    cbn in H. injection H as <- _. constructor; eauto.
Qed.

Lemma add_from_dict_field_built (cls : pycls) (field : string * ftype)
    (p : field_plan) (b b' : CodeBuilder) :
  add_from_dict_field cls field b = Built (p, b') -> plan_for cls field p.
Proof.
  destruct field as [fname t]. unfold add_from_dict_field, plan_for.
  unfold m_bind, m_add_line, m_do, m_indent, m_fail. cbn [fst snd].
  destruct (defaults cls !! fname) as [dv|]; [|discriminate].
  destruct (is_DMissing dv) eqn:Edv;
    unfold m_bind, m_add_line, m_do, m_indent, add_unpack_block, m_bind, m_ret;
    match goal with
    | |- context [_unpack_field_value ?f ?t ?c ?v ?m ?b0] =>
        destruct (_unpack_field_value f t c v m b0) as [[e b1]|err] eqn:Eu
    end; try discriminate;
    intros H; injection H as <- _; cbn [fp_name fp_type_name fp_required fp_expr];
    (repeat split; [eauto | eauto]).
Qed.

Lemma add_from_dict_plans (IM : gset string) (cls : pycls)
    (plans : list field_plan) (b b' : CodeBuilder) :
  add_from_dict IM cls b = Built (plans, b') ->
  Forall2 (plan_for cls) (field_types cls) plans.
Proof.
  destruct (add_from_dict_loop IM cls b) as (b0 & fin & ->).
  destruct (m_for _ _ _) as [[plans' b1]|e] eqn:E; [|discriminate].
  intros H. injection H as <- _.
  apply m_for_built in E.
  eapply Forall2_impl; [exact E|].
  intros x y (b1' & b2' & Hxy). eapply add_from_dict_field_built; eauto.
Qed.

Lemma add_to_dict_field_built (cls : pycls) (field : string * ftype)
    (p : string * expr) (b b' : CodeBuilder) :
  add_to_dict_field cls field b = Built (p, b') -> pack_for cls field p.
Proof.
  destruct field as [fname t]. unfold add_to_dict_field, pack_for.
  unfold m_bind, m_add_line, m_do, m_indent, m_lift, m_ret. cbn [fst snd].
  destruct (_pack_value fname t (cls_qualname cls) "value") as [e|err];
    [|discriminate].
  intros H. injection H as <- _. split; reflexivity.
Qed.

Lemma add_to_dict_plans (IM : gset string) (cls : pycls)
    (plans : list (string * expr)) (b b' : CodeBuilder) :
  add_to_dict IM cls b = Built (plans, b') ->
  Forall2 (pack_for cls) (field_types cls) plans.
Proof.
  destruct (add_to_dict_loop IM cls b) as (b0 & fin & ->).
  destruct (m_for _ _ _) as [[plans' b1]|e] eqn:E; [|discriminate].
  intros H. injection H as <- _.
  apply m_for_built in E.
  eapply Forall2_impl; [exact E|].
  intros x y (b1' & b2' & Hxy). eapply add_to_dict_field_built; eauto.
Qed.

(** ** The shape of the argument of [from_dict] *)

Lemma from_dict_unfold extern IM classes (n : nat) (T : string) (d : value)
    (fl : flags) (cls : pycls) (plans : list field_plan) (b : CodeBuilder) :
  dict_get T classes = Some cls ->
  add_from_dict IM cls new_builder = Built (plans, b) ->
  from_dict extern IM classes (S n) T d fl
  = from_dict_routine extern (eval extern (run extern IM classes n))
                      cls fl plans d.
Proof.
  intros Hc Hb. unfold from_dict. cbn [run]. now rewrite Hc, Hb.
Qed.

Lemma no_get_raises extern (d : value) (key : string) :
  has_no_get d = true ->
  exists msg, py_get extern d key = Raise (Exn (AttributeError msg) None)
              /\ is_dict d = false.
Proof.
  destruct d; try discriminate; cbn [has_no_get py_get]; intros H;
    try (eexists; split; reflexivity).
  unfold in_keys in H. destruct (dict_get "get" attrs); [discriminate H|].
  eexists; split; reflexivity.
Qed.

(** C5, as the code has it.  The check of the argument sits in the handler
    of [AttributeError]: when the record type has a field and the argument
    has no attribute [get] (None, a number, a string, a list, an instance
    of a record type without such an attribute, ...), reading the first
    field fails and [from_dict] raises the [ValueError] that names the
    record type, [from None] while the [AttributeError] was handled; no
    instance is returned. *)
Theorem from_dict_rejects_non_mapping extern IM classes (n : nat)
    (T : string) (cls : pycls) (d : value) (fl : flags) :
  dict_get T classes = Some cls ->
  is_built (add_from_dict IM cls new_builder) = true ->
  field_types cls <> [] ->
  has_no_get d = true ->
  exists msg,
    from_dict extern IM classes (S n) T d fl
    = Raise (Exc (ValueError ("Argument for " +:+ cls_qualname cls
                              +:+ ".from_dict method should be a dict instance"))
                 None (Some (Exn (AttributeError msg) None)) true).
Proof.
  intros Hc Hb Hf Hd.
  destruct (add_from_dict IM cls new_builder) as [[plans b]|e] eqn:E;
    [|discriminate Hb].
  rewrite (from_dict_unfold _ _ _ _ _ _ _ _ _ _ Hc E).
  apply add_from_dict_plans in E.
  destruct E as [|[fname t] p fs ps Hp _]; [congruence|].
  destruct Hp as (Hname & _). cbn [fst] in Hname.
  destruct (no_get_raises extern d (fp_name p) Hd) as (msg & Hget & Hdict).
  exists msg. unfold from_dict_routine. cbn [from_dict_fields].
  unfold from_dict_field, py_bind. rewrite Hget. cbn.
  rewrite Hdict. reflexivity.
Qed.

Lemma from_dict_rejects_non_mapping_witness :
  dict_get "app.Pair" app_classes = Some Pair
  /\ is_built (add_from_dict ∅ Pair new_builder) = true
  /\ field_types Pair <> []
  /\ has_no_get (VInt 42) = true
  /\ exists msg,
      from_dict no_library ∅ app_classes 1 "app.Pair" (VInt 42) no_flags
      = Raise (Exc (ValueError
                      "Argument for app.Pair.from_dict method should be a dict instance")
                   None (Some (Exn (AttributeError msg) None)) true).
Proof.
  assert (H1 : dict_get "app.Pair" app_classes = Some Pair) by reflexivity.
  assert (H2 : is_built (add_from_dict ∅ Pair new_builder) = true)
    by (vm_compute; reflexivity).
  assert (H3 : field_types Pair <> []) by (vm_compute; discriminate).
  assert (H4 : has_no_get (VInt 42) = true) by reflexivity.
  split; [exact H1|]. split; [exact H2|]. split; [exact H3|].
  split; [exact H4|].
  exact (from_dict_rejects_non_mapping no_library ∅ app_classes 0 "app.Pair"
           Pair (VInt 42) no_flags H1 H2 H3 H4).
Defined.

(** C5, as stated, fails in three ways.  A record type without fields
    never reads its argument, and [from_dict(42)] returns an instance.  An
    argument that is not a [dict] but has a [get] method, here a
    [ChainMap], is read like one.  And an argument whose attribute [get]
    cannot be called makes [d.get(...)] raise a [TypeError], which the
    handler of [AttributeError] lets pass. *)
Lemma non_dict_arguments_without_ValueError :
  from_dict no_library ∅ app_classes 1 "app.Empty" (VInt 42) no_flags
  = Return (VObj "app.Empty" [])
  /\ (is_dict (VChainMap [VDict [(VStr "x", VInt 1)]]) = false
      /\ from_dict no_library ∅ app_classes 1 "app.Pair"
                   (VChainMap [VDict [(VStr "x", VInt 1)]]) no_flags
         = Return (VObj "app.Pair" [("x", VInt 1); ("y", VInt 7)]))
  /\ from_dict no_library ∅ app_classes 1 "app.Pair"
               (VObj "app.G" [("get", VInt 1)]) no_flags
     = Raise (Exn (TypeError "'int' object is not callable") None).
Proof. repeat split; vm_compute; reflexivity. Qed.

(** ** Field by field *)

Lemma from_dict_fields_app extern ev cls fl (d : value)
    (kw : list (string * value)) (l1 l2 : list field_plan) :
  from_dict_fields extern ev cls fl d kw (l1 ++ l2)
  = py_bind (from_dict_fields extern ev cls fl d kw l1)
            (fun kw' => from_dict_fields extern ev cls fl d kw' l2).
Proof.
  revert kw. induction l1 as [|p l1 IH]; intros kw; [reflexivity|].
  cbn [app from_dict_fields]. unfold py_bind at 1 3.
  destruct (from_dict_field extern ev cls fl d kw p); [apply IH|reflexivity].
Qed.

(** The lines of a field whose key maps to [None]. *)
Lemma from_dict_field_None extern ev cls fl (d : value)
    (kw : list (string * value)) (p : field_plan) :
  py_get extern d (fp_name p) = Return VNone ->
  from_dict_field extern ev cls fl d kw p
  = Return (dict_set (fp_name p) VNone kw).
Proof. intros H. unfold from_dict_field, py_bind. now rewrite H. Qed.

(** The lines of a field that is absent from the input. *)
Lemma from_dict_field_absent extern ev cls fl (d : value)
    (kw : list (string * value)) (p : field_plan) :
  py_get extern d (fp_name p) = Return VMissing ->
  from_dict_field extern ev cls fl d kw p
  = if fp_required p
    then Raise (Exn (MissingField (fp_name p) (fp_type_name p)
                                  (cls_qualname cls)) None)
    else Return kw.
Proof.
  intros H. unfold from_dict_field, py_bind. rewrite H.
  now destruct (fp_required p).
Qed.

(** The lines of a field that is present and not [None]. *)
Lemma from_dict_field_present extern ev cls fl (d : value)
    (kw : list (string * value)) (p : field_plan) (value : value) :
  py_get extern d (fp_name p) = Return value ->
  value <> VNone -> value <> VMissing ->
  from_dict_field extern ev cls fl d kw p
  = match ev (mkEnv value None (cls_qualname cls) fl) (fp_expr p) with
    | Return v => Return (dict_set (fp_name p) v kw)
    | Raise e =>
        if is_Exception e then
          Raise (Exn (InvalidFieldValue (fp_name p) (fp_type_name p) value
                                        (cls_qualname cls)) (Some e))
        else Raise e
    end.
Proof.
  intros H Hn Hm. unfold from_dict_field, py_bind. rewrite H.
  destruct value; try congruence; now destruct (fp_required p).
Qed.

(** A step writes its own key only. *)
Lemma from_dict_field_other extern ev cls fl (d : value)
    (kw kw' : list (string * value)) (p : field_plan) (k : string) :
  from_dict_field extern ev cls fl d kw p = Return kw' ->
  fp_name p <> k ->
  dict_get k kw' = dict_get k kw.
Proof.
  intros H Hne. unfold from_dict_field, py_bind in H.
  destruct (py_get extern d (fp_name p)) as [value|]; [|discriminate].
  assert (Hset : forall v, dict_get k (dict_set (fp_name p) v kw)
                           = dict_get k kw)
    by (intros; apply dict_get_set_ne; congruence).
  destruct value;
    repeat match goal with
           | H : context [if ?c then _ else _] |- _ => destruct c
           | H : context [match ev ?a ?b with _ => _ end] |- _ =>
               destruct (ev a b)
           | H : Return _ = Return _ |- _ => injection H as <-
           | H : Raise _ = Return _ |- _ => discriminate H
           | H : raise _ = Return _ |- _ => discriminate H
           end; auto.
Qed.


Lemma fields_leave_absent extern ev cls fl (d : value) (fname : string)
    (plans : list field_plan) (kw kw' : list (string * value)) :
  py_get extern d fname = Return VMissing ->
  (forall p, In p plans -> fp_name p = fname -> fp_required p = false) ->
  from_dict_fields extern ev cls fl d kw plans = Return kw' ->
  dict_get fname kw = None ->
  dict_get fname kw' = None.
Proof.
  intros Hget. revert kw. induction plans as [|p plans IH]; intros kw Hreq H Hk.
  - cbn in H. now injection H as <-.
  - cbn [from_dict_fields] in H. unfold py_bind in H.
    destruct (from_dict_field extern ev cls fl d kw p) as [kw1|] eqn:E;
      [|discriminate].
    apply (IH kw1); [intros; apply Hreq; [now right|assumption]|exact H|].
    destruct (string_dec (fp_name p) fname) as [Heq|Hne].
    + rewrite from_dict_field_absent in E by now rewrite Heq.
      rewrite (Hreq p (or_introl eq_refl) Heq) in E. now injection E as <-.
    + now rewrite (from_dict_field_other _ _ _ _ _ _ _ _ _ E Hne).
Qed.

(** *** The constructor *)

Lemma dict_get_app {V} (k : string) (d d' : list (string * V)) :
  dict_get k (d ++ d')
  = match dict_get k d with Some v => Some v | None => dict_get k d' end.
Proof.
  induction d as [|[k' v] d IH]; cbn; [reflexivity|].
  now destruct (String.eqb k k').
Qed.

Lemma dict_get_In {V} (k : string) (v : V) (d : list (string * V)) :
  dict_get k d = Some v -> In (k, v) d.
Proof.
  induction d as [|[k' v'] d IH]; cbn; [discriminate|].
  destruct (String.eqb k k') eqn:E.
  - apply String.eqb_eq in E. subst k'. intros [= ->]. now left.
  - intros H. right. auto.
Qed.

(** A field is a type hint that is neither a [ClassVar] nor an
    [InitVar]. *)
Lemma field_types_hints (cls : pycls) (f : string) (t : ftype) :
  In (f, t) (field_types cls) ->
  dict_get f (get_type_hints cls) = Some t
  /\ is_class_var t = false /\ is_init_var t = false.
Proof.
  intros Hin.
  apply (dict_get_NoDup _ _ _ (field_types_NoDup cls)) in Hin.
  unfold field_types, get_field_types in Hin.
  rewrite get_field_types_fold in Hin by apply get_type_hints_NoDup.
  cbn [dict_get] in Hin.
  destruct (dict_get f (get_type_hints cls)) as [t'|]; [|discriminate Hin].
  destruct (is_class_var t') eqn:E1; [discriminate Hin|].
  destruct (is_init_var t') eqn:E2; [discriminate Hin|].
  cbn in Hin. injection Hin as <-. auto.
Qed.

Lemma init_param_of_name (cls : pycls) (name : string) (t : ftype)
    (p : init_param) :
  init_param_of cls (name, t) = Some p ->
  p_name p = name /\ p_init_var p = is_init_var t.
Proof.
  unfold init_param_of. destruct (is_class_var t); [discriminate|].
  destruct (in_keys name (annotations cls)).
  - intros [= <-]. destruct (class_getattr cls name) as [[f|[]]|]; auto.
  - destruct (inherited_field name (tl cls)); [|discriminate].
    intros [= <-]. auto.
Qed.

(** The attribute [__init__] stores under [name]. *)
Lemma init_attrs_lookup (cls : pycls) (kw : list (string * value))
    (name : string) (hints : list (string * ftype)) :
  List.NoDup (map fst hints) ->
  dict_get name
    (flat_map (init_attr kw)
       (flat_map (fun hint => match init_param_of cls hint with
                              | Some p => [p]
                              | None => []
                              end) hints))
  = match dict_get name hints with
    | Some t =>
        match init_param_of cls (name, t) with
        | Some p => dict_get name (init_attr kw p)
        | None => None
        end
    | None => None
    end.
Proof.
  induction hints as [|[k t] hints IH]; intros Hnd; [reflexivity|].
  cbn [map fst] in Hnd. apply List.NoDup_cons_iff in Hnd as [Hk Hnd].
  cbn [flat_map dict_get]. rewrite flat_map_app, dict_get_app, (IH Hnd).
  destruct (String.eqb name k) eqn:E.
  - apply String.eqb_eq in E. subst k.
    rewrite (dict_get_absent _ _ Hk).
    destruct (init_param_of cls (name, t)) as [p|]; [|reflexivity].
    replace (flat_map (init_attr kw) [p]) with (init_attr kw p)
      by (cbn; now rewrite app_nil_r).
    now destruct (dict_get name (init_attr kw p)).
  - assert (Hp : dict_get name
                   (flat_map (init_attr kw)
                      match init_param_of cls (k, t) with
                      | Some p => [p]
                      | None => []
                      end) = None).
    { destruct (init_param_of cls (k, t)) as [p|] eqn:Ep; [|reflexivity].
      apply init_param_of_name in Ep as [Hn _].
      replace (flat_map (init_attr kw) [p]) with (init_attr kw p)
        by (cbn; now rewrite app_nil_r).
      unfold init_attr.
      destruct (p_init_var p); [reflexivity|]. rewrite Hn.
      destruct (if p_init p then dict_get k kw else None);
        [|destruct (dflt_value (p_default p))]; cbn [dict_get];
        rewrite ?E; reflexivity. }
    now rewrite Hp.
Qed.

Lemma accepts_param (cls : pycls) (name : string)
    (hints : list (string * ftype)) :
  List.NoDup (map fst hints) ->
  accepts (flat_map (fun hint => match init_param_of cls hint with
                                 | Some p => [p]
                                 | None => []
                                 end) hints) name = true ->
  exists t p, dict_get name hints = Some t
              /\ init_param_of cls (name, t) = Some p
              /\ p_init p = true.
Proof.
  unfold accepts.
  induction hints as [|[k t] hints IH]; intros Hnd H; [discriminate H|].
  cbn [map fst] in Hnd. apply List.NoDup_cons_iff in Hnd as [Hk Hnd].
  cbn [flat_map] in H. rewrite existsb_app in H.
  apply orb_prop in H as [H|H].
  - destruct (init_param_of cls (k, t)) as [p|] eqn:Ep; [|discriminate H].
    cbn in H. rewrite orb_false_r in H. apply andb_prop in H as [Hn Hi].
    apply String.eqb_eq in Hn.
    destruct (init_param_of_name _ _ _ _ Ep) as [Hk' _].
    assert (k = name) as -> by congruence.
    exists t, p. cbn [dict_get]. rewrite String.eqb_refl. auto.
  - destruct (IH Hnd H) as (t' & p & Hd & Hp & Hi).
    exists t', p. cbn [dict_get].
    destruct (String.eqb name k) eqn:E; [|auto].
    apply String.eqb_eq in E. subst k.
    rewrite (dict_get_absent _ _ Hk) in Hd. discriminate Hd.
Qed.

Lemma construct_inv (cls : pycls) (kw : list (string * value)) (v : value) :
  construct cls kw = Return v ->
  v = VObj (cls_qualname cls) (flat_map (init_attr kw) (init_params cls))
  /\ forall k y, In (k, y) kw -> accepts (init_params cls) k = true.
Proof.
  unfold construct.
  destruct (find _ kw) as [[k y]|] eqn:Ef; [discriminate|].
  destruct (missing_args _ kw); [|discriminate].
  intros [= <-]. split; [reflexivity|]. intros k y Hin.
  pose proof (find_none _ _ Ef _ Hin) as H. cbn [fst] in H.
  now apply negb_false_iff in H.
Qed.

(** An argument [__init__] is given for a field ends up in the attribute
    of that name. *)
Lemma construct_attr_given extern (cls : pycls) (kw : list (string * value))
    (v : value) (fname : string) (t : ftype) (y : value) :
  construct cls kw = Return v ->
  In (fname, t) (field_types cls) ->
  dict_get fname kw = Some y ->
  py_getattr extern v fname = Return y.
Proof.
  intros Hv Hin Hkw. apply construct_inv in Hv as [-> Hacc].
  destruct (field_types_hints _ _ _ Hin) as (Hh & _ & Hiv).
  destruct (accepts_param cls fname (get_type_hints cls)
              (get_type_hints_NoDup cls)
              (Hacc _ _ (dict_get_In _ _ _ Hkw)))
    as (t' & p & Hh' & Hp & Hi).
  rewrite Hh in Hh'. injection Hh' as <-.
  cbn [py_getattr]. unfold init_params.
  rewrite init_attrs_lookup by apply get_type_hints_NoDup.
  rewrite Hh, Hp.
  destruct (init_param_of_name _ _ _ _ Hp) as [Hn Hv].
  unfold init_attr. rewrite Hv, Hiv, Hi, Hn, Hkw. cbn [dict_get].
  now rewrite String.eqb_refl.
Qed.

Lemma first_declaration_field (name : string) (l : list pyclass_info) :
  first_declaration name l = option_map field_dflt (inherited_field name l).
Proof.
  induction l as [|a l IH]; [reflexivity|].
  cbn [first_declaration inherited_field]. unfold declared_by_ancestor.
  destruct (cls_is_dataclass a); [|exact IH].
  destruct (find _ (rev (cls_fields a))); [reflexivity|exact IH].
Qed.

(** A field the builder has a default for has that default in
    [__init__] too. *)
Lemma init_param_default (cls : pycls) (fname : string) (t : ftype)
    (dv : dflt) (x : value) :
  dict_get fname (get_type_hints cls) = Some t ->
  is_class_var t = false -> is_init_var t = false ->
  defaults cls !! fname = Some dv ->
  dflt_value dv = Some x ->
  exists p, init_param_of cls (fname, t) = Some p
            /\ p_init_var p = false /\ p_default p = dv.
Proof.
  intros Hh Hcv Hiv Hd Hx. unfold defaults in Hd.
  rewrite own_fold_lookup in Hd. unfold in_keys at 1 in Hd.
  unfold get_field_types in Hd.
  rewrite get_field_types_fold in Hd by apply get_type_hints_NoDup.
  rewrite Hh, Hcv, Hiv in Hd. cbn [orb dict_get] in Hd.
  unfold init_param_of. rewrite Hcv, Hiv.
  destruct (in_keys fname (annotations cls)).
  - injection Hd as <-. unfold own_dflt in Hx |- *. unfold class_getattr.
    destruct (dict_get fname (namespace cls)) as [[f|v]|];
      [| |discriminate Hx].
    + eexists. split; [reflexivity|]. auto.
    + destruct v; try discriminate Hx; eexists; (split; [reflexivity|]); auto.
  - unfold mro_ancestors in Hd. rewrite ancestors_fold_lookup in Hd.
    rewrite lookup_empty, first_declaration_field in Hd.
    destruct (inherited_field fname (tl cls)) as [f|]; [|discriminate Hd].
    cbn in Hd. injection Hd as <-. eexists. split; [reflexivity|]. auto.
Qed.

(** A field [__init__] is given no argument for takes the default the
    builder has collected for it, when there is one. *)
Lemma construct_attr_default extern (cls : pycls) (kw : list (string * value))
    (v : value) (fname : string) (t : ftype) (dv : dflt) (x : value) :
  construct cls kw = Return v ->
  In (fname, t) (field_types cls) ->
  dict_get fname kw = None ->
  defaults cls !! fname = Some dv ->
  dflt_value dv = Some x ->
  py_getattr extern v fname = Return x.
Proof.
  intros Hv Hin Hkw Hd Hx. apply construct_inv in Hv as [-> _].
  destruct (field_types_hints _ _ _ Hin) as (Hh & Hcv & Hiv).
  destruct (init_param_default _ _ _ _ _ Hh Hcv Hiv Hd Hx)
    as (p & Hp & Hpv & Hpd).
  cbn [py_getattr]. unfold init_params.
  rewrite init_attrs_lookup by apply get_type_hints_NoDup.
  rewrite Hh, Hp.
  destruct (init_param_of_name _ _ _ _ Hp) as [Hn _].
  unfold init_attr. rewrite Hpv, Hn, Hkw, Hpd, Hx.
  destruct (p_init p); cbn [dict_get]; now rewrite String.eqb_refl.
Qed.

Lemma plans_split (cls : pycls) (plans : list field_plan)
    (pre post : list (string * ftype)) (field : string * ftype) :
  Forall2 (plan_for cls) (field_types cls) plans ->
  field_types cls = (pre ++ field :: post)%list ->
  exists ppre p ppost,
    plans = (ppre ++ p :: ppost)%list
    /\ length ppre = length pre
    /\ plan_for cls field p.
Proof.
  intros HF Hsplit. rewrite Hsplit in HF.
  apply Forall2_app_inv_l in HF as (ppre & rest & Hpre & Hrest & ->).
  inversion Hrest as [|? p ? ppost Hp Hpost]; subst.
  exists ppre, p, ppost. repeat split; try apply Hp.
  symmetry. eapply Forall2_length; eauto.
Qed.

Lemma plans_of_field (cls : pycls) (plans : list field_plan)
    (field : string * ftype) :
  Forall2 (plan_for cls) (field_types cls) plans ->
  In field (field_types cls) ->
  exists p, In p plans /\ plan_for cls field p.
Proof.
  intros HF Hin. induction HF as [|x y xs ys Hxy HF IH]; [destruct Hin|].
  destruct Hin as [->|Hin].
  - exists y. split; [now left|assumption].
  - destruct (IH Hin) as (p & Hp & Hpf). exists p. split; [now right|assumption].
Qed.

Lemma plans_named (cls : pycls) (plans : list field_plan) (p : field_plan) :
  Forall2 (plan_for cls) (field_types cls) plans ->
  In p plans ->
  exists dv, defaults cls !! fp_name p = Some dv
             /\ fp_required p = is_DMissing dv.
Proof.
  intros HF Hin. induction HF as [|x y xs ys Hxy HF IH]; [destruct Hin|].
  destruct Hin as [->|Hin]; [|auto].
  destruct Hxy as (Hn & _ & (dv & Hdv & Hreq) & _).
  exists dv. rewrite Hn. auto.
Qed.

(** An error of a field leaves [from_dict] as it is, unless it is an
    [AttributeError]. *)
Lemma from_dict_routine_raises extern ev cls fl (plans : list field_plan)
    (d : value) (e : exn) :
  from_dict_fields extern ev cls fl d [] plans = Raise e ->
  is_AttributeError e = false ->
  from_dict_routine extern ev cls fl plans d = Raise e.
Proof.
  intros H Ha. unfold from_dict_routine. now rewrite H, Ha.
Qed.


(** C2, as the code has it.  A field that is absent from the input, with
    "default" read as the entry the builder has collected for the field
    in [defaults]: when that entry is [MISSING], [from_dict] raises
    [MissingField] with the name of the field, its declared type and the
    record type (provided the fields before it were read without an
    error); when it is a default or a factory, the lines of the field
    raise nothing and leave [kwargs] alone, and an instance that
    [from_dict] returns carries that default, supplied by the
    constructor. *)
Theorem from_dict_missing_field extern IM classes (n : nat) (T : string)
    (cls : pycls) (plans : list field_plan) (b : CodeBuilder) (d : value)
    (fl : flags) (fname : string) (t : ftype)
    (pre post : list (string * ftype)) :
  dict_get T classes = Some cls ->
  add_from_dict IM cls new_builder = Built (plans, b) ->
  field_types cls = (pre ++ (fname, t) :: post)%list ->
  py_get extern d fname = Return VMissing ->
  let ev := eval extern (run extern IM classes n) in
  (defaults cls !! fname = Some DMissing ->
   forall kw,
     from_dict_fields extern ev cls fl d [] (firstn (length pre) plans)
     = Return kw ->
     from_dict extern IM classes (S n) T d fl
     = Raise (Exn (MissingField fname (type_name t) (cls_qualname cls)) None))
  /\ (forall dv x,
         defaults cls !! fname = Some dv ->
         dflt_value dv = Some x ->
         (forall ev' kwargs p,
             In p plans -> fp_name p = fname ->
             from_dict_field extern ev' cls fl d kwargs p = Return kwargs)
         /\ (forall v,
                from_dict extern IM classes (S n) T d fl = Return v ->
                py_getattr extern v fname = Return x)).
Proof.
  intros Hc Hb Hsplit Hget ev.
  rewrite (from_dict_unfold _ _ _ _ _ _ _ _ _ _ Hc Hb).
  apply add_from_dict_plans in Hb.
  assert (Hin : In (fname, t) (field_types cls)).
  { rewrite Hsplit. apply in_or_app. right. now left. }
  split.
  - intros Hd kw Hpre.
    destruct (plans_split _ _ _ _ _ Hb Hsplit)
      as (ppre & p & ppost & -> & Hlen & Hn & Ht & (dv & Hdv & Hreq) & _).
    cbn [fst snd] in *. rewrite Hd in Hdv. injection Hdv as <-.
    rewrite <- Hlen, firstn_app, Nat.sub_diag, firstn_all in Hpre.
    cbn [firstn] in Hpre. rewrite app_nil_r in Hpre.
    apply from_dict_routine_raises; [|reflexivity].
    rewrite from_dict_fields_app. fold ev. rewrite Hpre.
    cbn [py_bind from_dict_fields].
    rewrite from_dict_field_absent by now rewrite Hn.
    rewrite Hreq, Hn, Ht. reflexivity.
  - intros dv x Hd Hx.
    assert (Hreq : forall p, In p plans -> fp_name p = fname ->
                             fp_required p = false).
    { intros p Hp Hn. destruct (plans_named _ _ _ Hb Hp) as (dv' & Hdv' & ->).
      rewrite Hn, Hd in Hdv'. injection Hdv' as <-.
      now destruct dv. }
    split.
    + intros ev' kwargs p Hp Hn.
      rewrite from_dict_field_absent by now rewrite Hn.
      now rewrite (Hreq p Hp Hn).
    + intros v Hv. unfold from_dict_routine in Hv.
      destruct (from_dict_fields _ _ _ _ _ _ _) as [kw|e] eqn:E.
      * assert (Hk : dict_get fname kw = None).
        { eapply fields_leave_absent; [exact Hget|exact Hreq|exact E|].
          reflexivity. }
        exact (construct_attr_default extern _ _ _ _ _ _ _ Hv Hin Hk Hd Hx).
      * destruct (is_AttributeError e); [destruct (negb (is_dict d))|];
          discriminate Hv.
Qed.

Lemma not_Exception_not_AttributeError (e : exn) :
  is_Exception e = false -> is_AttributeError e = false.
Proof.
  unfold is_Exception, is_AttributeError. now destruct (exn_kind_of e).
Qed.

(** C3, as the code has it.  A field that is present with a value other
    than [None]: when the evaluation of its decode expression raises an
    exception [e] (and the fields before it were read without an error),
    then, if [e] derives from [Exception], [from_dict] raises
    [InvalidFieldValue] with the name of the field, the expected type, the
    raw value and the record type, and [e] is the [__context__] of the new
    exception, whose [__cause__] is [None]; if [e] does not derive from
    [Exception], [from_dict] raises [e] itself. *)
Theorem from_dict_invalid_field_value extern IM classes (n : nat) (T : string)
    (cls : pycls) (plans : list field_plan) (b : CodeBuilder) (d : value)
    (fl : flags) (fname : string) (t : ftype)
    (pre post : list (string * ftype)) (value : value) :
  dict_get T classes = Some cls ->
  add_from_dict IM cls new_builder = Built (plans, b) ->
  field_types cls = (pre ++ (fname, t) :: post)%list ->
  py_get extern d fname = Return value ->
  value <> VNone -> value <> VMissing ->
  let ev := eval extern (run extern IM classes n) in
  exists decode,
    (exists b1 b2,
        _unpack_field_value fname t (cls_qualname cls) "value"
                            (metadatas cls !! fname) b1 = Built (decode, b2))
    /\ forall kw e,
        from_dict_fields extern ev cls fl d [] (firstn (length pre) plans)
        = Return kw ->
        ev (mkEnv value None (cls_qualname cls) fl) decode = Raise e ->
        from_dict extern IM classes (S n) T d fl
        = if is_Exception e
          then Raise (Exc (InvalidFieldValue fname (type_name t) value
                                             (cls_qualname cls))
                          None (Some e) false)
          else Raise e.
Proof.
  intros Hc Hb Hsplit Hget Hnone Hmiss ev.
  rewrite (from_dict_unfold _ _ _ _ _ _ _ _ _ _ Hc Hb).
  apply add_from_dict_plans in Hb.
  destruct (plans_split _ _ _ _ _ Hb Hsplit)
    as (ppre & p & ppost & -> & Hlen & Hn & Ht & _ & Hexpr).
  cbn [fst snd] in *. exists (fp_expr p). split; [exact Hexpr|].
  intros kw e Hpre He.
  rewrite <- Hlen, firstn_app, Nat.sub_diag, firstn_all in Hpre.
  cbn [firstn] in Hpre. rewrite app_nil_r in Hpre.
  assert (Hfields :
            from_dict_fields extern ev cls fl d [] (ppre ++ p :: ppost)
            = if is_Exception e
              then Raise (Exc (InvalidFieldValue fname (type_name t) value
                                                 (cls_qualname cls))
                              None (Some e) false)
              else Raise e).
  { rewrite from_dict_fields_app, Hpre.
    cbn [py_bind from_dict_fields].
    rewrite (from_dict_field_present _ _ _ _ _ _ _ value)
      by (rewrite ?Hn; assumption).
    rewrite He, Hn, Ht. now destruct (is_Exception e). }
  destruct (is_Exception e) eqn:Ee.
  - apply from_dict_routine_raises; [exact Hfields|reflexivity].
  - apply from_dict_routine_raises; [exact Hfields|].
    now apply not_Exception_not_AttributeError.
Qed.

Lemma Pair_built :
  add_from_dict ∅ Pair new_builder = Built (Pair_plans, Pair_builder).
Proof. vm_compute. reflexivity. Qed.

Example Pair_from_dict_lines :
  lines Pair_builder
  = ["@classmethod";
     "def from_dict(cls, d, use_bytes=False, use_enum=False, use_datetime=False):";
     "    try:";
     "        kwargs = {}";
     "        if 'builtins' not in globals():";
     "            import builtins";
     "        else:";
     "            global builtins";
     "        value = d.get('x', MISSING)";
     "        if value is None:";
     "            kwargs['x'] = None";
     "        else:";
     "            if value is MISSING:";
     "                raise MissingField('x',builtins.int,cls)";
     "            else:";
     "                try:";
     "                    kwargs['x'] = int(value)";
     "                except Exception as e:";
     "                    raise InvalidFieldValue('x',builtins.int,value,cls)";
     "        value = d.get('y', MISSING)";
     "        if value is None:";
     "            kwargs['y'] = None";
     "        else:";
     "            if value is not MISSING:";
     "                try:";
     "                    kwargs['y'] = int(value)";
     "                except Exception as e:";
     "                    raise InvalidFieldValue('y',builtins.int,value,cls)";
     "    except AttributeError:";
     "        if not isinstance(d, dict):";
     "            raise ValueError('Argument for app.Pair.from_dict method should be a dict instance') from None";
     "        else:";
     "            raise";
     "    return cls(**kwargs)";
     "setattr(cls, 'from_dict', from_dict)"].
Proof. vm_compute. reflexivity. Qed.


Lemma from_dict_missing_field_witness :
  let d := VDict [(VStr "x", VInt 1)] in
  (from_dict no_library ∅ app_classes 1 "app.Pair" (VDict []) no_flags
   = Raise (Exn (MissingField "x" "builtins.int" "app.Pair") None))
  /\ from_dict no_library ∅ app_classes 1 "app.Pair" d no_flags
     = Return (VObj "app.Pair" [("x", VInt 1); ("y", VInt 7)])
  /\ py_getattr no_library (VObj "app.Pair" [("x", VInt 1); ("y", VInt 7)]) "y"
     = Return (VInt 7).
Proof.
  intros d.
  assert (H1 : dict_get "app.Pair" app_classes = Some Pair) by reflexivity.
  split; [|split].
  - assert (Hs : field_types Pair
                 = ([] ++ ("x", TClass c_int) :: [("y", TClass c_int)])%list)
      by reflexivity.
    assert (Hg : py_get no_library (VDict []) "x" = Return VMissing)
      by reflexivity.
    refine (proj1 (from_dict_missing_field no_library ∅ app_classes 0
                     "app.Pair" Pair Pair_plans Pair_builder (VDict [])
                     no_flags "x" (TClass c_int) [] [("y", TClass c_int)]
                     H1 Pair_built Hs Hg) _ [] _).
    + vm_compute. reflexivity.
    + reflexivity.
  - vm_compute. reflexivity.
  - assert (Hs : field_types Pair
                 = ([("x", TClass c_int)] ++ ("y", TClass c_int) :: [])%list)
      by reflexivity.
    assert (Hg : py_get no_library d "y" = Return VMissing) by reflexivity.
    refine (proj2 (proj2 (from_dict_missing_field no_library ∅ app_classes 0
                     "app.Pair" Pair Pair_plans Pair_builder d
                     no_flags "y" (TClass c_int) [("x", TClass c_int)] []
                     H1 Pair_built Hs Hg) (DValue (VInt 7)) (VInt 7) _ _) _ _).
    + vm_compute. reflexivity.
    + reflexivity.
    + vm_compute. reflexivity.
Defined.

(** C2, as stated, fails for a field whose default the constructor
    inherits: [DBare] annotates [x] again without a value, so the builder
    collects [MISSING] for it, while [@dataclass] reads the default with
    [getattr] and finds the [1] of the base class.  [DBare()] is
    [DBare(x=1)], and [DBare.from_dict({})] raises [MissingField]. *)
Lemma inherited_default_is_not_collected :
  construct DBare [] = Return (VObj "app.DBare" [("x", VInt 1)])
  /\ defaults DBare !! "x" = Some DMissing
  /\ from_dict no_library ∅ [("app.DBare", DBare)] 1 "app.DBare" (VDict [])
               no_flags
     = Raise (Exn (MissingField "x" "builtins.int" "app.DBare") None).
Proof. repeat split; vm_compute; reflexivity. Qed.

Lemma from_dict_invalid_field_value_witness :
  let d := VDict [(VStr "x", VStr "abc")] in
  from_dict no_library ∅ app_classes 1 "app.Pair" d no_flags
  = Raise (Exc (InvalidFieldValue "x" "builtins.int" (VStr "abc") "app.Pair")
               None
               (Some (Exn (ValueError
                             "invalid literal for int() with base 10: 'abc'")
                          None))
               false).
Proof.
  intros d.
  assert (H1 : dict_get "app.Pair" app_classes = Some Pair) by reflexivity.
  assert (Hs : field_types Pair
               = ([] ++ ("x", TClass c_int) :: [("y", TClass c_int)])%list)
    by reflexivity.
  assert (Hg : py_get no_library d "x" = Return (VStr "abc")) by reflexivity.
  destruct (from_dict_invalid_field_value no_library ∅ app_classes 0
              "app.Pair" Pair Pair_plans Pair_builder d no_flags "x"
              (TClass c_int) [] [("y", TClass c_int)] (VStr "abc")
              H1 Pair_built Hs Hg ltac:(discriminate) ltac:(discriminate))
    as (decode & (b1 & b2 & Hdecode) & H).
  cbn in Hdecode. injection Hdecode as <- _.
  exact (H [] (Exn (ValueError "invalid literal for int() with base 10: 'abc'")
                   None) eq_refl eq_refl).
Defined.

(** C3, as stated, fails in two ways.  The new exception is raised without
    [from]: the original exception is its [__context__], and its
    [__cause__] is [None].  And the handler is [except Exception]: when
    the decoder is interrupted from the keyboard, the
    [KeyboardInterrupt] leaves [from_dict] as it is. *)
Lemma invalid_field_value_has_no_cause :
  (exists e,
      from_dict no_library ∅ app_classes 1 "app.Pair"
                (VDict [(VStr "x", VStr "abc")]) no_flags = Raise e
      /\ exn_kind_of e
         = InvalidFieldValue "x" "builtins.int" (VStr "abc") "app.Pair"
      /\ exn_cause e = None
      /\ exn_context e
         = Some (Exn (ValueError
                        "invalid literal for int() with base 10: 'abc'")
                     None))
  /\ from_dict interrupted_library ∅ [("app.Ticket", Ticket)] 1 "app.Ticket"
               (VDict [(VStr "id", VStr "7")]) no_flags
     = Raise (Exn KeyboardInterrupt None).
Proof.
  split; [eexists; repeat split|]; vm_compute; reflexivity.
Qed.

(** ** Tag mode of the discriminator *)

Lemma tags_get_set_eq (t : value) (c : string) (m : list (value * string)) :
  tags_get t (tags_set t c m) = Some c.
Proof.
  induction m as [|[t' c'] m IH]; cbn.
  - now rewrite value_eqb_refl.
  - destruct (value_eqb t t') eqn:E; cbn; now rewrite ?E.
Qed.

Lemma tags_get_set_ne (t t' : value) (c : string)
    (m : list (value * string)) :
  t <> t' -> tags_get t (tags_set t' c m) = tags_get t m.
Proof.
  intros Hne.
  assert (Hf : value_eqb t t' = false).
  { destruct (value_eqb t t') eqn:E; [|reflexivity].
    now apply value_eqb_eq in E. }
  induction m as [|[t0 c0] m IH]; cbn.
  - now rewrite Hf.
  - destruct (value_eqb t' t0) eqn:E; cbn.
    + apply value_eqb_eq in E. subst t0. now rewrite Hf.
    + now rewrite IH.
Qed.

(** The mapping sends a tag to the last candidate that has it. *)
Lemma tag_map_lookup (D : Discriminator) (tag_field : string) (tag : value)
    (cs : list class_tree) (m : list (value * string)) :
  tags_get tag
    (fold_left (fun m c =>
                  match variant_tag D tag_field c with
                  | Some t => tags_set t (class_tree_name c) m
                  | None => m
                  end) cs m)
  = match find (fun c => match variant_tag D tag_field c with
                         | Some t => value_eqb tag t
                         | None => false
                         end) (rev cs) with
    | Some c => Some (class_tree_name c)
    | None => tags_get tag m
    end.
Proof.
  revert m. induction cs as [|c cs IH] using rev_ind; intros m; [reflexivity|].
  rewrite fold_left_app, rev_app_distr. cbn [fold_left rev app find].
  destruct (variant_tag D tag_field c) as [t|]; [|apply IH].
  destruct (value_eqb tag t) eqn:E.
  - apply value_eqb_eq in E. subst t. apply tags_get_set_eq.
  - rewrite tags_get_set_ne; [apply IH|].
    intros ->. now rewrite value_eqb_refl in E.
Qed.

(** C6.  In tag mode the raw value of the tag field is read from the input
    tree.  When one subtype among the candidates has that tag, the tree is
    decoded by the decode routine of that subtype and of no other: the
    result is what that routine returns or raises, whatever the routines
    of the other candidates do.  When no candidate has the tag,
    [InvalidFieldValue] is raised for the discriminated field. *)
Theorem decode_tagged_dispatch (decode_of : string -> value -> py_result value)
    (D : Discriminator) (tag_field : string) (B : class_tree)
    (fname ftype_name owner : string) (items : list (value * value))
    (tag : value) :
  items_get (VStr tag_field) items = Some tag ->
  (forall c,
      In c (candidates D B) ->
      variant_tag D tag_field c = Some tag ->
      (forall c', In c' (candidates D B) ->
                  variant_tag D tag_field c' = Some tag ->
                  class_tree_name c' = class_tree_name c) ->
      decode_tagged decode_of D tag_field B fname ftype_name owner
                    (VDict items)
      = decode_of (class_tree_name c) (VDict items))
  /\ ((forall c, In c (candidates D B) ->
                 variant_tag D tag_field c <> Some tag) ->
      decode_tagged decode_of D tag_field B fname ftype_name owner
                    (VDict items)
      = Raise (Exn (InvalidFieldValue fname ftype_name (VDict items) owner)
                   None)).
Proof.
  intros Htag. unfold decode_tagged. rewrite Htag. unfold tag_map.
  rewrite tag_map_lookup. cbn [tags_get]. split.
  - intros c Hc Hct Huniq.
    destruct (find _ (rev (candidates D B))) as [c'|] eqn:E.
    + apply find_some in E as [Hin Ht].
      apply in_rev in Hin.
      destruct (variant_tag D tag_field c') as [t|] eqn:Et; [|discriminate].
      apply value_eqb_eq in Ht. subst t.
      now rewrite (Huniq c' Hin Et).
    + apply in_rev in Hc. pose proof (find_none _ _ E c Hc) as Hn.
      cbn beta in Hn. rewrite Hct, value_eqb_refl in Hn. discriminate Hn.
  - intros Hnone.
    destruct (find _ (rev (candidates D B))) as [c'|] eqn:E; [|reflexivity].
    exfalso. apply find_some in E as [Hin Ht]. apply in_rev in Hin.
    destruct (variant_tag D tag_field c') as [t|] eqn:Et; [|discriminate].
    apply value_eqb_eq in Ht. subst t. exact (Hnone c' Hin Et).
Qed.

(** [test_subclass_tree_with_class_without_field]: the tag [4] picks
    [Foo4]; an unknown tag is an [InvalidFieldValue] of the field. *)
Lemma decode_tagged_dispatch_witness :
  let tree := VDict [(VStr "type", VInt 4); (VStr "x1", VInt 1);
                     (VStr "x2", VInt 2); (VStr "x", VInt 42)] in
  let unknown := VDict [(VStr "type", VStr "unknown")] in
  decode_tagged foo_decode by_type_field "type" Foo_tree "baz1" "Foo1" "Bar"
                tree
  = Return (VObj "Foo4" [("x1", VInt 1); ("x2", VInt 2); ("x", VInt 42)])
  /\ decode_tagged foo_decode by_type_field "type" Foo_tree "baz1" "Foo1"
                   "Bar" unknown
     = Raise (Exn (InvalidFieldValue "baz1" "Foo1" unknown "Bar") None).
Proof.
  intros tree unknown. split.
  - assert (Hdec : foo_decode "Foo4" tree
                   = Return (VObj "Foo4" [("x1", VInt 1); ("x2", VInt 2);
                                          ("x", VInt 42)]))
      by (vm_compute; reflexivity).
    rewrite <- Hdec.
    refine (proj1 (decode_tagged_dispatch foo_decode by_type_field "type"
                     Foo_tree "baz1" "Foo1" "Bar"
                     [(VStr "type", VInt 4); (VStr "x1", VInt 1);
                      (VStr "x2", VInt 2); (VStr "x", VInt 42)]
                     (VInt 4) eq_refl)
                  (ClassNode "Foo4" [("type", VInt 4)] []) _ eq_refl _).
    + cbn. auto.
    + intros c' Hin Ht. cbn in Hin.
      destruct Hin as [<-|[<-|[<-|[]]]]; try discriminate Ht; reflexivity.
  - refine (proj2 (decode_tagged_dispatch foo_decode by_type_field "type"
                     Foo_tree "baz1" "Foo1" "Bar"
                     [(VStr "type", VStr "unknown")]
                     (VStr "unknown") eq_refl)
                  _).
    intros c Hin. cbn in Hin.
    destruct Hin as [<-|[<-|[<-|[]]]]; discriminate.
Defined.

(** [test_by_field_with_custom_variant_tagger] *)
Example custom_tagger_dispatch :
  decode_tagged tagger_decode by_custom_tagger "type" tagger_tree "x"
                "BaseVariantWitCustomTagger" "VariantWitCustomTaggerOwner"
                (VDict [(VStr "type", VStr "variantwitcustomtaggersub1")])
  = Return (VObj "VariantWitCustomTaggerSub1" [])
  /\ decode_tagged tagger_decode by_custom_tagger "type" tagger_tree "x"
                   "BaseVariantWitCustomTagger" "VariantWitCustomTaggerOwner"
                   (VDict [(VStr "type", VStr "variantwitcustomtaggersub2")])
     = Return (VObj "VariantWitCustomTaggerSub2" []).
Proof. split; vm_compute; reflexivity. Qed.

(** ** Decimals and their strings *)

Lemma uint_string_all_digits (d : Decimal.uint) :
  all_digits (NilEmpty.string_of_uint d) = true.
Proof. induction d; cbn; auto. Qed.

Lemma digits_all_digits (n : N) : all_digits (digits n) = true.
Proof. apply uint_string_all_digits. Qed.

Lemma digits_nonempty (n : N) : digits n <> "".
Proof.
  unfold digits. destruct n as [|p]; [discriminate|]. cbn [N.to_uint].
  pose proof (DecimalPos.Unsigned.to_uint_nonnil p) as H.
  destruct (Pos.to_uint p); [congruence|discriminate..].
Qed.

Ltac digit_arith :=
  match goal with
  | |- context [N.of_nat ?t] =>
      let v := eval vm_compute in (N.of_nat t) in
      change (N.of_nat t) with v; lia
  end.

Lemma digits_to_N_uint_pos (d : Decimal.uint) (acc : positive) :
  digits_to_N (NilEmpty.string_of_uint d) (N.pos acc)
  = N.pos (Pos.of_uint_acc d acc).
Proof.
  revert acc. induction d; intros acc; cbn [NilEmpty.string_of_uint digits_to_N
    Pos.of_uint_acc]; [reflexivity|..];
    match goal with
    | |- digits_to_N _ ?a = _ =>
        match goal with
        | |- _ = N.pos (Pos.of_uint_acc _ ?p) =>
            replace a with (N.pos p) by digit_arith
        end
    end; apply IHd.
Qed.

Lemma digits_to_N_uint (d : Decimal.uint) :
  digits_to_N (NilEmpty.string_of_uint d) 0 = N.of_uint d.
Proof.
  unfold N.of_uint.
  induction d; cbn [NilEmpty.string_of_uint digits_to_N Pos.of_uint];
    [reflexivity|exact IHd|..];
    match goal with
    | |- digits_to_N _ ?a = N.pos (Pos.of_uint_acc _ ?p) =>
        replace a with (N.pos p) by digit_arith
    end; apply digits_to_N_uint_pos.
Qed.

(** Reading the digits of [n] gives [n] back. *)
Lemma digits_to_N_digits (n : N) : digits_to_N (digits n) 0 = n.
Proof.
  unfold digits. rewrite digits_to_N_uint. apply DecimalN.Unsigned.of_to.
Qed.

Lemma digits_to_N_zeros (k : nat) (s : string) :
  digits_to_N (zeros k +:+ s) 0 = digits_to_N s 0.
Proof. induction k; [reflexivity|]. cbn [zeros]. rewrite append_cons. exact IHk. Qed.

Lemma digits_to_N_app (a b : string) (acc : N) :
  digits_to_N (a +:+ b) acc = digits_to_N b (digits_to_N a acc).
Proof.
  revert acc. induction a as [|c a IH]; intros acc; [reflexivity|].
  rewrite append_cons. cbn [digits_to_N]. apply IH.
Qed.

Lemma zeros_all_digits (k : nat) : all_digits (zeros k) = true.
Proof. induction k; cbn; auto. Qed.

Lemma zeros_length (k : nat) : String.length (zeros k) = k.
Proof. induction k; cbn; auto. Qed.

Lemma all_digits_app (a b : string) :
  all_digits (a +:+ b) = all_digits a && all_digits b.
Proof.
  induction a as [|c a IH]; [reflexivity|].
  rewrite append_cons. cbn [all_digits]. rewrite IH. apply andb_assoc.
Qed.

(** Multiplying by a power of ten appends zeros. *)
Lemma digits_to_N_app_zeros (k : nat) (s : string) (acc : N) :
  digits_to_N (s +:+ zeros k) acc
  = (digits_to_N s acc * 10 ^ N.of_nat k)%N.
Proof.
  rewrite digits_to_N_app. generalize (digits_to_N s acc) as n.
  induction k as [|k IH]; intros n.
  - cbn. lia.
  - cbn [zeros digits_to_N]. rewrite IH.
    rewrite Nat2N.inj_succ, N.pow_succ_r'.
    change (N.of_nat (nat_of_ascii "0" - 48)) with 0%N. ring.
Qed.

Lemma span_digits_app (ds rest : string) :
  all_digits ds = true -> starts_with_digit rest = false ->
  span_digits (ds +:+ rest) = (ds, rest).
Proof.
  intros Hd Hr. induction ds as [|c ds IH].
  - rewrite append_nil_l. destruct rest as [|c r]; [reflexivity|].
    cbn in Hr |- *. now rewrite Hr.
  - rewrite append_cons. cbn in Hd |- *. apply andb_true_iff in Hd as [Hc Hd].
    now rewrite Hc, IH.
Qed.

Lemma span_digits_all (ds : string) :
  all_digits ds = true -> span_digits ds = (ds, "").
Proof.
  intros H. rewrite <- (append_nil_r ds) at 1. now apply span_digits_app.
Qed.

Lemma digit_char_clean (c : ascii) :
  is_digit c = true ->
  negb (is_space c) && negb (Ascii.eqb c "_") = true /\ lower_char c = c.
Proof.
  destruct c as [[] [] [] [] [] [] [] []]; vm_compute; split; congruence.
Qed.

Lemma all_digits_clean (s : string) : all_digits s = true -> clean s = true.
Proof.
  induction s as [|c s IH]; [reflexivity|]. cbn [all_digits clean]. intros H.
  apply andb_true_iff in H as [Hc Hs]. rewrite (IH Hs), andb_true_r.
  now apply digit_char_clean.
Qed.

Lemma clean_app (a b : string) : clean (a +:+ b) = clean a && clean b.
Proof.
  induction a as [|c a IH]; [reflexivity|].
  rewrite append_cons. cbn [clean]. rewrite IH. now rewrite !andb_assoc.
Qed.

Lemma lstrip_clean (s : string) : clean s = true -> lstrip s = s.
Proof.
  destruct s as [|c s]; [reflexivity|]. cbn. intros H.
  destruct (is_space c); [discriminate|reflexivity].
Qed.

Lemma rstrip_clean (s : string) : clean s = true -> rstrip s = s.
Proof.
  induction s as [|c s IH]; [reflexivity|]. cbn. intros H.
  apply andb_true_iff in H as [Hc Hs]. apply andb_true_iff in Hc as [Hc _].
  rewrite (IH Hs). destruct s; [|reflexivity].
  now destruct (is_space c).
Qed.

Lemma remove_underscores_clean (s : string) :
  clean s = true -> remove_underscores s = s.
Proof.
  induction s as [|c s IH]; [reflexivity|]. cbn. intros H.
  apply andb_true_iff in H as [Hc Hs]. apply andb_true_iff in Hc as [_ Hc].
  rewrite (IH Hs). now destruct (Ascii.eqb c "_").
Qed.

Lemma lower_app (a b : string) : lower (a +:+ b) = lower a +:+ lower b.
Proof.
  induction a as [|c a IH]; [reflexivity|].
  rewrite append_cons. cbn [lower]. now rewrite IH, append_cons.
Qed.

Lemma lower_digits (s : string) : all_digits s = true -> lower s = s.
Proof.
  induction s as [|c s IH]; [reflexivity|]. cbn. intros H.
  apply andb_true_iff in H as [Hc Hs]. rewrite (IH Hs). f_equal.
  now apply digit_char_clean.
Qed.

Lemma substring_all_digits (s : string) (a n : nat) :
  all_digits s = true -> all_digits (substring a n s) = true.
Proof.
  revert a n. induction s as [|c s IH]; intros a n H.
  - destruct a, n; reflexivity.
  - cbn in H. apply andb_true_iff in H as [Hc Hs].
    destruct a as [|a]; destruct n as [|n]; cbn; auto.
    rewrite Hc. now apply IH.
Qed.

Lemma substring_0_all (s : string) : substring 0 (String.length s) s = s.
Proof. induction s; cbn; congruence. Qed.

Lemma substring_split (s : string) (k : nat) :
  k <= String.length s ->
  substring 0 k s +:+ substring k (String.length s - k) s = s.
Proof.
  revert k. induction s as [|c s IH]; intros k Hk.
  - destruct k; reflexivity.
  - destruct k as [|k].
    + cbn [substring]. rewrite append_nil_l. cbn [String.length Nat.sub].
      now rewrite substring_0_all.
    + cbn [substring String.length Nat.sub]. rewrite append_cons.
      rewrite IH; [reflexivity|]. cbn in Hk. lia.
Qed.

Lemma substring_length_tail (s : string) (k : nat) :
  k <= String.length s ->
  String.length (substring k (String.length s - k) s) = String.length s - k.
Proof.
  revert k. induction s as [|c s IH]; intros k Hk.
  - destruct k; reflexivity.
  - destruct k as [|k].
    + cbn [Nat.sub]. rewrite Nat.sub_0_r. now rewrite substring_0_all.
    + cbn [substring String.length Nat.sub]. apply IH. cbn in Hk. lia.
Qed.

Lemma substring_head_nonempty (s : string) (k : nat) :
  0 < k -> s <> "" -> substring 0 k s <> "".
Proof. destruct s, k; cbn; try lia; congruence. Qed.

Lemma digits_to_N_signed (z : Z) :
  parse_exponent (signed_str z) = Some z.
Proof.
  unfold parse_exponent, signed_str.
  pose proof (digits_all_digits (Z.abs_N z)) as Hd.
  pose proof (digits_nonempty (Z.abs_N z)) as Hn.
  assert (He : is_empty (digits (Z.abs_N z)) = false)
    by (destruct (digits (Z.abs_N z)); [congruence|reflexivity]).
  destruct (z <? 0)%Z eqn:Ez; rewrite append_cons, append_nil_l;
    cbn [split_sign]; rewrite (span_digits_all _ Hd), He;
    cbn [is_empty orb negb]; rewrite digits_to_N_digits; f_equal.
  - apply Z.ltb_lt in Ez. rewrite N2Z.inj_abs_N. lia.
  - apply Z.ltb_ge in Ez. rewrite N2Z.inj_abs_N. lia.
Qed.

(** The numeric alternative of the parser on a text made of an integer
    part, an optional fraction and an optional exponent. *)
Lemma parse_finite_parts (ip : string) (fd : option string) (z : option Z) :
  all_digits ip = true -> ip <> "" ->
  all_digits (frac_digits fd) = true ->
  parse_finite (ip +:+ frac_str fd +:+ tail_str z)
  = Some (digits_to_N (ip +:+ frac_digits fd) 0,
          (tail_exp z - Z.of_nat (String.length (frac_digits fd)))%Z).
Proof.
  intros Hip Hne Hfd. unfold parse_finite.
  assert (Htail : starts_with_digit (tail_str z) = false)
    by (destruct z; reflexivity).
  assert (Hrest : starts_with_digit (frac_str fd +:+ tail_str z) = false).
  { destruct fd; [reflexivity|]. cbn [frac_str]. now rewrite append_nil_l. }
  rewrite (span_digits_app _ _ Hip Hrest).
  assert (Hip' : is_empty ip = false)
    by (destruct ip; [congruence|reflexivity]).
  destruct fd as [f|]; cbn [frac_str frac_digits] in *.
  - rewrite append_assoc, append_cons, append_nil_l.
    rewrite (span_digits_app _ _ Hfd Htail). rewrite Hip'. cbn [andb].
    destruct z as [z|]; cbn [tail_str tail_exp].
    + rewrite append_cons, append_nil_l. now rewrite digits_to_N_signed.
    + reflexivity.
  - rewrite append_nil_l.
    destruct z as [z|]; cbn [tail_str tail_exp].
    + rewrite append_cons, append_nil_l. rewrite Hip'. cbn [andb].
      now rewrite digits_to_N_signed.
    + rewrite Hip'. reflexivity.
Qed.

Lemma sign_str_facts (sg : bool) :
  lower (sign_str sg) = sign_str sg /\ clean (sign_str sg) = true.
Proof. destruct sg; split; reflexivity. Qed.

Lemma signed_str_facts (z : Z) :
  lower (signed_str z) = signed_str z /\ clean (signed_str z) = true.
Proof.
  unfold signed_str. pose proof (digits_all_digits (Z.abs_N z)) as Hd.
  rewrite lower_app, clean_app, (lower_digits _ Hd), (all_digits_clean _ Hd).
  destruct (z <? 0)%Z; split; reflexivity.
Qed.

Lemma digits_length_pos (n : N) : (0 < Z.of_nat (String.length (digits n)))%Z.
Proof.
  pose proof (digits_nonempty n). destruct (digits n); [congruence|cbn; lia].
Qed.

(** The scientific string of a finite decimal, piece by piece. *)
Lemma str_finite_parts (sg : bool) (c : N) (e : Z) :
  exists (ip : string) (fd : option string) (z : option Z),
    lower (str_Decimal (Finite sg c e))
    = sign_str sg +:+ (ip +:+ frac_str fd +:+ tail_str z)
    /\ clean (str_Decimal (Finite sg c e)) = true
    /\ all_digits ip = true /\ ip <> ""
    /\ all_digits (frac_digits fd) = true
    /\ digits_to_N (ip +:+ frac_digits fd) 0 = c
    /\ (tail_exp z - Z.of_nat (String.length (frac_digits fd)))%Z = e.
Proof.
  pose proof (digits_all_digits c) as Hd.
  pose proof (digits_nonempty c) as Hne.
  pose proof (digits_length_pos c) as Hlen.
  pose proof (digits_to_N_digits c) as Hc.
  destruct (sign_str_facts sg) as [Hls Hcs].
  cbn [str_Decimal]. cbv zeta.
  set (I := digits c) in *.
  set (len := Z.of_nat (String.length I)) in *.
  destruct ((e <=? 0)%Z && (-6 <? e + len)%Z) eqn:Ecase.
  - (* plain notation *)
    apply andb_true_iff in Ecase as [He Hl].
    apply Z.leb_le in He. apply Z.ltb_lt in Hl.
    rewrite Z.eqb_refl.
    destruct (e + len <=? 0)%Z eqn:E0.
    + (* 0.000ddd *)
      apply Z.leb_le in E0.
      exists "0", (Some (zeros (Z.to_nat (- (e + len))) +:+ I)), None.
      cbn [frac_str tail_str frac_digits tail_exp].
      rewrite !lower_app, !clean_app, Hls, Hcs, (lower_digits _ Hd),
        (all_digits_clean _ Hd),
        (lower_digits _ (zeros_all_digits _)),
        (all_digits_clean _ (zeros_all_digits _)).
      rewrite all_digits_app, zeros_all_digits, Hd.
      rewrite append_length, zeros_length.
      repeat split; try reflexivity; try discriminate.
      * rewrite append_cons, append_nil_l.
        change (digits_to_N (String "0" ?s) 0) with (digits_to_N s 0).
        now rewrite digits_to_N_zeros.
      * fold len. lia.
    + apply Z.leb_gt in E0.
      destruct (len <=? e + len)%Z eqn:E1.
      * (* the integer itself: e = 0 *)
        apply Z.leb_le in E1. assert (e = 0)%Z as -> by lia.
        exists I, None, None.
        cbn [frac_str tail_str frac_digits tail_exp].
        replace (0 + len - len)%Z with 0%Z by lia. cbn [Z.to_nat zeros].
        rewrite !append_nil_r.
        rewrite !lower_app, !clean_app, Hls, Hcs, (lower_digits _ Hd),
          (all_digits_clean _ Hd).
        repeat split; try reflexivity; try assumption.
      * (* ddd.ddd *)
        apply Z.leb_gt in E1.
        set (k := Z.to_nat (e + len)).
        assert (Hk : k <= String.length I) by (subst k len; lia).
        assert (Hk0 : 0 < k) by (subst k; lia).
        replace (Z.to_nat (len - (e + len))) with (String.length I - k)
          by (subst k len; lia).
        exists (substring 0 k I), (Some (substring k (String.length I - k) I)),
          None.
        cbn [frac_str tail_str frac_digits tail_exp].
        pose proof (substring_all_digits I 0 k Hd) as H1.
        pose proof (substring_all_digits I k (String.length I - k) Hd) as H2.
        rewrite !lower_app, !clean_app, Hls, Hcs, (lower_digits _ H1),
          (all_digits_clean _ H1), (lower_digits _ H2),
          (all_digits_clean _ H2).
        rewrite (substring_split I k Hk), (substring_length_tail I k Hk).
        repeat split; try reflexivity; try assumption.
        -- now apply substring_head_nonempty.
        -- subst k len. lia.
  - (* scientific notation *)
    assert (Hexp : (e + len =? 1)%Z = false).
    { apply Z.eqb_neq. intros H1.
      apply andb_false_iff in Ecase as [H|H];
        [apply Z.leb_gt in H|apply Z.ltb_ge in H]; lia. }
    rewrite Hexp. cbn [Z.leb Z.compare].
    destruct (signed_str_facts (e + len - 1)) as [Hlz Hcz].
    destruct (len <=? 1)%Z eqn:E1.
    + (* one digit *)
      apply Z.leb_le in E1. assert (Hl1 : len = 1%Z) by lia.
      exists I, None, (Some (e + len - 1)%Z).
      cbn [frac_str tail_str frac_digits tail_exp].
      replace (Z.to_nat (1 - len)) with 0 by lia. cbn [zeros].
      rewrite !append_nil_r, !append_nil_l.
      rewrite !lower_app, !clean_app, Hls, Hcs, (lower_digits _ Hd),
        (all_digits_clean _ Hd), Hlz, Hcz.
      repeat split; try reflexivity; try assumption.
      cbn [String.length]. lia.
    + apply Z.leb_gt in E1.
      assert (Hk : 1 <= String.length I) by (subst len; lia).
      replace (Z.to_nat (len - 1)) with (String.length I - 1)
        by (subst len; lia).
      change (Z.to_nat 1) with 1.
      exists (substring 0 1 I), (Some (substring 1 (String.length I - 1) I)),
        (Some (e + len - 1)%Z).
      cbn [frac_str tail_str frac_digits tail_exp].
      pose proof (substring_all_digits I 0 1 Hd) as H1.
      pose proof (substring_all_digits I 1 (String.length I - 1) Hd) as H2.
      rewrite !lower_app, !clean_app, Hls, Hcs, (lower_digits _ H1),
        (all_digits_clean _ H1), (lower_digits _ H2),
        (all_digits_clean _ H2), Hlz, Hcz.
      rewrite (substring_split I 1 Hk), (substring_length_tail I 1 Hk).
      repeat split; try reflexivity; try assumption.
      * apply substring_head_nonempty; [lia|assumption].
      * subst len. lia.
Qed.

Lemma split_sign_sign (sg : bool) (body : string) :
  starts_with_digit body = true \/ (exists r, body = String "n" r)
  \/ (exists r, body = String "s" r) ->
  split_sign (sign_str sg +:+ body) = (sg, body).
Proof.
  intros H. destruct sg; [reflexivity|]. cbn [sign_str].
  rewrite append_nil_l.
  destruct H as [H|[[r ->]|[r ->]]]; try reflexivity.
  destruct body as [|c r]; [discriminate H|].
  cbn in H. unfold split_sign.
  destruct c as [[] [] [] [] [] [] [] []]; try reflexivity;
    vm_compute in H; discriminate H.
Qed.

(** [Decimal(str(d))] is [d]: the same sign, digits and exponent, the
    same infinity, the same NaN with its diagnostic. *)
Lemma Decimal_of_str_str (d : PyDecimal) :
  Decimal_of_str (str_Decimal d) = Return d.
Proof.
  unfold Decimal_of_str. destruct d as [sg c e|sg|sg signaling p].
  - destruct (str_finite_parts sg c e)
      as (ip & fd & z & Hlow & Hclean & Hip & Hne & Hfd & Hc & He).
    rewrite (lstrip_clean _ Hclean), (rstrip_clean _ Hclean),
      (remove_underscores_clean _ Hclean), Hlow.
    rewrite split_sign_sign.
    + rewrite (parse_finite_parts ip fd z Hip Hne Hfd), Hc, He. reflexivity.
    + left. destruct ip as [|a ip]; [congruence|].
      rewrite append_cons. cbn in Hip |- *.
      now apply andb_true_iff in Hip as [Ha _].
  - destruct sg; vm_compute; reflexivity.
  - set (ds := if (p =? 0)%N then "" else digits p).
    assert (Hds : all_digits ds = true).
    { subst ds. destruct (p =? 0)%N; [reflexivity|apply digits_all_digits]. }
    assert (Hp : digits_to_N ds 0 = p).
    { subst ds. destruct (p =? 0)%N eqn:E; [|apply digits_to_N_digits].
      apply N.eqb_eq in E. now subst p. }
    destruct (sign_str_facts sg) as [Hls Hcs].
    assert (Hclean : clean (str_Decimal (NaN sg signaling p)) = true).
    { cbn [str_Decimal]. fold ds.
      rewrite !clean_app, Hcs, (all_digits_clean _ Hds).
      now destruct signaling. }
    rewrite (lstrip_clean _ Hclean), (rstrip_clean _ Hclean),
      (remove_underscores_clean _ Hclean).
    cbn [str_Decimal]. fold ds.
    rewrite !lower_app, Hls, (lower_digits _ Hds).
    destruct signaling.
    + change (lower "sNaN") with "snan".
      rewrite split_sign_sign by (right; right; eexists; reflexivity).
      rewrite !append_cons, append_nil_l.
      cbn [parse_finite span_digits is_digit nat_of_ascii].
      unfold parse_finite. cbn [span_digits].
      change (is_digit "s") with false. cbn iota beta.
      cbn [is_empty andb]. 
      change (String.eqb (String "s" ?x) "inf") with false.
      change (String.eqb (String "s" (String "n" (String "a" (String "n" ds))))
                         "infinity") with false.
      cbn [orb]. unfold parse_nan.
      rewrite (span_digits_all _ Hds). cbn [is_empty]. now rewrite Hp.
    + change (lower "NaN") with "nan".
      rewrite split_sign_sign by (right; left; eexists; reflexivity).
      rewrite !append_cons, append_nil_l.
      unfold parse_finite. cbn [span_digits].
      change (is_digit "n") with false. cbn iota beta.
      cbn [is_empty andb].
      change (String.eqb (String "n" (String "a" (String "n" ds))) "inf")
        with false.
      change (String.eqb (String "n" (String "a" (String "n" ds)))
                         "infinity") with false.
      cbn [orb]. unfold parse_nan.
      rewrite (span_digits_all _ Hds). cbn [is_empty]. now rewrite Hp.
Qed.

Lemma rescale_same_exponent (s : bool) (c : N) (e : Z) (mode : rounding_mode) :
  rescale s c e e mode = Finite s c e.
Proof.
  unfold rescale. rewrite Z.leb_refl, Z.sub_diag. cbn [Z.to_N].
  now rewrite N.pow_0_r, N.mul_1_r.
Qed.

Lemma rescale_finite (s : bool) (c : N) (e exp : Z) (mode : rounding_mode) :
  exists c', rescale s c e exp mode = Finite s c' exp.
Proof. unfold rescale. destruct (exp <=? e)%Z; eauto. Qed.

(** Quantizing to an exponent a decimal that already has it changes
    nothing. *)
Lemma quantize_idempotent (ctx : context) (v q : PyDecimal) (sE : bool)
    (cE : N) (et : Z) (r : option rounding_mode) :
  quantize ctx v (Finite sE cE et) r = Return q ->
  quantize ctx q (Finite sE cE et) r = Return q.
Proof.
  destruct v as [s c e|s|s [] p]; cbn [quantize]; try discriminate.
  - destruct (negb ((Etiny ctx <=? et) && (et <=? Emax ctx))%Z) eqn:Eb;
      [discriminate|].
    destruct (c =? 0)%N eqn:Ec.
    + intros [= <-]. cbn [quantize]. now rewrite Eb.
    + destruct (Emax ctx <? adjusted c e)%Z; [discriminate|].
      destruct (prec ctx <? adjusted c e - et + 1)%Z; [discriminate|].
      destruct (rescale_finite s c e et
                  (match r with Some m => m | None => ctx_rounding ctx end))
        as [c' ->].
      destruct (Emax ctx <? adjusted c' et)%Z eqn:E1; [discriminate|].
      destruct (prec ctx <? num_digits c')%Z eqn:E2; [discriminate|].
      intros [= <-]. cbn [quantize]. rewrite Eb.
      destruct (c' =? 0)%N eqn:Ec'.
      * apply N.eqb_eq in Ec'. now subst c'.
      * rewrite E1.
        replace (adjusted c' et - et + 1)%Z with (num_digits c')
          by (unfold adjusted; lia).
        rewrite E2, rescale_same_exponent. now rewrite E1, E2.
  - intros [= <-]. unfold fix_nan. cbn [quantize]. unfold fix_nan.
    rewrite N.Div0.mod_mod. reflexivity.
Qed.

Lemma Decimal_eq_refl (v : PyDecimal) :
  is_nan v = false -> Decimal_eq v v = Return true.
Proof.
  destruct v as [s c e|s|s sg p]; [| |discriminate]; intros _; cbn.
  - destruct (c =? 0)%N eqn:E; [reflexivity|].
    now rewrite Bool.eqb_reflx, N.eqb_refl.
  - now rewrite Bool.eqb_reflx.
Qed.

(** C10, as the code has it.  With [places=None] the strategy writes
    [str(value)] and reads it back with [Decimal]: for every decimal [v],
    [deserialize(serialize(v))] returns a decimal with the sign, the
    digits and the exponent of [v] (an infinity, a NaN with its
    diagnostic, as [v] is one), and this decimal [== v] unless [v] is a
    NaN.  With [places] set, serializing what was read back from a
    serialized value gives the same text again (and the same error when
    the value cannot be quantized). *)
Theorem RoundedDecimal_round_trip (ctx : context) :
  (forall (mode : option rounding_mode) (v : PyDecimal),
      let strategy := RoundedDecimal_init None mode in
      exists r,
        py_bind (serialize ctx strategy v) (deserialize strategy) = Return r
        /\ r = v
        /\ (is_nan v = false -> Decimal_eq r v = Return true))
  /\ (forall (places : Z) (mode : option rounding_mode) (v : PyDecimal),
         let strategy := RoundedDecimal_init (Some places) mode in
         py_bind (py_bind (serialize ctx strategy v) (deserialize strategy))
                 (serialize ctx strategy)
         = serialize ctx strategy v).
Proof.
  split.
  - intros mode v strategy. exists v. split; [|split; [reflexivity|]].
    + cbn [py_bind serialize exp strategy RoundedDecimal_init].
      unfold deserialize. apply Decimal_of_str_str.
    + apply Decimal_eq_refl.
  - intros places mode v strategy.
    assert (Hq : forall r,
               py_bind (py_bind
                          (match quantize ctx v (Finite false 1 (- places)) r with
                           | Return q => Return (str_Decimal q)
                           | Raise x => Raise x
                           end) (deserialize strategy))
                       (fun d => match quantize ctx d
                                         (Finite false 1 (- places)) r with
                                 | Return q => Return (str_Decimal q)
                                 | Raise x => Raise x
                                 end)
               = match quantize ctx v (Finite false 1 (- places)) r with
                 | Return q => Return (str_Decimal q)
                 | Raise x => Raise x
                 end).
    { intros r.
      destruct (quantize ctx v (Finite false 1 (- places)) r) as [q|x] eqn:E;
        [|reflexivity].
      cbn [py_bind]. unfold deserialize. rewrite Decimal_of_str_str.
      cbn [py_bind]. now rewrite (quantize_idempotent _ _ _ _ _ _ _ E). }
    unfold serialize. cbn [exp rounding strategy RoundedDecimal_init
      Decimal_bool]. change (negb (1 =? 0)%N) with true. cbv iota.
    destruct mode as [r|]; [exact (Hq (Some r))|exact (Hq None)].
Qed.

Lemma RoundedDecimal_round_trip_witness :
  let strategy := RoundedDecimal_init None None in
  let v := Finite true 1250 (-3) in
  is_nan v = false
  /\ exists r,
      py_bind (serialize default_context strategy v) (deserialize strategy)
      = Return r
      /\ Decimal_eq r v = Return true.
Proof.
  intros strategy v. split; [reflexivity|].
  destruct (proj1 (RoundedDecimal_round_trip default_context) None v)
    as (r & Hr & _ & Heq).
  exists r. split; [exact Hr|]. apply Heq. reflexivity.
Defined.

(** C10, as stated, fails for a NaN: [Decimal("NaN")] is written as
    ["NaN"] and read back as the same NaN, which is unequal to itself;
    comparing a signaling NaN raises [InvalidOperation]. *)
Lemma RoundedDecimal_NaN_is_unequal :
  let strategy := RoundedDecimal_init None None in
  let nan := NaN false false 0 in
  py_bind (serialize default_context strategy nan) (deserialize strategy)
  = Return nan
  /\ Decimal_eq nan nan = Return false
  /\ py_bind (serialize default_context strategy (NaN false true 0))
             (deserialize strategy)
     = Return (NaN false true 0)
  /\ Decimal_eq (NaN false true 0) (NaN false true 0)
     = Raise (Exn (LibraryError "decimal.InvalidOperation" "sNaN") None).
Proof. repeat split; vm_compute; reflexivity. Qed.

(** With [places] set the first round does change the value:
    [RoundedDecimal(places=2)] writes [Decimal("1.2345")] as ["1.23"],
    which is read as [Decimal("1.23")]. *)
Example RoundedDecimal_two_places :
  let strategy := RoundedDecimal_init (Some 2%Z) None in
  serialize default_context strategy (Finite false 12345 (-4)) = Return "1.23"
  /\ deserialize strategy "1.23" = Return (Finite false 123 (-2)).
Proof. split; vm_compute; reflexivity. Qed.

(** ** Round trip *)

(** *** Lists, sets and dictionaries *)

Lemma py_mapM_Forall2 {A B} (f : A -> py_result B) (l : list A) (ws : list B) :
  Forall2 (fun x w => f x = Return w) l ws -> py_mapM f l = Return ws.
Proof.
  induction 1 as [|x w l ws Hx _ IH]; cbn; [reflexivity|].
  now rewrite Hx, IH.
Qed.

Lemma Forall2_exists {A B} (R : A -> B -> Prop) (l : list A) :
  (forall x, In x l -> exists w, R x w) -> exists ws, Forall2 R l ws.
Proof.
  induction l as [|x l IH]; intros H.
  - exists []. constructor.
  - destruct (H x (or_introl eq_refl)) as [w Hw].
    destruct IH as [ws Hws]; [intros y Hy; apply H; now right|].
    exists (w :: ws). now constructor.
Qed.

Lemma set_of_list_distinct (l seen : list value) :
  forallb hashable l = true -> no_dups l seen = true ->
  set_of_list l seen = Return (rev seen ++ l)%list.
Proof.
  revert seen. induction l as [|x l IH]; intros seen Hh Hd; cbn.
  - now rewrite app_nil_r.
  - cbn in Hh, Hd. apply andb_prop in Hh as [Hx Hh].
    apply andb_prop in Hd as [Hn Hd]. rewrite Hx. cbn.
    apply negb_true_iff in Hn. rewrite Hn.
    rewrite (IH _ Hh Hd). cbn. now rewrite <- app_assoc.
Qed.

Lemma items_set_fresh (k v : value) (items : list (value * value)) :
  existsb (key_eqb k) (map fst items) = false ->
  items_set k v items = (items ++ [(k, v)])%list.
Proof.
  induction items as [|[k' v'] items IH]; cbn; [reflexivity|].
  intros H. apply orb_false_iff in H as [Hk H]. rewrite Hk. now rewrite IH.
Qed.

Lemma existsb_incl {A} (f : A -> bool) (l l' : list A) :
  (forall y, In y l -> In y l') -> existsb f l' = false -> existsb f l = false.
Proof.
  intros Hin H. destruct (existsb f l) eqn:E; [|reflexivity].
  apply existsb_exists in E as (y & Hy & Hf).
  assert (existsb f l' = true) by (apply existsb_exists; eauto). congruence.
Qed.

(** A dictionary comprehension whose keys are written as distinct
    hashable keys appends one item per item. *)
Lemma dict_comp_items (fk fv : env -> py_result value) (ρ : env)
    (items out acc : list (value * value)) (seen : list value) :
  Forall2 (fun kv kw =>
             hashable (fst kw) = true
             /\ fk (with_item (fst kv) (snd kv) ρ) = Return (fst kw)
             /\ fv (with_item (fst kv) (snd kv) ρ) = Return (snd kw))
          items out ->
  no_dups (map fst out) seen = true ->
  (forall y, In y (map fst acc) -> In y seen) ->
  dict_comp (fun ρ' => (fk ρ', fv ρ')) items acc ρ = Return (acc ++ out)%list.
Proof.
  intros H. revert acc seen.
  induction H as [|[k x] [k' w] items out (Hh & Hfk & Hfv) _ IH];
    intros acc seen Hd Hacc; cbn [dict_comp].
  - now rewrite app_nil_r.
  - cbn [fst snd] in *. rewrite Hfk, Hfv, Hh.
    cbn [map fst no_dups] in Hd. apply andb_prop in Hd as [Hn Hd].
    apply negb_true_iff in Hn.
    rewrite items_set_fresh by (eapply existsb_incl; eauto).
    rewrite (IH _ (k' :: seen) Hd).
    + now rewrite <- app_assoc.
    + intros y Hy. rewrite map_app in Hy. apply in_app_or in Hy as [Hy|Hy].
      * right. auto.
      * left. cbn in Hy. tauto.
Qed.

Lemma Forall2_map_fst {A B C} (R : A * B -> A * C -> Prop)
    (l : list (A * B)) (l' : list (A * C)) :
  Forall2 (fun x y => fst y = fst x /\ R x y) l l' ->
  map fst l' = map fst l.
Proof. induction 1 as [|x y l l' [H _] _ IH]; cbn; congruence. Qed.

(** *** Dictionaries with string keys *)

Lemma items_get_as_dict (k : string) (kw : list (string * value)) :
  items_get (VStr k) (map (fun kv => (VStr (fst kv), snd kv)) kw)
  = dict_get k kw.
Proof.
  induction kw as [|[k' v] kw IH]; cbn; [reflexivity|].
  destruct (String.eqb k k'); [reflexivity|exact IH].
Qed.


(** *** The expressions written for each shape *)

Lemma pack_sequence_eq (fname parent vn : string) (c : pyclass)
    (kind : seq_kind) (a : ftype) (rest : list ftype) :
  seq_kind_for c = Some kind ->
  _pack_value fname (TGeneric c (a :: rest)) parent vn
  = build_bind (_pack_value fname a parent "value")
               (fun e => Built (EListComp e (EName vn))).
Proof. destruct c; try discriminate; intros _; reflexivity. Qed.

Lemma unpack_sequence_eq (fname parent vn : string) (c : pyclass)
    (kind : seq_kind) (a : ftype) (rest : list ftype)
    (md : option (list (string * meta_value))) :
  seq_kind_for c = Some kind ->
  _unpack_field_value fname (TGeneric c (a :: rest)) parent vn md
  = m_bind (_unpack_field_value fname a parent "value" None)
           (fun e => m_ret (seq_wrap kind (EListComp e (EName vn)))).
Proof. destruct c; try discriminate; intros [= <-]; reflexivity. Qed.

Lemma pack_sequence_inv (fname parent : string) (c : pyclass)
    (kind : seq_kind) (a : ftype) (rest : list ftype) (ep : expr) :
  seq_kind_for c = Some kind ->
  _pack_value fname (TGeneric c (a :: rest)) parent "value" = Built ep ->
  exists e, _pack_value fname a parent "value" = Built e
            /\ ep = EListComp e (EName "value").
Proof.
  intros Hk H. rewrite (pack_sequence_eq _ _ _ _ _ _ _ Hk) in H.
  destruct (_pack_value fname a parent "value") as [e|]; [|discriminate].
  injection H as <-. eauto.
Qed.

Lemma unpack_sequence_inv (fname parent : string) (c : pyclass)
    (kind : seq_kind) (a : ftype) (rest : list ftype)
    (md : option (list (string * meta_value))) (eu : expr)
    (b b' : CodeBuilder) :
  seq_kind_for c = Some kind ->
  _unpack_field_value fname (TGeneric c (a :: rest)) parent "value" md b
  = Built (eu, b') ->
  exists e b1 b2,
    _unpack_field_value fname a parent "value" None b1 = Built (e, b2)
    /\ eu = seq_wrap kind (EListComp e (EName "value")).
Proof.
  intros Hk H. rewrite (unpack_sequence_eq _ _ _ _ _ _ _ _ Hk) in H.
  unfold m_bind, m_ret in H.
  destruct (_unpack_field_value fname a parent "value" None b)
    as [[e b1]|] eqn:E; [|discriminate].
  injection H as <- _. eauto.
Qed.

Lemma pack_mapping_inv (fname parent : string) (c : pyclass)
    (k a : ftype) (rest : list ftype) (ep : expr) :
  is_mapping_origin c = true ->
  _pack_value fname (TGeneric c (k :: a :: rest)) parent "value" = Built ep ->
  exists ek e,
    _pack_value fname k parent "key" = Built ek
    /\ _pack_value fname a parent "value" = Built e
    /\ ep = EDictComp ek e (EName "value").
Proof.
  intros Hc H.
  assert (E : _pack_value fname (TGeneric c (k :: a :: rest)) parent "value"
              = if is_dataclass k
                then BuildError (UnserializableDataError
                  "Mappings with dataclasses as keys are not supported by mashumaro")
                else build_bind (_pack_value fname k parent "key") (fun ek =>
                     build_bind (_pack_value fname a parent "value") (fun e =>
                     Built (EDictComp ek e (EName "value")))))
    by (destruct c; try discriminate; reflexivity).
  rewrite E in H. destruct (is_dataclass k); [discriminate|].
  destruct (_pack_value fname k parent "key") as [ek|]; [|discriminate].
  cbn [build_bind] in H.
  destruct (_pack_value fname a parent "value") as [e|]; [|discriminate].
  injection H as <-. eauto.
Qed.

Lemma pack_chainmap_inv (fname parent : string)
    (k a : ftype) (rest : list ftype) (ep : expr) :
  _pack_value fname (TGeneric c_ChainMap (k :: a :: rest)) parent "value"
  = Built ep ->
  exists ek e,
    _pack_value fname k parent "key" = Built ek
    /\ _pack_value fname a parent "value" = Built e
    /\ ep = EChainPack ek e.
Proof.
  intros H.
  assert (E : _pack_value fname (TGeneric c_ChainMap (k :: a :: rest)) parent
                          "value"
              = if is_dataclass k
                then BuildError (UnserializableDataError
                  "ChainMaps with dataclasses as keys are not supported by mashumaro")
                else build_bind (_pack_value fname k parent "key") (fun ek =>
                     build_bind (_pack_value fname a parent "value") (fun e =>
                     Built (EChainPack ek e))))
    by reflexivity.
  rewrite E in H. destruct (is_dataclass k); [discriminate|].
  destruct (_pack_value fname k parent "key") as [ek|]; [|discriminate].
  cbn [build_bind] in H.
  destruct (_pack_value fname a parent "value") as [e|]; [|discriminate].
  injection H as <-. eauto.
Qed.

Lemma unpack_mapping_inv (fname parent : string) (c : pyclass)
    (k a : ftype) (rest : list ftype)
    (md : option (list (string * meta_value))) (eu : expr)
    (b b' : CodeBuilder) :
  is_mapping_origin c = true ->
  _unpack_field_value fname (TGeneric c (k :: a :: rest)) parent "value" md b
  = Built (eu, b') ->
  exists ek e b1 b2 b3 b4,
    _unpack_field_value fname k parent "key" None b1 = Built (ek, b2)
    /\ _unpack_field_value fname a parent "value" None b3 = Built (e, b4)
    /\ eu = EDictComp ek e (EName "value").
Proof.
  intros Hc H.
  assert (E : _unpack_field_value fname (TGeneric c (k :: a :: rest)) parent
                                  "value" md b
              = if is_dataclass k
                then BuildError (UnserializableDataError
                  "Mappings with dataclasses as keys are not supported by mashumaro")
                else m_bind (_unpack_field_value fname k parent "key" None)
                       (fun ek =>
                        m_bind (_unpack_field_value fname a parent "value" None)
                          (fun e => m_ret (EDictComp ek e (EName "value")))) b)
    by (destruct c; try discriminate; destruct (is_dataclass k) eqn:Ek;
        cbn; unfold unpack_by_origin, m_bind, m_args0_is_dataclass, m_lift;
        cbn; rewrite ?Ek; reflexivity).
  rewrite E in H. destruct (is_dataclass k); [discriminate|].
  unfold m_bind, m_ret in H.
  destruct (_unpack_field_value fname k parent "key" None b)
    as [[ek b1]|] eqn:E1; [|discriminate].
  destruct (_unpack_field_value fname a parent "value" None b1)
    as [[e b2]|] eqn:E2; [|discriminate].
  injection H as <- _. do 6 eexists. eauto.
Qed.

Lemma unpack_chainmap_inv (fname parent : string)
    (k a : ftype) (rest : list ftype)
    (md : option (list (string * meta_value))) (eu : expr)
    (b b' : CodeBuilder) :
  _unpack_field_value fname (TGeneric c_ChainMap (k :: a :: rest)) parent
                      "value" md b
  = Built (eu, b') ->
  exists ek e b1 b2 b3 b4,
    _unpack_field_value fname k parent "key" None b1 = Built (ek, b2)
    /\ _unpack_field_value fname a parent "value" None b3 = Built (e, b4)
    /\ eu = EChainUnpack ek e (EName "value").
Proof.
  intros H.
  assert (E : _unpack_field_value fname (TGeneric c_ChainMap (k :: a :: rest))
                                  parent "value" md b
              = if is_dataclass k
                then BuildError (UnserializableDataError
                  "ChainMaps with dataclasses as keys are not supported by mashumaro")
                else m_bind (_unpack_field_value fname k parent "key" None)
                       (fun ek =>
                        m_bind (_unpack_field_value fname a parent "value" None)
                          (fun e => m_ret (EChainUnpack ek e (EName "value")))) b)
    by (destruct (is_dataclass k) eqn:Ek;
        cbn; unfold unpack_by_origin, m_bind, m_args0_is_dataclass, m_lift;
        cbn; rewrite ?Ek; reflexivity).
  rewrite E in H. destruct (is_dataclass k); [discriminate|].
  unfold m_bind, m_ret in H.
  destruct (_unpack_field_value fname k parent "key" None b)
    as [[ek b1]|] eqn:E1; [|discriminate].
  destruct (_unpack_field_value fname a parent "value" None b1)
    as [[e b2]|] eqn:E2; [|discriminate].
  injection H as <- _. do 6 eexists. eauto.
Qed.

(** Date and time fields: whatever the metadata, the decoder leaves the
    value alone under [use_datetime]. *)
Lemma unpack_datetime_inv (fname parent vn : string) (t : ftype)
    (c : pyclass) (md : option (list (string * meta_value))) (eu : expr)
    (b b' : CodeBuilder) :
  unpack_datetime fname t parent vn c md b = Built (eu, b') ->
  exists e, eu = EIfElse (EName vn) "use_datetime" e.
Proof.
  unfold unpack_datetime. destruct md as [md|].
  - unfold m_bind at 1.
    match goal with
    | |- context [match ?m b with _ => _ end] =>
        destruct (m b) as [[[parser|] b1]|] eqn:E
    end; try discriminate.
    unfold m_ret. intros [= <- _]. eauto.
  - unfold m_ret. intros [= <- _]. eauto.
Qed.
(** *** Values of each shape *)

Lemma py_mapM_Forall2_back {A B} (f : B -> py_result A) (l : list A)
    (ws : list B) :
  Forall2 (fun x w => f w = Return x) l ws -> py_mapM f ws = Return l.
Proof.
  induction 1 as [|x w l ws Hx _ IH]; cbn; [reflexivity|].
  now rewrite Hx, IH.
Qed.

Lemma Forall2_swap {A B} (R : A -> B -> Prop) (l : list A) (l' : list B) :
  Forall2 R l l' -> Forall2 (fun y x => R x y) l' l.
Proof. induction 1; constructor; auto. Qed.

(** An expression over one name depends on the binding of that name, on
    the owning class and on the flags only. *)
Lemma eval_reads_only extern (call call' : routine -> flags -> py_result value)
    (vn : string) (e : expr) (ρ ρ' : env) :
  reads_only vn e = true ->
  lookup_name vn ρ = lookup_name vn ρ' ->
  e_owner ρ = e_owner ρ' -> e_flags ρ = e_flags ρ' ->
  eval extern call ρ e = eval extern call' ρ' e.
Proof.
  intros Hr Hn Ho Hf.
  induction e; cbn [reads_only] in Hr; try discriminate Hr; cbn [eval].
  - apply String.eqb_eq in Hr. now subst.
  - now rewrite IHe.
  - now rewrite IHe.
  - now rewrite IHe.
  - now rewrite IHe.
  - now rewrite IHe.
  - now rewrite IHe, Ho.
  - apply andb_prop in Hr as [H1 H2].
    unfold lookup_flag. now rewrite Hf, IHe1, IHe2.
Qed.

(** The expression written for a date or a time does not depend on what
    the builder has registered. *)
Lemma unpack_datetime_indep (fname parent vn : string) (t : ftype)
    (c : pyclass) (md : option (list (string * meta_value))) (e : expr)
    (b1 b1' b2 : CodeBuilder) :
  unpack_datetime fname t parent vn c md b1 = Built (e, b1') ->
  exists b2', unpack_datetime fname t parent vn c md b2 = Built (e, b2').
Proof.
  unfold unpack_datetime. destruct md as [md|].
  - destruct (dict_get "deserialize" md) as [[s|m q|m hd|r]|];
      unfold m_bind, m_do, m_ret, m_unserializable, m_fail;
      try (destruct (String.eqb s "ciso8601"));
      try (destruct (String.eqb s "pendulum"));
      try (destruct hd);
      intros H; try discriminate H; injection H as <- _; eauto.
  - unfold m_ret. intros [= <- _]. eauto.
Qed.

(** Nor does the expression written for a type without arguments. *)
Lemma unpack_scalar_indep (fname parent vn : string) (t : ftype)
    (md : option (list (string * meta_value))) (e : expr)
    (b1 b1' b2 : CodeBuilder) :
  is_scalar_type t = true ->
  _unpack_field_value fname t parent vn md b1 = Built (e, b1') ->
  exists b2', _unpack_field_value fname t parent vn md b2 = Built (e, b2').
Proof.
  destruct t as [c|c args| | | | | | | | | |]; try discriminate;
    cbn [is_scalar_type]; intros Hs;
    cbn [_unpack_field_value]; unfold m_ret;
    try (intros [= <- _]; eauto; fail).
  - unfold unpack_by_origin. cbn [is_generic].
    unfold m_unserializable, m_fail, m_ret.
    repeat match goal with
           | |- context [if ?c then _ else _] => destruct c
           end;
      try (intros H; discriminate H);
      try (intros [= <- _]; eauto; fail);
      apply unpack_datetime_indep.
  - apply negb_true_iff in Hs. unfold unpack_by_origin. rewrite Hs.
    unfold m_unserializable, m_fail, m_ret.
    repeat match goal with
           | |- context [if ?c then _ else _] => destruct c
           end;
      try (intros H; discriminate H);
      try (intros [= <- _]; eauto; fail);
      apply unpack_datetime_indep.
Qed.

Section RoundTripProofs.

Variable extern : string -> list value -> py_result value.
Variable IM : gset string.
Variable classes : list (string * pycls).
Variable fl : flags.

Local Notation "'round_trips_'" := (round_trips extern IM classes fl).
Local Notation "'eval_at_'" := (eval_at extern IM classes fl).
Local Notation "'eval_'" := (fun fuel => eval extern (run extern IM classes fuel)).

Lemma eval_value_at (fuel : nat) (e : expr) (x : value) (key : option value)
    (owner : string) :
  reads_only "value" e = true ->
  eval_at_ fuel x key owner e = eval_scalar extern fl owner x e.
Proof.
  intros H. unfold eval_at, eval_scalar.
  now apply eval_reads_only with (vn := "value").
Qed.

Lemma eval_key_at (fuel : nat) (e : expr) (k x : value) (owner : string) :
  reads_only "key" e = true ->
  eval_at_ fuel x (Some k) owner e = eval_scalar extern fl owner k e.
Proof.
  intros H. unfold eval_at, eval_scalar.
  now apply eval_reads_only with (vn := "key").
Qed.

Lemma inverts_spec (owner vn : string) (top : bool) (ep eu : expr)
    (x : value) :
  inverts extern fl owner vn top ep eu x = true ->
  reads_only vn ep = true /\ reads_only vn eu = true
  /\ equals_copy extern x = true
  /\ exists w,
      eval_scalar extern fl owner x ep = Return w
      /\ eval_scalar extern fl owner w eu = Return x
      /\ (top = true -> is_None w = false /\ is_Missing w = false).
Proof.
  unfold inverts. intros H.
  apply andb_prop in H as [H Hev]. apply andb_prop in H as [H Heq].
  apply andb_prop in H as [Hp Hu]. repeat split; try assumption.
  destruct (eval_scalar extern fl owner x ep) as [w|]; [|discriminate Hev].
  apply andb_prop in Hev as [Htop Hev].
  destruct (eval_scalar extern fl owner w eu) as [x'|] eqn:Ew;
    [|discriminate Hev].
  apply value_eqb_eq in Hev. subst x'. exists w.
  split; [reflexivity|]. split; [exact Ew|].
  intros ->. cbn in Htop. apply andb_prop in Htop as [Hn Hm].
  split; now apply negb_true_iff.
Qed.

(** What [codec] computes with a fresh builder is what the builder
    writes. *)
Lemma codec_scalar (owner fname vn : string)
    (md : option (list (string * meta_value))) (t : ftype) (ep eu : expr)
    (b b' : CodeBuilder) :
  is_scalar_type t = true ->
  _pack_value fname t owner vn = Built ep ->
  _unpack_field_value fname t owner vn md b = Built (eu, b') ->
  codec owner fname vn md t = Some (ep, eu).
Proof.
  intros Ht Hp Hu. unfold codec. rewrite Hp.
  destruct (unpack_scalar_indep _ _ _ _ _ _ _ _ new_builder Ht Hu) as [b0 ->].
  reflexivity.
Qed.

Lemma scalar_round_trips (fuel : nat) (owner fname : string)
    (md : option (list (string * meta_value))) (top : bool) (t : ftype)
    (x : value) (ep eu : expr) (b b' : CodeBuilder) :
  scalar_ok extern fl owner fname md top t x = true ->
  _pack_value fname t owner "value" = Built ep ->
  _unpack_field_value fname t owner "value" md b = Built (eu, b') ->
  round_trips_ fuel owner top ep eu x.
Proof.
  unfold scalar_ok. intros H Hp Hu. apply andb_prop in H as [Ht H].
  rewrite (codec_scalar _ _ _ _ _ _ _ _ _ Ht Hp Hu) in H.
  apply inverts_spec in H as (Hrp & Hru & _ & w & Hw & Hw' & Htop).
  intros key key'. exists w.
  now rewrite !eval_value_at by assumption.
Qed.

Lemma call_eval (fuel : nat) (v : value) (key : option value)
    (owner f : string) (a : expr) :
  eval_at_ fuel v key owner (ECall f a)
  = py_bind (eval_at_ fuel v key owner a) (py_call extern f).
Proof. reflexivity. Qed.

Lemma list_comp_eval (fuel : nat) (e : expr) (kind : seq_kind)
    (l ws : list value) (key : option value) (owner : string) :
  py_mapM (fun x => eval_at_ fuel x key owner e) l = Return ws ->
  eval_at_ fuel (VSeq kind l) key owner (EListComp e (EName "value"))
  = Return (VSeq KList ws).
Proof.
  intros H. unfold eval_at in *. cbn.
  unfold with_value. cbn. now rewrite H.
Qed.

Lemma sequence_round_trips (fuel : nat) (owner : string) (top : bool)
    (kind : seq_kind) (e e' : expr) (l : list value) :
  (forall x, In x l -> round_trips_ fuel owner false e e' x) ->
  (is_set_kind kind = true ->
   forallb hashable l = true /\ no_dups l [] = true) ->
  round_trips_ fuel owner top (EListComp e (EName "value"))
               (seq_wrap kind (EListComp e' (EName "value"))) (VSeq kind l).
Proof.
  intros H Hs key key'.
  destruct (Forall2_exists
              (fun x w => eval_at_ fuel x key owner e = Return w
                          /\ eval_at_ fuel w key' owner e' = Return x) l)
    as [ws Hws].
  { intros x Hx. destruct (H x Hx key key') as (w & ? & ? & _). eauto. }
  exists (VSeq KList ws). split; [|split; [|auto]].
  - apply list_comp_eval. apply py_mapM_Forall2.
    eapply Forall2_impl; [exact Hws|]. now intros x w [? _].
  - assert (Hl : eval_at_ fuel (VSeq KList ws) key' owner
                          (EListComp e' (EName "value"))
                 = Return (VSeq KList l)).
    { apply list_comp_eval. apply py_mapM_Forall2_back.
      eapply Forall2_impl; [exact Hws|]. now intros x w [_ ?]. }
    destruct kind; unfold seq_wrap; rewrite ?call_eval, Hl;
      cbn [py_bind]; try reflexivity.
    + destruct (Hs eq_refl) as [Hh Hd]. cbn.
      now rewrite (set_of_list_distinct _ _ Hh Hd).
    + destruct (Hs eq_refl) as [Hh Hd]. cbn.
      now rewrite (set_of_list_distinct _ _ Hh Hd).
Qed.

(** A key accepted by [key_ok], under the expressions the builder
    writes. *)
Lemma key_ok_spec (owner fname : string) (k : ftype) (key : value)
    (ek ek' : expr) (b b' : CodeBuilder) :
  key_ok extern fl owner fname k key = true ->
  _pack_value fname k owner "key" = Built ek ->
  _unpack_field_value fname k owner "key" None b = Built (ek', b') ->
  let w := written_key extern fl owner fname k key in
  hashable key = true /\ hashable w = true
  /\ forall fuel x,
      eval_at_ fuel x (Some key) owner ek = Return w
      /\ eval_at_ fuel x (Some w) owner ek' = Return key.
Proof.
  unfold key_ok, written_key. intros H Hp Hu.
  apply andb_prop in H as [Ht H].
  rewrite (codec_scalar _ _ _ _ _ _ _ _ _ Ht Hp Hu) in H |- *.
  apply andb_prop in H as [H Hhw]. apply andb_prop in H as [H Hh].
  apply inverts_spec in H as (Hrp & Hru & _ & w & Hw & Hw' & _).
  unfold written in *. rewrite Hw in *. cbn zeta.
  repeat split; try assumption.
  - now rewrite eval_key_at.
  - now rewrite eval_key_at.
Qed.

(** The items of a dictionary go through both comprehensions. *)
Lemma items_round_trip (fuel : nat) (owner fname : string) (k : ftype)
    (ok : value -> bool) (ek e ek' e' : expr) (b b' : CodeBuilder)
    (items : list (value * value)) :
  items_ok extern fl owner fname k ok items = true ->
  (forall x, ok x = true -> round_trips_ fuel owner false e e' x) ->
  _pack_value fname k owner "key" = Built ek ->
  _unpack_field_value fname k owner "key" None b = Built (ek', b') ->
  exists out,
    (forall v0 key0,
        dict_comp (fun ρ' => (eval_ fuel ρ' ek, eval_ fuel ρ' e)) items []
                  (mkEnv v0 key0 owner fl) = Return out)
    /\ (forall v0 key0,
           dict_comp (fun ρ' => (eval_ fuel ρ' ek', eval_ fuel ρ' e')) out []
                     (mkEnv v0 key0 owner fl) = Return items).
Proof.
  intros Hok Hrt Hek Hek'.
  apply andb_prop in Hok as [Hok Hdw]. apply andb_prop in Hok as [Hall Hd].
  destruct (Forall2_exists
              (fun kv kw =>
                 fst kw = written_key extern fl owner fname k (fst kv)
                 /\ key_ok extern fl owner fname k (fst kv) = true
                 /\ eval_at_ fuel (snd kv) (Some (fst kv)) owner e
                    = Return (snd kw)
                 /\ eval_at_ fuel (snd kw) (Some (fst kw)) owner e'
                    = Return (snd kv)) items)
    as [out Hout].
  { intros [key x] Hin.
    pose proof (proj1 (forallb_forall _ _) Hall _ Hin) as Hkx.
    cbn [fst snd] in Hkx. apply andb_prop in Hkx as [Hkey Hx].
    destruct (Hrt x Hx (Some key)
                (Some (written_key extern fl owner fname k key)))
      as (w & Hw & Hw' & _).
    exists (written_key extern fl owner fname k key, w). cbn [fst snd]. auto. }
  assert (Hkeys : map fst out
                  = map (fun kv => written_key extern fl owner fname k (fst kv))
                        items).
  { clear -Hout. induction Hout as [|? ? ? ? (Hk & _) _ IH]; cbn; congruence. }
  exists out. split; intros v0 key0.
  - change out with ([] ++ out)%list.
    apply dict_comp_items with (seen := []);
      [|now rewrite Hkeys|intros y []].
    eapply Forall2_impl; [exact Hout|].
    intros [key x] [key' w] (Hk & Hs & Hw & _). cbn [fst snd] in *.
    destruct (key_ok_spec _ _ _ _ _ _ _ _ Hs Hek Hek') as (_ & Hhw & Hev).
    subst key'. repeat split; [exact Hhw|apply Hev|exact Hw].
  - change items with ([] ++ items)%list.
    apply dict_comp_items with (seen := []); [|exact Hd|intros y []].
    apply Forall2_swap. eapply Forall2_impl; [exact Hout|].
    intros [key x] [key' w] (Hk & Hs & _ & Hw'). cbn [fst snd] in *.
    destruct (key_ok_spec _ _ _ _ _ _ _ _ Hs Hek Hek') as (Hh & _ & Hev).
    subst key'. repeat split; [exact Hh|apply Hev|exact Hw'].
Qed.

Lemma mapping_round_trips (fuel : nat) (owner fname : string) (top : bool)
    (k : ftype) (ok : value -> bool) (ek e ek' e' : expr)
    (b b' : CodeBuilder) (items : list (value * value)) :
  items_ok extern fl owner fname k ok items = true ->
  (forall x, ok x = true -> round_trips_ fuel owner false e e' x) ->
  _pack_value fname k owner "key" = Built ek ->
  _unpack_field_value fname k owner "key" None b = Built (ek', b') ->
  round_trips_ fuel owner top (EDictComp ek e (EName "value"))
               (EDictComp ek' e' (EName "value")) (VDict items).
Proof.
  intros Hok Hrt Hek Hek' key key'.
  destruct (items_round_trip fuel owner fname k ok ek e ek' e' b b' items
                             Hok Hrt Hek Hek') as (out & Hp & Hu).
  exists (VDict out). unfold eval_at. cbn.
  rewrite Hp. cbn. rewrite Hu. auto.
Qed.

Lemma chainmap_round_trips (fuel : nat) (owner fname : string) (top : bool)
    (k : ftype) (ok : value -> bool) (ek e ek' e' : expr)
    (b b' : CodeBuilder) (m : value) (maps : list value) :
  forallb (is_VDict_with (items_ok extern fl owner fname k ok)) (m :: maps)
  = true ->
  (forall x, ok x = true -> round_trips_ fuel owner false e e' x) ->
  _pack_value fname k owner "key" = Built ek ->
  _unpack_field_value fname k owner "key" None b = Built (ek', b') ->
  round_trips_ fuel owner top (EChainPack ek e)
               (EChainUnpack ek' e' (EName "value")) (VChainMap (m :: maps)).
Proof.
  intros Hok Hrt Hek Hek' key key'.
  destruct (Forall2_exists
              (fun m w =>
                 exists items out,
                   m = VDict items /\ w = VDict out
                   /\ (forall v0 key0,
                          dict_comp (fun ρ' => (eval_ fuel ρ' ek,
                                                eval_ fuel ρ' e)) items []
                                    (mkEnv v0 key0 owner fl) = Return out)
                   /\ (forall v0 key0,
                          dict_comp (fun ρ' => (eval_ fuel ρ' ek',
                                                eval_ fuel ρ' e')) out []
                                    (mkEnv v0 key0 owner fl) = Return items))
              (m :: maps)) as [ws Hws].
  { intros m0 Hin.
    pose proof (proj1 (forallb_forall _ _) Hok _ Hin) as Hm.
    destruct m0 as [| | | | | | |items| | |]; try discriminate Hm.
    cbn [is_VDict_with] in Hm.
    destruct (items_round_trip fuel owner fname k ok ek e ek' e' b b' items
                               Hm Hrt Hek Hek') as (out & Hp & Hu).
    exists (VDict out), items, out. auto. }
  exists (VSeq KList ws). unfold eval_at. cbn [eval e_value py_getattr].
  cbn [String.eqb Ascii.eqb Bool.eqb py_bind py_iter].
  split; [|split; [|auto]].
  - rewrite (py_mapM_Forall2 _ (m :: maps) ws); [reflexivity|].
    eapply Forall2_impl; [exact Hws|].
    intros m0 w (items & out & -> & -> & Hp & _). cbn. now rewrite Hp.
  - cbn. rewrite (py_mapM_Forall2_back _ (m :: maps) ws); [reflexivity|].
    eapply Forall2_impl; [exact Hws|].
    intros m0 w (items & out & -> & -> & _ & Hu). cbn. now rewrite Hu.
Qed.

(** *** Record types *)

(** The lines of one field, in both routines. *)
Lemma field_round_trip (m : nat) (cls : pycls) (f : string) (ft : ftype)
    (x : value) (pk : string * expr) (p : field_plan) :
  pack_for cls (f, ft) pk ->
  plan_for cls (f, ft) p ->
  (is_None x = true
   \/ forall ep eu b b',
        _pack_value f ft (cls_qualname cls) "value" = Built ep ->
        _unpack_field_value f ft (cls_qualname cls) "value"
                            (metadatas cls !! f) b = Built (eu, b') ->
        round_trips_ m (cls_qualname cls) true ep eu x) ->
  exists w,
    (forall self kw,
        py_getattr extern self f = Return x ->
        to_dict_field extern (eval_ m) cls fl self kw pk
        = Return (dict_set f w kw))
    /\ (forall d kw,
           py_get extern d f = Return w ->
           from_dict_field extern (eval_ m) cls fl d kw p
           = Return (dict_set f x kw)).
Proof.
  intros Hpk Hp Hx. destruct pk as [f' e]. destruct Hpk as [Hf He].
  cbn [fst snd] in Hf, He. subst f'.
  destruct Hp as (Hn & _ & _ & b & b' & Hu). cbn [fst snd] in Hn, Hu.
  destruct (is_None x) eqn:Ex.
  - destruct x; try discriminate Ex. exists VNone. split.
    + intros self kw Hget. unfold to_dict_field. now rewrite Hget.
    + intros d kw Hget. rewrite <- Hn in Hget |- *.
      now apply from_dict_field_None.
  - destruct Hx as [Hx|Hx]; [discriminate Hx|].
    destruct (Hx _ _ _ _ He Hu None None) as (w & Hw & Hw' & Htop).
    destruct (Htop eq_refl) as [Hnone Hmiss].
    unfold eval_at in Hw, Hw'. exists w. split.
    + intros self kw Hget. unfold to_dict_field. rewrite Hget. cbn [py_bind].
      destruct x; try discriminate Ex; now rewrite Hw.
    + intros d kw Hget. rewrite <- Hn in Hget |- *.
      rewrite (from_dict_field_present _ _ _ _ _ _ _ _ Hget).
      * now rewrite Hw'.
      * intros ->. discriminate Hnone.
      * intros ->. discriminate Hmiss.
Qed.

Lemma fields_round_trip (m : nat) (cls : pycls)
    (ok : string -> ftype -> value -> bool) (fs : list (string * ftype)) :
  (forall f ft x, ok f ft x = true ->
     is_None x = true
     \/ forall ep eu b b',
          _pack_value f ft (cls_qualname cls) "value" = Built ep ->
          _unpack_field_value f ft (cls_qualname cls) "value"
                              (metadatas cls !! f) b = Built (eu, b') ->
          round_trips_ m (cls_qualname cls) true ep eu x) ->
  forall (attrs : list (string * value)) (plans : list (string * expr))
         (plans' : list field_plan),
  Forall2 (pack_for cls) fs plans ->
  Forall2 (plan_for cls) fs plans' ->
  attrs_match ok fs attrs = true ->
  exists enc,
    map fst enc = map fst fs
    /\ map fst attrs = map fst fs
    /\ (forall self kw,
           (forall a x, In (a, x) attrs ->
                        py_getattr extern self a = Return x) ->
           to_dict_fields extern (eval_ m) cls fl self kw plans
           = Return (dict_update kw enc))
    /\ (forall d kw,
           (forall a w, In (a, w) enc -> py_get extern d a = Return w) ->
           from_dict_fields extern (eval_ m) cls fl d kw plans'
           = Return (dict_update kw attrs)).
Proof.
  intros Hok. induction fs as [|[f ft] fs IH]; intros attrs plans plans' H1 H2 Ha.
  - inversion H1; subst. inversion H2; subst.
    destruct attrs; [|discriminate Ha]. exists []. repeat split; reflexivity.
  - inversion H1 as [|? pk ? plans0 Hpk H1']; subst.
    inversion H2 as [|? p ? plans0' Hp H2']; subst.
    destruct attrs as [|[a x] attrs]; [discriminate Ha|].
    cbn [attrs_match] in Ha. apply andb_prop in Ha as [Ha Hrest].
    apply andb_prop in Ha as [Hfa Hx]. apply String.eqb_eq in Hfa. subst a.
    destruct (IH attrs plans0 plans0' H1' H2' Hrest)
      as (enc & He1 & He2 & Hto & Hfrom).
    destruct (field_round_trip m cls f ft x pk p Hpk Hp (Hok f ft x Hx))
      as (w & Hw & Hw').
    exists ((f, w) :: enc). cbn [map fst]. repeat split; try congruence.
    + intros self kw Hget. cbn [to_dict_fields].
      rewrite Hw by (apply Hget; now left). cbn [py_bind].
      rewrite Hto by (intros; apply Hget; now right). reflexivity.
    + intros d kw Hget. cbn [from_dict_fields].
      rewrite Hw' by (apply Hget; now left). cbn [py_bind].
      rewrite Hfrom by (intros; apply Hget; now right). reflexivity.
Qed.

(** Both routines of a record type, on an instance whose attributes go
    back and forth and which the constructor rebuilds from them. *)
Lemma dataclass_round_trip (m : nat) (T : string) (cls : pycls)
    (ok : string -> ftype -> value -> bool) (attrs : list (string * value)) :
  dict_get T classes = Some cls ->
  compiles IM cls = true ->
  cls_qualname cls = T ->
  attrs_match ok (field_types cls) attrs = true ->
  construct cls attrs = Return (VObj T attrs) ->
  (forall f ft x, ok f ft x = true ->
     is_None x = true
     \/ forall ep eu b b',
          _pack_value f ft (cls_qualname cls) "value" = Built ep ->
          _unpack_field_value f ft (cls_qualname cls) "value"
                              (metadatas cls !! f) b = Built (eu, b') ->
          round_trips_ m (cls_qualname cls) true ep eu x) ->
  exists d,
    run extern IM classes (S m) (ToDict (VObj T attrs)) fl = Return d
    /\ run extern IM classes (S m) (FromDict T d) fl = Return (VObj T attrs)
    /\ is_Missing d = false /\ is_None d = false.
Proof.
  intros Hcls Hc HT Ha Hcon Hok. unfold compiles in Hc.
  apply andb_prop in Hc as [Hto Hfrom].
  destruct (add_to_dict IM cls new_builder) as [[plans b1]|] eqn:Eto;
    [|discriminate Hto].
  destruct (add_from_dict IM cls new_builder) as [[plans' b2]|] eqn:Efrom;
    [|discriminate Hfrom].
  destruct (fields_round_trip m cls ok (field_types cls) Hok attrs plans plans'
              (add_to_dict_plans _ _ _ _ _ Eto)
              (add_from_dict_plans _ _ _ _ _ Efrom) Ha)
    as (enc & He1 & He2 & Hpack & Hunpack).
  pose proof (field_types_NoDup cls) as Hnd.
  exists (as_dict enc). split; [|split; [|split; reflexivity]].
  - cbn [run]. rewrite Hcls, Eto. unfold to_dict_routine.
    rewrite Hpack.
    + cbn [py_bind]. rewrite dict_update_fresh; [reflexivity|].
      cbn [app]. now rewrite He1.
    + intros a x Hin. cbn [py_getattr].
      rewrite (dict_get_NoDup a x attrs); [reflexivity| |exact Hin].
      now rewrite He2.
  - cbn [run]. rewrite Hcls, Efrom. unfold from_dict_routine.
    rewrite Hunpack.
    + rewrite dict_update_fresh by (cbn [app]; now rewrite He2).
      cbn [app]. exact Hcon.
    + intros a w Hin. unfold as_dict. cbn [py_get].
      rewrite items_get_as_dict.
      rewrite (dict_get_NoDup a w enc); [reflexivity| |exact Hin].
      now rewrite He1.
Qed.

End RoundTripProofs.

(** *** Every valid value *)

Lemma scalar_ok_scalar extern fl (owner fname : string)
    (md : option (list (string * meta_value))) (top : bool) (t : ftype)
    (v : value) :
  scalar_ok extern fl owner fname md top t v = true ->
  is_scalar_type t = true.
Proof. unfold scalar_ok. intros H. now apply andb_prop in H as [H _]. Qed.

Lemma valid_round_trips extern (IM : gset string)
    (classes : list (string * pycls)) (fl : flags) (n : nat) :
  forall (owner fname : string) (md : option (list (string * meta_value)))
         (top : bool) (t : ftype) (v : value),
    valid extern IM classes fl n owner fname md top t v = true ->
    forall (fuel : nat), n <= fuel ->
    forall ep eu b b',
      _pack_value fname t owner "value" = Built ep ->
      _unpack_field_value fname t owner "value" md b = Built (eu, b') ->
      round_trips extern IM classes fl fuel owner top ep eu v.
Proof.
  induction n as [|n IH];
    intros owner fname md top t v Hv fuel Hfuel ep eu b b' Hp Hu;
    [discriminate Hv|].
  assert (Hinner : forall a x,
             valid extern IM classes fl n owner fname None false a x = true ->
             forall ep eu b b',
               _pack_value fname a owner "value" = Built ep ->
               _unpack_field_value fname a owner "value" None b
               = Built (eu, b') ->
               round_trips extern IM classes fl fuel owner false ep eu x).
  { intros a x Hx ep0 eu0 b0 b0' Hp0 Hu0.
    eapply (IH owner fname None false a x Hx fuel); eauto. lia. }
  assert (Hscalar : scalar_ok extern fl owner fname md top t v = true ->
                    round_trips extern IM classes fl fuel owner top ep eu v).
  { intros Hs. eapply scalar_round_trips; eauto. }
  destruct t as [c|c args|T| | | |args| | | | |]; cbn [valid] in Hv;
    try (now apply Hscalar).
  - (* a subscripted type *)
    destruct args as [|k rest]; [now apply Hscalar|].
    destruct (is_mapping_origin c) eqn:Em;
      [|destruct (pyclass_eqb c c_ChainMap) eqn:Ec].
    + destruct rest as [|a rest]; [discriminate Hv|].
      destruct v as [| | | | | | |items| | |]; try discriminate Hv.
      cbn [is_VDict_with] in Hv.
      destruct (pack_mapping_inv _ _ _ _ _ _ _ Em Hp)
        as (ek & e & Hek & He & ->).
      destruct (unpack_mapping_inv _ _ _ _ _ _ _ _ _ _ Em Hu)
        as (ek' & e' & b1 & b2 & b3 & b4 & Hek' & He' & ->).
      eapply mapping_round_trips; [exact Hv| |exact Hek|exact Hek'].
      intros x Hx. eapply Hinner; eauto.
    + destruct c; try discriminate Ec.
      destruct rest as [|a rest]; [discriminate Hv|].
      destruct v as [| | | | | | | |[|m maps]| |]; try discriminate Hv.
      destruct (pack_chainmap_inv _ _ _ _ _ _ Hp)
        as (ek & e & Hek & He & ->).
      destruct (unpack_chainmap_inv _ _ _ _ _ _ _ _ _ Hu)
        as (ek' & e' & b1 & b2 & b3 & b4 & Hek' & He' & ->).
      eapply chainmap_round_trips; [exact Hv| |exact Hek|exact Hek'].
      intros x Hx. eapply Hinner; eauto.
    + destruct (seq_kind_for c) as [kind|] eqn:Ek; [|now apply Hscalar].
      destruct v as [| | | | | |kind' l| | | |]; try discriminate Hv.
      apply andb_prop in Hv as [Hkind Hel].
      apply seq_kind_eqb_eq in Hkind. subst kind'.
      apply andb_prop in Hel as [Hall Hset].
      destruct (pack_sequence_inv _ _ _ _ _ _ _ Ek Hp) as (e & He & ->).
      destruct (unpack_sequence_inv _ _ _ _ _ _ _ _ _ _ Ek Hu)
        as (e' & b1 & b2 & He' & ->).
      apply sequence_round_trips.
      * intros x Hx. eapply Hinner; eauto.
        exact (proj1 (forallb_forall _ _) Hall x Hx).
      * intros Hs. rewrite Hs in Hset. cbn in Hset.
        now apply andb_prop in Hset.
  - (* a record type *)
    destruct v as [| | | | | | | | |T' attrs|]; try discriminate Hv.
    apply andb_prop in Hv as [HT Hv]. apply String.eqb_eq in HT. subst T'.
    destruct (dict_get T classes) as [cls|] eqn:Ecls; [|discriminate Hv].
    apply andb_prop in Hv as [Hv Hcon]. apply andb_prop in Hv as [Hv Hattrs].
    apply andb_prop in Hv as [Hc Hq]. apply String.eqb_eq in Hq.
    destruct (construct cls attrs) as [v'|] eqn:Econ; [|discriminate Hcon].
    apply value_eqb_eq in Hcon. subst v'.
    destruct fuel as [|m]; [lia|].
    destruct (dataclass_round_trip extern IM classes fl m T cls _ attrs
                                   Ecls Hc Hq Hattrs Econ)
      as (d & Hto & Hfrom & Hm & Hnone).
    { intros f ft x Hx. apply orb_prop in Hx as [Hx|Hx]; [now left|right].
      intros ep0 eu0 b0 b0' Hp0 Hu0. rewrite Hq in *.
      eapply (IH T f _ true ft x Hx m); eauto. lia. }
    cbn in Hp. injection Hp as <-.
    cbn in Hu. unfold m_ret in Hu. injection Hu as <- _.
    intros key key'. exists d. unfold eval_at.
    cbn [eval lookup_name String.eqb Ascii.eqb Bool.eqb py_bind e_value
         e_flags].
    rewrite Hto. destruct d; try discriminate Hm; try discriminate Hnone;
      cbn [eval lookup_name String.eqb Ascii.eqb Bool.eqb py_bind e_value
           e_flags]; rewrite Hfrom; auto.
  - (* Optional *)
    destruct args as [|a [|a1 [|]]]; try (now apply Hscalar).
    apply andb_prop in Hv as [Hnone Hv].
    cbn [_pack_value] in Hp. rewrite Hnone in Hp.
    cbn [_unpack_field_value] in Hu. rewrite Hnone in Hu.
    eapply (IH owner fname None top a v Hv fuel); eauto. lia.
Qed.

(** What is valid is equal to a copy of itself. *)
Lemma valid_equals_copy extern (IM : gset string)
    (classes : list (string * pycls)) (fl : flags) (n : nat) :
  forall (owner fname : string) (md : option (list (string * meta_value)))
         (top : bool) (t : ftype) (v : value),
    valid extern IM classes fl n owner fname md top t v = true ->
    equals_copy extern v = true.
Proof.
  induction n as [|n IH]; intros owner fname md top t v Hv;
    [discriminate Hv|].
  assert (Hscalar : scalar_ok extern fl owner fname md top t v = true ->
                    equals_copy extern v = true).
  { unfold scalar_ok. intros H. apply andb_prop in H as [_ H].
    destruct (codec owner fname "value" md t) as [[ep eu]|];
      [|discriminate H].
    unfold inverts in H. apply andb_prop in H as [H _].
    now apply andb_prop in H as [_ H]. }
  assert (Hitems : forall k a items,
             items_ok extern fl owner fname k
                      (valid extern IM classes fl n owner fname None false a)
                      items = true ->
             equals_copy extern (VDict items) = true).
  { intros k a items H. cbn [equals_copy].
    apply andb_prop in H as [H _]. apply andb_prop in H as [H _].
    apply forallb_forall. intros [key x] Hin.
    pose proof (proj1 (forallb_forall _ _) H _ Hin) as Hkx.
    cbn [fst snd] in Hkx. apply andb_prop in Hkx as [Hkey Hx].
    apply andb_true_intro. split; [|eapply IH; eauto].
    unfold key_ok in Hkey. apply andb_prop in Hkey as [_ Hkey].
    destruct (codec owner fname "key" None k) as [[ek eu]|];
      [|discriminate Hkey].
    apply andb_prop in Hkey as [Hkey _]. apply andb_prop in Hkey as [Hkey _].
    unfold inverts in Hkey. apply andb_prop in Hkey as [Hkey _].
    now apply andb_prop in Hkey as [_ Hkey]. }
  destruct t as [c|c args|T| | | |args| | | | |]; cbn [valid] in Hv;
    try (now apply Hscalar).
  - destruct args as [|k rest]; [now apply Hscalar|].
    destruct (is_mapping_origin c) eqn:Em;
      [|destruct (pyclass_eqb c c_ChainMap) eqn:Ec].
    + destruct rest as [|a rest]; [discriminate Hv|].
      destruct v as [| | | | | | |items| | |]; try discriminate Hv.
      eapply Hitems. exact Hv.
    + destruct rest as [|a rest]; [discriminate Hv|].
      destruct v as [| | | | | | | |[|m maps]| |]; try discriminate Hv.
      cbn [equals_copy]. apply forallb_forall. intros m0 Hin.
      pose proof (proj1 (forallb_forall _ _) Hv _ Hin) as Hm.
      destruct m0 as [| | | | | | |items| | |]; try discriminate Hm.
      eapply Hitems. exact Hm.
    + destruct (seq_kind_for c) as [kind|]; [|now apply Hscalar].
      destruct v as [| | | | | |kind' l| | | |]; try discriminate Hv.
      apply andb_prop in Hv as [_ Hel]. apply andb_prop in Hel as [Hall _].
      cbn [equals_copy]. apply forallb_forall. intros x Hx.
      eapply IH. exact (proj1 (forallb_forall _ _) Hall x Hx).
  - destruct v as [| | | | | | | | |T' attrs|]; try discriminate Hv.
    apply andb_prop in Hv as [_ Hv].
    destruct (dict_get T classes) as [cls|]; [|discriminate Hv].
    apply andb_prop in Hv as [Hv _]. apply andb_prop in Hv as [_ Hattrs].
    cbn [equals_copy]. clear Hscalar. revert Hattrs.
    generalize (field_types cls).
    induction attrs as [|[a x] attrs IHa]; intros fs Ha; [reflexivity|].
    destruct fs as [|[f ft] fs]; [discriminate Ha|].
    cbn [attrs_match] in Ha. apply andb_prop in Ha as [Ha Hrest].
    apply andb_prop in Ha as [_ Hx]. cbn [forallb].
    apply andb_true_intro. split; [|eapply IHa; eauto].
    apply orb_prop in Hx as [Hx|Hx]; [now destruct x|eapply IH; eauto].
  - destruct args as [|a [|a1 [|]]]; try (now apply Hscalar).
    apply andb_prop in Hv as [_ Hv]. eapply IH; eauto.
Qed.

(** C1, as the code has it.  For every instance [v] of a record type [T]
    that is valid in the sense of [valid]: every attribute is [None] or a
    value the two routines take back and forth -- a scalar at which the
    library functions of its encoder and decoder invert each other and
    which is equal to a copy of itself; the container the decoder builds
    for a sequence type, sets with distinct hashable elements; a
    dictionary with distinct keys that are written as distinct hashable
    keys; an instance of exactly the declared record type, which the
    constructor rebuilds from its attributes; nothing [None] below the
    top of a field -- [to_dict] returns a dictionary [d], [from_dict] on
    [d] returns an instance with the attributes of [v], and that instance
    [== v]; with the same flags on both sides, whatever they are. *)
Theorem to_dict_from_dict_round_trip extern (IM : gset string)
    (classes : list (string * pycls)) (fl : flags) (n fuel : nat)
    (T : string) (v : value) :
  valid_instance extern IM classes fl n T v = true ->
  n <= fuel ->
  exists d,
    to_dict extern IM classes fuel v fl = Return d
    /\ from_dict extern IM classes fuel T d fl = Return v
    /\ equals_copy extern v = true.
Proof.
  unfold valid_instance. intros Hv Hfuel.
  destruct (valid_round_trips extern IM classes fl n "" "" None true
              (TDataclass T) v Hv fuel Hfuel (EToDict (EName "value"))
              (EFromDict T (EName "value")) new_builder new_builder
              eq_refl eq_refl None None)
    as (d & Hto & Hfrom & _).
  pose proof (valid_equals_copy extern IM classes fl n _ _ _ _ _ _ Hv) as Heq.
  destruct n as [|n]; [discriminate Hv|].
  destruct v; try discriminate Hv.
  exists d. unfold eval_at in Hto, Hfrom.
  split; [exact Hto|]. split; [exact Hfrom|exact Heq].
Qed.

(** C1, as stated, fails.  A tuple in a field annotated [Sequence[int]]
    comes back as a list: [Points(xs=(1, 2))] is written as
    [{"xs": [1, 2]}] and read as [Points(xs=[1, 2])]. *)
Lemma round_trip_turns_tuple_into_list :
  compiles ∅ Points = true
  /\ to_dict no_library ∅ shop_classes 1
             (VObj "app.Points" [("xs", VSeq KTuple [VInt 1; VInt 2])])
             no_flags
     = Return (VDict [(VStr "xs", VSeq KList [VInt 1; VInt 2])])
  /\ from_dict no_library ∅ shop_classes 1 "app.Points"
               (VDict [(VStr "xs", VSeq KList [VInt 1; VInt 2])]) no_flags
     = Return (VObj "app.Points" [("xs", VSeq KList [VInt 1; VInt 2])])
  /\ VObj "app.Points" [("xs", VSeq KList [VInt 1; VInt 2])]
     <> VObj "app.Points" [("xs", VSeq KTuple [VInt 1; VInt 2])].
Proof.
  split; [vm_compute; reflexivity|].
  split; [vm_compute; reflexivity|].
  split; [vm_compute; reflexivity|].
  discriminate.
Qed.

Lemma to_dict_from_dict_round_trip_witness :
  valid_instance small_library ∅ billing_classes no_flags 6 "app.Invoice"
                 (an_invoice "-12.340") = true
  /\ 6 <= 6
  /\ exists d,
      to_dict small_library ∅ billing_classes 6 (an_invoice "-12.340")
              no_flags = Return d
      /\ from_dict small_library ∅ billing_classes 6 "app.Invoice" d no_flags
         = Return (an_invoice "-12.340")
      /\ equals_copy small_library (an_invoice "-12.340") = true.
Proof.
  split; [vm_compute; reflexivity|].
  split; [exact (le_n 6)|].
  apply (to_dict_from_dict_round_trip small_library ∅ billing_classes no_flags
           6 6 "app.Invoice" (an_invoice "-12.340")).
  - vm_compute. reflexivity.
  - exact (le_n 6).
Defined.

(** What [to_dict] writes for this invoice. *)
Example an_invoice_written :
  to_dict small_library ∅ billing_classes 6 (an_invoice "-12.340") no_flags
  = Return
      (VDict
         [(VStr "number", VStr "12345678-1234-5678-1234-567812345670");
          (VStr "total", VStr "-12.340");
          (VStr "lines",
           VDict [(VStr "12345678-1234-5678-1234-567812345671", VStr "1.50");
                  (VStr "12345678-1234-5678-1234-567812345672", VStr "2E+3")]);
          (VStr "issued", VStr "2020-02-29");
          (VStr "colour", VStr "red");
          (VStr "rates",
           VSeq KList [VForeign "float" "0.25"; VForeign "float" "1e-07"]);
          (VStr "order",
           VDict [(VStr "id", VInt 5);
                  (VStr "tags", VSeq KList [VStr "a"; VStr "b"]);
                  (VStr "prices",
                   VDict [(VStr "a", VInt 1); (VStr "b", VInt 2)]);
                  (VStr "pair", VDict [(VStr "x", VInt 1); (VStr "y", VNone)]);
                  (VStr "seen", VSeq KList [VInt 3; VInt 4]);
                  (VStr "codes", VSeq KList [VInt 1; VInt 2])])]).
Proof. vm_compute. reflexivity. Qed.

(** An instance of a subtype in a field of the base type is written by
    the routine of the subtype and read by the routine of the base type:
    [Holder(b=Sub(x=1, y=2))] comes back as [Holder(b=Base(x=1))]. *)
Example subtype_read_as_declared_type :
  py_bind (to_dict no_library ∅ shop_classes 2
                   (VObj "app.Holder"
                         [("b", VObj "app.Sub" [("x", VInt 1); ("y", VInt 2)])])
                   no_flags)
          (fun d => from_dict no_library ∅ shop_classes 2 "app.Holder" d
                              no_flags)
  = Return (VObj "app.Holder" [("b", VObj "app.Base" [("x", VInt 1)])]).
Proof. vm_compute. reflexivity. Qed.

(** [None] inside a container is handed to the encoder of the element
    type: [codes: List[Optional[int]]] holding [[None]] makes [to_dict]
    raise the [TypeError] of [int(None)]. *)
Example None_in_a_list_is_not_written :
  exists msg,
    to_dict no_library ∅ shop_classes 2 (an_order (VSeq KList [VNone]))
            no_flags
    = Raise (Exn (TypeError msg) None).
Proof. eexists. vm_compute. reflexivity. Qed.

(** A scalar that is not equal to a copy of itself: [Decimal("NaN")] is
    written as ["NaN"] and read back as a NaN, and a NaN is unequal to
    every decimal. *)
Example NaN_comes_back_unequal :
  exists d,
    to_dict small_library ∅ billing_classes 6 (an_invoice "NaN") no_flags
    = Return d
    /\ from_dict small_library ∅ billing_classes 6 "app.Invoice" d no_flags
       = Return (an_invoice "NaN")
    /\ small_library "==" [VForeign "decimal.Decimal" "NaN";
                           VForeign "decimal.Decimal" "NaN"]
       = Return (VBool false)
    /\ equals_copy small_library (an_invoice "NaN") = false.
Proof. eexists. repeat split; vm_compute; reflexivity. Qed.

(** An [InitVar] is a parameter of the constructor and not a field:
    [Vars(c=1, b=2)] is written as [{"c": 1}], and [from_dict] calls
    [Vars(c=1)], which raises a [TypeError]. *)
Example InitVar_is_not_passed :
  compiles ∅ Vars = true
  /\ to_dict no_library ∅ billing_classes 1 (VObj "app.Vars" [("c", VInt 1)])
             no_flags
     = Return (VDict [(VStr "c", VInt 1)])
  /\ from_dict no_library ∅ billing_classes 1 "app.Vars"
               (VDict [(VStr "c", VInt 1)]) no_flags
     = Raise (Exn (TypeError
                     "__init__() missing 1 required positional argument: 'b'")
                  None).
Proof. repeat split; vm_compute; reflexivity. Qed.

(** A field declared with [init=False] is written by [to_dict] and passed
    to the constructor by [from_dict], which does not take it:
    [Stamp(at=1)] is written as [{"at": 1, "seq": 0}], and [from_dict]
    raises a [TypeError] on it. *)
Example init_False_field_is_passed :
  compiles ∅ Stamp = true
  /\ construct Stamp [("at", VInt 1)]
     = Return (VObj "app.Stamp" [("at", VInt 1); ("seq", VInt 0)])
  /\ to_dict no_library ∅ billing_classes 1
             (VObj "app.Stamp" [("at", VInt 1); ("seq", VInt 0)]) no_flags
     = Return (VDict [(VStr "at", VInt 1); (VStr "seq", VInt 0)])
  /\ from_dict no_library ∅ billing_classes 1 "app.Stamp"
               (VDict [(VStr "at", VInt 1); (VStr "seq", VInt 0)]) no_flags
     = Raise (Exn (TypeError
                     "__init__() got an unexpected keyword argument 'seq'")
                  None).
Proof. repeat split; vm_compute; reflexivity. Qed.

(** The constructor names every argument it misses. *)
Example constructor_names_missing_arguments :
  construct Pair []
  = Raise (Exn (TypeError
                  "__init__() missing 1 required positional argument: 'x'")
               None)
  /\ construct Vars []
     = Raise (Exn (TypeError
                     "__init__() missing 2 required positional arguments: 'c' and 'b'")
                  None).
Proof. split; vm_compute; reflexivity. Qed.

(** * Further properties of the builder *)

(** ** The fields of a record type *)

(** X1.  The fields of a record type are its resolved type hints, each with
    the hinted type, but for the [ClassVar] and [InitVar] ones; without
    [recursive], only the names annotated in the body of the class
    itself. *)
Theorem get_field_types_lookup (cls : pycls) (recursive : bool) (f : string) :
  dict_get f (get_field_types cls recursive)
  = match dict_get f (get_type_hints cls) with
    | Some t =>
        if is_class_var t || is_init_var t then None
        else if recursive || in_keys f (annotations cls) then Some t
             else None
    | None => None
    end.
Proof.
  unfold get_field_types.
  rewrite get_field_types_fold by apply get_type_hints_NoDup.
  reflexivity.
Qed.

Lemma metadatas_fold (ns : list (string * ns_entry)) (f : string)
    (l : list (string * ftype)) (d : gmap string (list (string * meta_value))) :
  fold_left
    (fun d '(name, _) =>
       match dict_get name ns with
       | Some (NSField fld) => <[ name := f_metadata fld ]> d
       | _ => d
       end) l d !! f
  = if in_keys f l
    then match dict_get f ns with
         | Some (NSField fld) => Some (f_metadata fld)
         | _ => d !! f
         end
    else d !! f.
Proof.
  revert d. induction l as [|[k t] l IH]; intros d; [reflexivity|].
  cbn [fold_left]. rewrite IH. unfold in_keys. cbn [dict_get].
  destruct (String.eqb f k) eqn:E.
  - apply String.eqb_eq in E. subst k.
    destruct (dict_get f ns) as [[fld|v]|] eqn:En.
    + destruct (dict_get f l); rewrite ?lookup_insert_eq; reflexivity.
    + now destruct (dict_get f l).
    + now destruct (dict_get f l).
  - apply String.eqb_neq in E.
    assert (Hd : match dict_get k ns with
                 | Some (NSField fld) => <[ k := f_metadata fld ]> d
                 | _ => d
                 end !! f = d !! f).
    { destruct (dict_get k ns) as [[fld|v]|]; try reflexivity.
      apply lookup_insert_ne. congruence. }
    rewrite Hd. reflexivity.
Qed.

(** X2.  Metadata is collected for the names annotated in the body of the
    class being built whose class attribute is a [dataclasses.Field], and
    for no other: a field inherited from a base class has no entry, with
    whatever metadata the base class declared it. *)
Theorem metadatas_lookup (cls : pycls) (f : string) :
  metadatas cls !! f
  = match dict_get f (get_type_hints cls), dict_get f (namespace cls) with
    | Some t, Some (NSField fld) =>
        if is_class_var t || is_init_var t then None
        else if in_keys f (annotations cls) then Some (f_metadata fld)
             else None
    | _, _ => None
    end.
Proof.
  unfold metadatas. rewrite metadatas_fold. unfold in_keys at 1.
  unfold get_field_types.
  rewrite get_field_types_fold by apply get_type_hints_NoDup.
  cbn [dict_get orb].
  destruct (dict_get f (get_type_hints cls)) as [t|]; [|reflexivity].
  destruct (is_class_var t || is_init_var t);
    [now destruct (dict_get f (namespace cls)) as [[fld|v]|]|].
  destruct (in_keys f (annotations cls));
    now destruct (dict_get f (namespace cls)) as [[fld|v]|].
Qed.

(** ** Fields the builder cannot generate *)

Lemma add_from_dict_field_KeyError (cls : pycls) (fname : string) (t : ftype)
    (b : CodeBuilder) :
  defaults cls !! fname = None ->
  add_from_dict_field cls (fname, t) b = BuildError (BuildKeyError fname).
Proof.
  intros H. unfold add_from_dict_field, m_bind, m_add_line, m_do, m_indent,
    m_fail. now rewrite H.
Qed.

(** X3.  A field that [defaults] does not know -- annotated on a base class
    that is not a dataclass, so neither among the fields of a dataclass
    ancestor nor among the annotations of the class itself -- stops
    [add_from_dict] with the [KeyError] of [self.defaults[fname]], once
    the fields before it are generated. *)
Theorem add_from_dict_KeyError (IM : gset string) (cls : pycls)
    (fname : string) (t : ftype) (pre post : list (string * ftype))
    (b : CodeBuilder) :
  field_types cls = (pre ++ (fname, t) :: post)%list ->
  defaults cls !! fname = None ->
  (forall f b', In f pre -> is_built (add_from_dict_field cls f b') = true) ->
  add_from_dict IM cls b = BuildError (BuildKeyError fname).
Proof.
  intros Hfields Hd Hpre.
  destruct (add_from_dict_loop IM cls b) as (b0 & fin & ->).
  rewrite Hfields.
  rewrite (m_for_first_failure (add_from_dict_field cls) pre post (fname, t)
             (BuildKeyError fname)); [reflexivity| |].
  - intros y b' Hy. now apply Hpre.
  - intros b'. now apply add_from_dict_field_KeyError.
Qed.

Lemma add_from_dict_KeyError_witness :
  field_types Child = ([] ++ ("x", TClass c_int) :: [("y", TClass c_int)])%list
  /\ defaults Child !! "x" = None
  /\ add_from_dict ∅ Child new_builder = BuildError (BuildKeyError "x").
Proof.
  assert (H1 : field_types Child
               = ([] ++ ("x", TClass c_int) :: [("y", TClass c_int)])%list)
    by reflexivity.
  assert (H2 : defaults Child !! "x" = None) by (vm_compute; reflexivity).
  split; [exact H1|]. split; [exact H2|].
  apply (add_from_dict_KeyError ∅ Child "x" (TClass c_int) []
           [("y", TClass c_int)] new_builder H1 H2).
  intros f b' [].
Defined.

Lemma pack_dataclass_key (fname parent vn : string) (c : pyclass)
    (K : string) (rest : list ftype) :
  is_mapping_origin c = true \/ c = c_ChainMap ->
  _pack_value fname (TGeneric c (TDataclass K :: rest)) parent vn
  = BuildError (dataclass_key_error c).
Proof.
  intros [H| ->]; [destruct c; try discriminate H|]; reflexivity.
Qed.

Lemma unpack_dataclass_key (fname parent vn : string) (c : pyclass)
    (K : string) (rest : list ftype)
    (md : option (list (string * meta_value))) (b : CodeBuilder) :
  is_mapping_origin c = true \/ c = c_ChainMap ->
  _unpack_field_value fname (TGeneric c (TDataclass K :: rest)) parent vn md b
  = BuildError (dataclass_key_error c).
Proof.
  intros [H| ->]; [destruct c; try discriminate H|]; reflexivity.
Qed.

(** X4.  [Dict], [Mapping] and [ChainMap] with a record type as the key type:
    neither expression is built, the error is [UnserializableDataError]
    with the message for mappings or for chain maps, and it is the error
    of the whole build once the fields before it are generated (and, for
    [from_dict], [defaults] knows the field). *)
Theorem dataclass_keys_fail_at_build (IM : gset string) (cls : pycls)
    (fname : string) (c : pyclass) (K : string) (rest : list ftype)
    (pre post : list (string * ftype)) :
  is_mapping_origin c = true \/ c = c_ChainMap ->
  field_types cls
  = (pre ++ (fname, TGeneric c (TDataclass K :: rest)) :: post)%list ->
  (forall b,
      (forall f b', In f pre ->
                    is_built (add_to_dict_field cls f b') = true) ->
      add_to_dict IM cls b = BuildError (dataclass_key_error c))
  /\ (forall b,
         (forall f b', In f pre ->
                       is_built (add_from_dict_field cls f b') = true) ->
         defaults cls !! fname <> None ->
         add_from_dict IM cls b = BuildError (dataclass_key_error c)).
Proof.
  intros Hc Hfields. split.
  - intros b Hpre. destruct (add_to_dict_loop IM cls b) as (b0 & fin & ->).
    rewrite Hfields.
    rewrite (m_for_first_failure (add_to_dict_field cls) pre post _
               (dataclass_key_error c)); [reflexivity| |].
    + intros y b' Hy. now apply Hpre.
    + intros b'. apply add_to_dict_field_fails. intros vn.
      now apply pack_dataclass_key.
  - intros b Hpre Hd. destruct (add_from_dict_loop IM cls b) as (b0 & fin & ->).
    rewrite Hfields.
    rewrite (m_for_first_failure (add_from_dict_field cls) pre post _
               (dataclass_key_error c)); [reflexivity| |].
    + intros y b' Hy. now apply Hpre.
    + intros b'.
      rewrite (add_from_dict_field_fails cls fname _ (dataclass_key_error c) b')
        by (intros; now apply unpack_dataclass_key).
      now destruct (defaults cls !! fname).
Qed.

Lemma dataclass_keys_fail_at_build_witness :
  (is_mapping_origin c_dict = true \/ c_dict = c_ChainMap)
  /\ field_types Index
     = ([] ++ ("by_pair", TGeneric c_dict [TDataclass "app.Pair"; TClass c_int])
           :: [])%list
  /\ add_to_dict ∅ Index new_builder
     = BuildError (UnserializableDataError
         "Mappings with dataclasses as keys are not supported by mashumaro")
  /\ add_from_dict ∅ Index new_builder
     = BuildError (UnserializableDataError
         "Mappings with dataclasses as keys are not supported by mashumaro").
Proof.
  assert (H1 : is_mapping_origin c_dict = true \/ c_dict = c_ChainMap)
    by (left; reflexivity).
  assert (H2 : field_types Index
               = ([] ++ ("by_pair",
                         TGeneric c_dict [TDataclass "app.Pair"; TClass c_int])
                     :: [])%list) by reflexivity.
  destruct (dataclass_keys_fail_at_build ∅ Index "by_pair" c_dict "app.Pair"
              [TClass c_int] [] [] H1 H2) as [Hto Hfrom].
  split; [exact H1|]. split; [exact H2|]. split.
  - apply Hto. intros f b' [].
  - apply Hfrom; [intros f b' []|]. vm_compute. discriminate.
Defined.

(** ** What the generated routines return *)

Lemma plans_names (cls : pycls) (fs : list (string * ftype))
    (plans : list field_plan) :
  Forall2 (plan_for cls) fs plans -> map fp_name plans = map fst fs.
Proof.
  induction 1 as [|x y xs ys (Hn & _) _ IH]; cbn; [reflexivity|].
  now rewrite Hn, IH.
Qed.

Lemma pack_names (cls : pycls) (fs : list (string * ftype))
    (plans : list (string * expr)) :
  Forall2 (pack_for cls) fs plans -> map fst plans = map fst fs.
Proof.
  induction 1 as [|x y xs ys (Hn & _) _ IH]; cbn; [reflexivity|].
  now rewrite Hn, IH.
Qed.

(** What the lines of [to_dict] leave in [kwargs]: one entry per field,
    [None] for an attribute that is [None], the value of the encoding
    expression otherwise. *)
Lemma to_dict_fields_inv extern ev (cls : pycls) (fl : flags) (self : value)
    (plans : list (string * expr)) (kw kw' : list (string * value)) :
  to_dict_fields extern ev cls fl self kw plans = Return kw' ->
  exists ws,
    Forall2 (fun p w =>
               exists x,
                 py_getattr extern self (fst p) = Return x
                 /\ (x = VNone -> w = VNone)
                 /\ (x <> VNone ->
                     ev (mkEnv x None (cls_qualname cls) fl) (snd p)
                     = Return w))
            plans ws
    /\ kw' = dict_update kw (combine (map fst plans) ws).
Proof.
  revert kw. induction plans as [|[f e] plans IH]; intros kw H.
  - cbn in H. injection H as <-. exists []. split; [constructor|reflexivity].
  - cbn [to_dict_fields] in H. unfold py_bind at 1 in H.
    destruct (to_dict_field extern ev cls fl self kw (f, e)) as [kw1|]
      eqn:E; [|discriminate H].
    destruct (IH _ H) as (ws & Hws & ->).
    unfold to_dict_field, py_bind in E.
    destruct (py_getattr extern self f) as [x|] eqn:Ex; [|discriminate E].
    assert (Hw : exists w,
               kw1 = dict_set f w kw
               /\ (x = VNone -> w = VNone)
               /\ (x <> VNone ->
                   ev (mkEnv x None (cls_qualname cls) fl) e = Return w)).
    { destruct x;
        try (destruct (ev _ e) as [w|] eqn:Ew; [|discriminate E];
             injection E as <-; exists w; repeat split; congruence).
      injection E as <-. exists VNone. repeat split; congruence. }
    destruct Hw as (w & -> & Hnone & Hval).
    exists (w :: ws). split; [|reflexivity].
    constructor; [|exact Hws]. exists x. cbn [fst snd]. auto.
Qed.

Lemma combine_keys {A B} (l : list A) (l' : list B) :
  length l = length l' -> map fst (combine l l') = l.
Proof.
  revert l'. induction l as [|x l IH]; intros [|y l'] H; try discriminate H;
    cbn; [reflexivity|]. f_equal. apply IH. now injection H.
Qed.

Lemma to_dict_inv extern (IM : gset string) (classes : list (string * pycls))
    (fuel : nat) (c : string) (attrs : list (string * value)) (fl : flags)
    (cls : pycls) (d : value) :
  dict_get c classes = Some cls ->
  to_dict extern IM classes fuel (VObj c attrs) fl = Return d ->
  exists n plans b ws,
    fuel = S n
    /\ add_to_dict IM cls new_builder = Built (plans, b)
    /\ Forall2 (fun p w =>
                  exists x,
                    py_getattr extern (VObj c attrs) (fst p) = Return x
                    /\ (x = VNone -> w = VNone)
                    /\ (x <> VNone ->
                        eval extern (run extern IM classes n)
                             (mkEnv x None (cls_qualname cls) fl) (snd p)
                        = Return w))
               plans ws
    /\ d = as_dict (combine (map fst (field_types cls)) ws).
Proof.
  intros Hc H. unfold to_dict in H. destruct fuel as [|n]; [discriminate H|].
  cbn [run] in H. rewrite Hc in H.
  destruct (add_to_dict IM cls new_builder) as [[plans b]|] eqn:E;
    [|discriminate H].
  unfold to_dict_routine, py_bind in H.
  destruct (to_dict_fields _ _ _ _ _ _ _) as [kw|] eqn:Ef; [|discriminate H].
  injection H as <-.
  destruct (to_dict_fields_inv _ _ _ _ _ _ _ _ Ef) as (ws & Hws & ->).
  exists n, plans, b, ws. repeat split; try assumption.
  pose proof (pack_names _ _ _ (add_to_dict_plans _ _ _ _ _ E)) as Hn.
  rewrite Hn. rewrite dict_update_fresh; [reflexivity|].
  cbn [app]. rewrite combine_keys.
  - apply field_types_NoDup.
  - rewrite <- Hn, length_map. eapply Forall2_length; eauto.
Qed.

(** X5.  The dictionary [to_dict] returns has one key per field of the class
    of the instance, the names of the fields in field order, and nothing
    else. *)
Theorem to_dict_keys extern (IM : gset string)
    (classes : list (string * pycls)) (fuel : nat) (c : string)
    (attrs : list (string * value)) (fl : flags) (cls : pycls) (d : value) :
  dict_get c classes = Some cls ->
  to_dict extern IM classes fuel (VObj c attrs) fl = Return d ->
  exists items,
    d = VDict items
    /\ map fst items = map VStr (map fst (field_types cls)).
Proof.
  intros Hc H.
  destruct (to_dict_inv _ _ _ _ _ _ _ _ _ Hc H)
    as (n & plans & b & ws & _ & E & Hws & ->).
  eexists. split; [reflexivity|].
  rewrite map_map. cbn [fst].
  rewrite <- (map_map fst VStr). f_equal. apply combine_keys.
  pose proof (pack_names _ _ _ (add_to_dict_plans _ _ _ _ _ E)) as Hn.
  rewrite <- Hn, length_map. eapply Forall2_length; eauto.
Qed.

Lemma to_dict_keys_witness :
  dict_get "app.Pair" app_classes = Some Pair
  /\ to_dict no_library ∅ app_classes 1
             (VObj "app.Pair" [("x", VInt 1); ("y", VNone)]) no_flags
     = Return (VDict [(VStr "x", VInt 1); (VStr "y", VNone)])
  /\ exists items,
      VDict [(VStr "x", VInt 1); (VStr "y", VNone)] = VDict items
      /\ map fst items = map VStr (map fst (field_types Pair)).
Proof.
  assert (H1 : dict_get "app.Pair" app_classes = Some Pair) by reflexivity.
  assert (H2 : to_dict no_library ∅ app_classes 1
                       (VObj "app.Pair" [("x", VInt 1); ("y", VNone)]) no_flags
               = Return (VDict [(VStr "x", VInt 1); (VStr "y", VNone)]))
    by (vm_compute; reflexivity).
  split; [exact H1|]. split; [exact H2|].
  exact (to_dict_keys no_library ∅ app_classes 1 "app.Pair"
           [("x", VInt 1); ("y", VNone)] no_flags Pair _ H1 H2).
Defined.

Lemma dict_get_present {V} (k : string) (d : list (string * V)) :
  In k (map fst d) -> exists v, dict_get k d = Some v.
Proof.
  induction d as [|[k' v'] d IH]; cbn; [tauto|].
  destruct (String.eqb k k') eqn:E; [eauto|].
  intros [->|H]; [now rewrite String.eqb_refl in E|auto].
Qed.

Lemma Forall2_combine_In {A B C} (R : A -> C -> Prop) (g : A -> B)
    (l : list A) (ws : list C) (k : B) (w : C) :
  Forall2 R l ws -> In (k, w) (combine (map g l) ws) ->
  exists p, In p l /\ g p = k /\ R p w.
Proof.
  induction 1 as [|p w' l ws Hp _ IH]; cbn; [tauto|].
  intros [[= <- <-]|Hin]; [exists p; auto|].
  destruct (IH Hin) as (q & Hq & Hg & Hr). exists q. auto.
Qed.

Lemma pack_of_plan (cls : pycls) (fs : list (string * ftype))
    (plans : list (string * expr)) (p : string * expr) :
  Forall2 (pack_for cls) fs plans -> In p plans ->
  exists t, In (fst p, t) fs
            /\ _pack_value (fst p) t (cls_qualname cls) "value"
               = Built (snd p).
Proof.
  induction 1 as [|[f t] y xs ys (Hn & He) _ IH]; [intros []|].
  intros [->|Hin].
  - exists t. cbn [fst snd] in *. rewrite Hn. split; [now left|exact He].
  - destruct (IH Hin) as (t' & Ht & Hp). exists t'. split; [now right|exact Hp].
Qed.

(** X6.  Every entry of the dictionary [to_dict] returns: [None] for an
    attribute that is [None], whatever the type of the field; otherwise
    the value of the expression [_pack_value] builds for the type of the
    field, on the attribute. *)
Theorem to_dict_entries extern (IM : gset string)
    (classes : list (string * pycls)) (fuel : nat) (c : string)
    (attrs : list (string * value)) (fl : flags) (cls : pycls) (d : value)
    (f : string) :
  dict_get c classes = Some cls ->
  to_dict extern IM classes fuel (VObj c attrs) fl = Return d ->
  In f (map fst (field_types cls)) ->
  exists x w t e,
    py_getattr extern (VObj c attrs) f = Return x
    /\ py_get extern d f = Return w
    /\ In (f, t) (field_types cls)
    /\ _pack_value f t (cls_qualname cls) "value" = Built e
    /\ (x = VNone -> w = VNone)
    /\ (x <> VNone ->
        eval extern (run extern IM classes (pred fuel))
             (mkEnv x None (cls_qualname cls) fl) e = Return w).
Proof.
  intros Hc H Hf.
  destruct (to_dict_inv _ _ _ _ _ _ _ _ _ Hc H)
    as (n & plans & b & ws & -> & E & Hws & ->).
  pose proof (add_to_dict_plans _ _ _ _ _ E) as Hplans.
  pose proof (pack_names _ _ _ Hplans) as Hn.
  assert (Hlen : length (map fst (field_types cls)) = length ws).
  { rewrite <- Hn, length_map. eapply Forall2_length; eauto. }
  destruct (dict_get_present f (combine (map fst (field_types cls)) ws))
    as [w Hw]; [now rewrite combine_keys|].
  pose proof (dict_get_In _ _ _ Hw) as Hin. rewrite <- Hn in Hin.
  destruct (Forall2_combine_In _ fst _ _ _ _ Hws Hin)
    as ([f' e] & Hp & Hfe & x & Hx & Hnone & Hval).
  cbn [fst snd] in *. subst f'.
  destruct (pack_of_plan _ _ _ _ Hplans Hp) as (t & Ht & He).
  exists x, w, t, e. cbn [fst snd pred] in *. repeat split; try assumption.
  unfold as_dict. cbn [py_get]. now rewrite items_get_as_dict, Hw.
Qed.

Lemma to_dict_entries_witness :
  dict_get "app.Pair" app_classes = Some Pair
  /\ In "y" (map fst (field_types Pair))
  /\ py_get no_library (VDict [(VStr "x", VInt 1); (VStr "y", VNone)]) "y"
     = Return VNone.
Proof.
  assert (H1 : dict_get "app.Pair" app_classes = Some Pair) by reflexivity.
  assert (H2 : to_dict no_library ∅ app_classes 1
                       (VObj "app.Pair" [("x", VInt 1); ("y", VNone)]) no_flags
               = Return (VDict [(VStr "x", VInt 1); (VStr "y", VNone)]))
    by (vm_compute; reflexivity).
  assert (H3 : In "y" (map fst (field_types Pair))) by (right; left; reflexivity).
  split; [exact H1|]. split; [exact H3|].
  destruct (to_dict_entries no_library ∅ app_classes 1 "app.Pair"
              [("x", VInt 1); ("y", VNone)] no_flags Pair _ "y" H1 H2 H3)
    as (x & w & t & e & Hx & Hw & _ & _ & Hnone & _).
  injection Hx as <-. rewrite (Hnone eq_refl) in Hw. exact Hw.
Defined.

Lemma to_dict_fields_app extern ev cls fl (self : value)
    (kw : list (string * value)) (l1 l2 : list (string * expr)) :
  to_dict_fields extern ev cls fl self kw (l1 ++ l2)
  = py_bind (to_dict_fields extern ev cls fl self kw l1)
            (fun kw' => to_dict_fields extern ev cls fl self kw' l2).
Proof.
  revert kw. induction l1 as [|p l1 IH]; intros kw; [reflexivity|].
  cbn [app to_dict_fields]. unfold py_bind at 1 3.
  destruct (to_dict_field extern ev cls fl self kw p); [apply IH|reflexivity].
Qed.

Lemma pack_split (cls : pycls) (plans : list (string * expr))
    (pre post : list (string * ftype)) (field : string * ftype) :
  Forall2 (pack_for cls) (field_types cls) plans ->
  field_types cls = (pre ++ field :: post)%list ->
  exists ppre p ppost,
    plans = (ppre ++ p :: ppost)%list
    /\ length ppre = length pre
    /\ pack_for cls field p.
Proof.
  intros HF Hsplit. rewrite Hsplit in HF.
  apply Forall2_app_inv_l in HF as (ppre & rest & Hpre & Hrest & ->).
  inversion Hrest as [|? p ? ppost Hp Hpost]; subst.
  exists ppre, p, ppost. repeat split; try apply Hp.
  symmetry. eapply Forall2_length; eauto.
Qed.

(** X7.  [to_dict] has no error boundary: when the encoding expression of a
    field raises on an attribute that is not [None], and the fields
    before it were written, [to_dict] raises that very exception; it is
    not wrapped the way [from_dict] wraps the errors of a field. *)
Theorem to_dict_raises_unwrapped extern (IM : gset string)
    (classes : list (string * pycls)) (n : nat) (c : string)
    (attrs : list (string * value)) (fl : flags) (cls : pycls)
    (plans : list (string * expr)) (b : CodeBuilder)
    (fname : string) (t : ftype) (pre post : list (string * ftype))
    (x : value) :
  dict_get c classes = Some cls ->
  add_to_dict IM cls new_builder = Built (plans, b) ->
  field_types cls = (pre ++ (fname, t) :: post)%list ->
  py_getattr extern (VObj c attrs) fname = Return x ->
  x <> VNone ->
  let ev := eval extern (run extern IM classes n) in
  exists encode,
    _pack_value fname t (cls_qualname cls) "value" = Built encode
    /\ forall kw e,
        to_dict_fields extern ev cls fl (VObj c attrs) []
                       (firstn (length pre) plans) = Return kw ->
        ev (mkEnv x None (cls_qualname cls) fl) encode = Raise e ->
        to_dict extern IM classes (S n) (VObj c attrs) fl = Raise e.
Proof.
  intros Hc Hb Hsplit Hget Hx ev.
  destruct (pack_split _ _ _ _ _ (add_to_dict_plans _ _ _ _ _ Hb) Hsplit)
    as (ppre & [f' encode] & ppost & -> & Hlen & Hn & He).
  cbn [fst snd] in Hn, He. subst f'.
  exists encode. split; [exact He|]. intros kw e Hpre Hraise.
  rewrite <- Hlen, firstn_app, Nat.sub_diag, firstn_all in Hpre.
  cbn [firstn] in Hpre. rewrite app_nil_r in Hpre.
  unfold to_dict. cbn [run]. rewrite Hc, Hb. unfold to_dict_routine.
  rewrite to_dict_fields_app. fold ev. rewrite Hpre.
  cbn [py_bind to_dict_fields]. unfold to_dict_field. rewrite Hget.
  cbn [py_bind]. destruct x; try (now rewrite Hraise). contradiction.
Qed.

Lemma to_dict_raises_unwrapped_witness :
  dict_get "app.Pair" app_classes = Some Pair
  /\ field_types Pair = ([] ++ ("x", TClass c_int) :: [("y", TClass c_int)])%list
  /\ VStr "oops" <> VNone
  /\ to_dict no_library ∅ app_classes 1
             (VObj "app.Pair" [("x", VStr "oops"); ("y", VInt 2)]) no_flags
     = Raise (Exn (ValueError "invalid literal for int() with base 10: 'oops'")
                  None).
Proof.
  assert (H1 : dict_get "app.Pair" app_classes = Some Pair) by reflexivity.
  assert (H2 : field_types Pair
               = ([] ++ ("x", TClass c_int) :: [("y", TClass c_int)])%list)
    by reflexivity.
  assert (H3 : VStr "oops" <> VNone) by discriminate.
  split; [exact H1|]. split; [exact H2|]. split; [exact H3|].
  destruct (add_to_dict ∅ Pair new_builder) as [[plans b]|] eqn:E;
    [|vm_compute in E; discriminate E].
  destruct (to_dict_raises_unwrapped no_library ∅ app_classes 0 "app.Pair"
              [("x", VStr "oops"); ("y", VInt 2)] no_flags Pair plans b
              "x" (TClass c_int) [] [("y", TClass c_int)] (VStr "oops")
              H1 E H2 eq_refl H3) as (encode & He & H).
  vm_compute in He. injection He as <-.
  apply (H []); reflexivity.
Defined.

(** ** What [from_dict] reads *)

Lemma plan_of_name (cls : pycls) (fs : list (string * ftype))
    (plans : list field_plan) (p : field_plan) :
  Forall2 (plan_for cls) fs plans -> In p plans ->
  In (fp_name p) (map fst fs).
Proof.
  intros HF Hin. rewrite <- (plans_names _ _ _ HF). now apply in_map.
Qed.

Lemma from_dict_fields_ext extern ev (cls : pycls) (fl : flags)
    (d d' : value) (plans : list field_plan) (kw : list (string * value)) :
  (forall p, In p plans ->
             py_get extern d (fp_name p) = py_get extern d' (fp_name p)) ->
  from_dict_fields extern ev cls fl d kw plans
  = from_dict_fields extern ev cls fl d' kw plans.
Proof.
  revert kw. induction plans as [|p plans IH]; intros kw H; [reflexivity|].
  cbn [from_dict_fields].
  assert (Hp : from_dict_field extern ev cls fl d kw p
               = from_dict_field extern ev cls fl d' kw p).
  { unfold from_dict_field. now rewrite (H p (or_introl eq_refl)). }
  rewrite Hp. unfold py_bind.
  destruct (from_dict_field extern ev cls fl d' kw p); [|reflexivity].
  apply IH. intros q Hq. apply H. now right.
Qed.

(** X8.  [from_dict] looks at its argument through [d.get(name, MISSING)] for
    the names of the fields only: two arguments that answer alike for
    every field (and are both or neither a [dict]) give the same
    instance or the same exception.  Keys that name no field are never
    read, and the order of the keys does not matter. *)
Theorem from_dict_reads_fields_only extern (IM : gset string)
    (classes : list (string * pycls)) (fuel : nat) (T : string)
    (cls : pycls) (fl : flags) (d d' : value) :
  dict_get T classes = Some cls ->
  (forall f, In f (map fst (field_types cls)) ->
             py_get extern d f = py_get extern d' f) ->
  is_dict d = is_dict d' ->
  from_dict extern IM classes fuel T d fl
  = from_dict extern IM classes fuel T d' fl.
Proof.
  intros Hc Hget Hdict. unfold from_dict.
  destruct fuel as [|n]; [reflexivity|]. cbn [run]. rewrite Hc.
  destruct (add_from_dict IM cls new_builder) as [[plans b]|] eqn:E;
    [|reflexivity].
  unfold from_dict_routine.
  rewrite (from_dict_fields_ext _ _ _ _ d d').
  - now rewrite Hdict.
  - intros p Hp. apply Hget.
    eapply plan_of_name; [apply (add_from_dict_plans _ _ _ _ _ E)|exact Hp].
Qed.

Lemma from_dict_reads_fields_only_witness :
  dict_get "app.Pair" app_classes = Some Pair
  /\ from_dict no_library ∅ app_classes 1 "app.Pair"
               (VDict [(VStr "x", VInt 1); (VStr "y", VInt 2)]) no_flags
     = from_dict no_library ∅ app_classes 1 "app.Pair"
                 (VDict [(VStr "z", VStr "?"); (VStr "y", VInt 2);
                         (VStr "x", VInt 1)]) no_flags.
Proof.
  assert (H1 : dict_get "app.Pair" app_classes = Some Pair) by reflexivity.
  split; [exact H1|].
  apply (from_dict_reads_fields_only no_library ∅ app_classes 1 "app.Pair"
           Pair no_flags _ _ H1); [|reflexivity].
  intros f [<-|[<-|[]]]; reflexivity.
Defined.

Lemma fields_keep_other extern ev cls fl (d : value) (fname : string)
    (plans : list field_plan) (kw kw' : list (string * value)) :
  from_dict_fields extern ev cls fl d kw plans = Return kw' ->
  ~ In fname (map fp_name plans) ->
  dict_get fname kw' = dict_get fname kw.
Proof.
  revert kw. induction plans as [|p plans IH]; intros kw H Hn.
  - cbn in H. now injection H as <-.
  - cbn [from_dict_fields] in H. unfold py_bind in H.
    destruct (from_dict_field extern ev cls fl d kw p) as [kw1|] eqn:E;
      [|discriminate H].
    cbn [map] in Hn. rewrite (IH _ H) by (intros Hin; apply Hn; now right).
    eapply from_dict_field_other; [exact E|]. intros Heq. apply Hn. now left.
Qed.

Lemma fields_decode_present extern ev cls fl (d : value) (fname : string)
    (w : value) (plans : list field_plan) (kw kw' : list (string * value)) :
  py_get extern d fname = Return w -> w <> VNone -> w <> VMissing ->
  List.NoDup (map fp_name plans) ->
  from_dict_fields extern ev cls fl d kw plans = Return kw' ->
  forall p, In p plans -> fp_name p = fname ->
  exists x,
    ev (mkEnv w None (cls_qualname cls) fl) (fp_expr p) = Return x
    /\ dict_get fname kw' = Some x.
Proof.
  intros Hget Hnone Hmiss. revert kw.
  induction plans as [|q plans IH]; intros kw Hnd H p Hin Hname; [destruct Hin|].
  cbn [map] in Hnd. apply List.NoDup_cons_iff in Hnd as [Hq Hnd'].
  cbn [from_dict_fields] in H. unfold py_bind in H.
  destruct (from_dict_field extern ev cls fl d kw q) as [kw1|] eqn:E;
    [|discriminate H].
  destruct Hin as [->|Hin].
  - rewrite (from_dict_field_present _ _ _ _ _ _ _ w) in E
      by (rewrite ?Hname; assumption).
    destruct (ev _ (fp_expr p)) as [x|e0] eqn:Ex;
      [|destruct (is_Exception e0); discriminate E].
    injection E as <-. exists x. split; [reflexivity|].
    rewrite (fields_keep_other _ _ _ _ _ _ _ _ _ H) by now rewrite <- Hname.
    rewrite Hname. apply dict_get_set_eq.
  - eapply IH; eauto.
Qed.

(** X9.  A field that is present with a value other than [None]: in every
    instance [from_dict] returns, the attribute is what the decode
    expression of the field evaluates to on the raw value. *)
Theorem from_dict_decodes_present extern (IM : gset string)
    (classes : list (string * pycls)) (n : nat) (T : string) (cls : pycls)
    (fl : flags) (d w v : value) (fname : string) (t : ftype) :
  dict_get T classes = Some cls ->
  In (fname, t) (field_types cls) ->
  py_get extern d fname = Return w ->
  w <> VNone -> w <> VMissing ->
  from_dict extern IM classes (S n) T d fl = Return v ->
  exists decode b1 b2 x,
    _unpack_field_value fname t (cls_qualname cls) "value"
                        (metadatas cls !! fname) b1 = Built (decode, b2)
    /\ eval extern (run extern IM classes n)
            (mkEnv w None (cls_qualname cls) fl) decode = Return x
    /\ py_getattr extern v fname = Return x.
Proof.
  intros Hc Hin Hget Hnone Hmiss Hv. unfold from_dict in Hv.
  cbn [run] in Hv. rewrite Hc in Hv.
  destruct (add_from_dict IM cls new_builder) as [[plans b]|] eqn:E;
    [|discriminate Hv].
  pose proof (add_from_dict_plans _ _ _ _ _ E) as Hplans.
  destruct (plans_of_field _ _ _ Hplans Hin)
    as (p & Hp & Hname & _ & _ & b1 & b2 & Hu).
  cbn [fst snd] in Hname, Hu.
  unfold from_dict_routine in Hv.
  destruct (from_dict_fields _ _ _ _ _ _ _) as [kw|e] eqn:Ef.
  - destruct (fields_decode_present _ _ _ _ _ _ _ _ _ _ Hget Hnone Hmiss
                ltac:(rewrite (plans_names _ _ _ Hplans);
                      apply field_types_NoDup) Ef p Hp Hname)
      as (x & Hx & Hkw).
    pose proof (construct_attr_given extern _ _ _ _ _ _ Hv Hin Hkw) as Hy.
    exists (fp_expr p), b1, b2, x. auto.
  - destruct (is_AttributeError e); [destruct (negb (is_dict d))|];
      discriminate Hv.
Qed.

Lemma from_dict_decodes_present_witness :
  dict_get "app.Pair" app_classes = Some Pair
  /\ In ("x", TClass c_int) (field_types Pair)
  /\ VStr "12" <> VNone /\ VStr "12" <> VMissing
  /\ from_dict no_library ∅ app_classes 1 "app.Pair"
               (VDict [(VStr "x", VStr "12")]) no_flags
     = Return (VObj "app.Pair" [("x", VInt 12); ("y", VInt 7)])
  /\ exists decode b1 b2 x,
      _unpack_field_value "x" (TClass c_int) (cls_qualname Pair) "value"
                          (metadatas Pair !! "x") b1 = Built (decode, b2)
      /\ eval no_library (run no_library ∅ app_classes 0)
              (mkEnv (VStr "12") None (cls_qualname Pair) no_flags) decode
         = Return x
      /\ py_getattr no_library
                    (VObj "app.Pair" [("x", VInt 12); ("y", VInt 7)]) "x"
         = Return x.
Proof.
  assert (H1 : dict_get "app.Pair" app_classes = Some Pair) by reflexivity.
  assert (H2 : In ("x", TClass c_int) (field_types Pair))
    by (left; reflexivity).
  assert (H3 : VStr "12" <> VNone) by discriminate.
  assert (H4 : VStr "12" <> VMissing) by discriminate.
  assert (H5 : from_dict no_library ∅ app_classes 1 "app.Pair"
                         (VDict [(VStr "x", VStr "12")]) no_flags
               = Return (VObj "app.Pair" [("x", VInt 12); ("y", VInt 7)]))
    by (vm_compute; reflexivity).
  split; [exact H1|]. split; [exact H2|]. split; [exact H3|].
  split; [exact H4|]. split; [exact H5|].
  exact (from_dict_decodes_present no_library ∅ app_classes 0 "app.Pair" Pair
           no_flags (VDict [(VStr "x", VStr "12")]) (VStr "12") _ "x"
           (TClass c_int) H1 H2 eq_refl H3 H4 H5).
Defined.
(** ** The outcomes of [from_dict] on a dictionary *)

Lemma dict_set_keeps {V} (f g : string) (v : V) (kw : list (string * V)) :
  dict_get f kw <> None -> dict_get f (dict_set g v kw) <> None.
Proof.
  intros H. destruct (String.eqb_spec f g) as [->|Hne].
  - now rewrite dict_get_set_eq.
  - now rewrite dict_get_set_ne.
Qed.

Lemma dict_set_adds {V} (f g : string) (v : V) (kw : list (string * V)) :
  dict_get f (dict_set g v kw) <> None -> dict_get f kw <> None \/ f = g.
Proof.
  intros H. destruct (String.eqb_spec f g) as [->|Hne]; [now right|].
  left. now rewrite dict_get_set_ne in H.
Qed.

Lemma from_dict_field_outcome extern ev (cls : pycls) (fl : flags)
    (items : list (value * value)) (kw : list (string * value))
    (p : field_plan) :
  match from_dict_field extern ev cls fl (VDict items) kw p with
  | Return kw' =>
      (dict_get (fp_name p) kw' <> None \/ fp_required p = false)
      /\ (forall f, dict_get f kw <> None -> dict_get f kw' <> None)
      /\ (forall f, dict_get f kw' <> None ->
                    dict_get f kw <> None \/ f = fp_name p)
  | Raise e =>
      (fp_required p = true
       /\ py_get extern (VDict items) (fp_name p) = Return VMissing
       /\ e = Exn (MissingField (fp_name p) (fp_type_name p)
                                (cls_qualname cls)) None)
      \/ exists w e0,
          py_get extern (VDict items) (fp_name p) = Return w
          /\ w <> VNone /\ w <> VMissing
          /\ ev (mkEnv w None (cls_qualname cls) fl) (fp_expr p) = Raise e0
          /\ e = wrapped cls (fp_name p) (fp_type_name p) w e0
  end.
Proof.
  unfold from_dict_field, wrapped. cbn [py_get py_bind].
  set (w := match items_get (VStr (fp_name p)) items with
            | Some v => v
            | None => VMissing
            end).
  assert (Hset : forall x,
             (dict_get (fp_name p) (dict_set (fp_name p) x kw) <> None
              \/ fp_required p = false)
             /\ (forall f, dict_get f kw <> None ->
                           dict_get f (dict_set (fp_name p) x kw) <> None)
             /\ (forall f, dict_get f (dict_set (fp_name p) x kw) <> None ->
                           dict_get f kw <> None \/ f = fp_name p)).
  { intros x. split; [left; now rewrite dict_get_set_eq|].
    split; intros f; [apply dict_set_keeps|apply dict_set_adds]. }
  destruct w eqn:Ew;
    try (destruct (fp_required p);
         destruct (ev _ (fp_expr p)) as [x|e0] eqn:Ex;
         [apply Hset
         |destruct (is_Exception e0) eqn:Ee; right; eexists _, e0;
          rewrite Ee; repeat split; try discriminate; exact Ex
         |apply Hset
         |destruct (is_Exception e0) eqn:Ee; right; eexists _, e0;
          rewrite Ee; repeat split; try discriminate; exact Ex]).
  - apply Hset.
  - destruct (fp_required p) eqn:Er.
    + left. auto.
    + split; [now right|]. split; auto.
Qed.

Lemma from_dict_fields_outcome extern ev (cls : pycls) (fl : flags)
    (items : list (value * value)) (plans : list field_plan) :
  forall kw,
  match from_dict_fields extern ev cls fl (VDict items) kw plans with
  | Return kw' =>
      (forall p, In p plans ->
                 dict_get (fp_name p) kw' <> None \/ fp_required p = false)
      /\ (forall f, dict_get f kw <> None -> dict_get f kw' <> None)
      /\ (forall f, dict_get f kw' <> None ->
                    dict_get f kw <> None \/ In f (map fp_name plans))
  | Raise e =>
      exists p, In p plans /\
      ((fp_required p = true
        /\ py_get extern (VDict items) (fp_name p) = Return VMissing
        /\ e = Exn (MissingField (fp_name p) (fp_type_name p)
                                 (cls_qualname cls)) None)
       \/ exists w e0,
           py_get extern (VDict items) (fp_name p) = Return w
           /\ w <> VNone /\ w <> VMissing
           /\ ev (mkEnv w None (cls_qualname cls) fl) (fp_expr p) = Raise e0
           /\ e = wrapped cls (fp_name p) (fp_type_name p) w e0)
  end.
Proof.
  induction plans as [|p plans IH]; intros kw; cbn [from_dict_fields].
  - split; [intros p []|]. split; auto.
  - pose proof (from_dict_field_outcome extern ev cls fl items kw p) as Hp.
    destruct (from_dict_field extern ev cls fl (VDict items) kw p)
      as [kw1|e]; cbn [py_bind].
    + specialize (IH kw1).
      destruct (from_dict_fields extern ev cls fl (VDict items) kw1 plans)
        as [kw'|e].
      * destruct Hp as (Hp & Hkeep & Hadd).
        destruct IH as (IH & Hkeep' & Hadd').
        split; [|split; [auto|]].
        -- intros q [<-|Hq]; [|auto].
           destruct Hp as [Hp|Hp]; [left; auto|now right].
        -- intros f Hf. cbn [map].
           destruct (Hadd' f Hf) as [H1|H1]; [|right; now right].
           destruct (Hadd f H1) as [H0|H0]; [now left|right; now left].
      * destruct IH as (q & Hq & H). exists q. split; [now right|exact H].
    + exists p. split; [now left|exact Hp].
Qed.

(** X10.  On a dictionary the lines of the fields end in one of three
    ways, and [from_dict] with them.  They raise [MissingField] for a
    field the builder has no default for and the dictionary does not
    have.  Or the decode expression of a field that is present and not
    [None] raises an exception, which [from_dict] raises wrapped in
    [InvalidFieldValue] when it derives from [Exception], and as it is
    otherwise.  Or they complete, and [from_dict] is the call of the
    constructor with keyword arguments that are names of fields, among
    them every field the builder has no default for. *)
Theorem from_dict_outcomes extern (IM : gset string)
    (classes : list (string * pycls)) (n : nat) (T : string) (cls : pycls)
    (fl : flags) (items : list (value * value)) :
  dict_get T classes = Some cls ->
  is_built (add_from_dict IM cls new_builder) = true ->
  let ev := eval extern (run extern IM classes n) in
  let result := from_dict extern IM classes (S n) T (VDict items) fl in
  (exists kwargs,
      result = construct cls kwargs
      /\ (forall f, dict_get f kwargs <> None ->
                    In f (map fst (field_types cls)))
      /\ (forall f, defaults cls !! f = Some DMissing ->
                    In f (map fst (field_types cls)) ->
                    dict_get f kwargs <> None))
  \/ exists f t,
      In (f, t) (field_types cls)
      /\ ((defaults cls !! f = Some DMissing
           /\ py_get extern (VDict items) f = Return VMissing
           /\ result
              = Raise (Exn (MissingField f (type_name t) (cls_qualname cls))
                           None))
          \/ exists w decode b1 b2 e0,
              py_get extern (VDict items) f = Return w
              /\ w <> VNone /\ w <> VMissing
              /\ _unpack_field_value f t (cls_qualname cls) "value"
                                     (metadatas cls !! f) b1
                 = Built (decode, b2)
              /\ ev (mkEnv w None (cls_qualname cls) fl) decode = Raise e0
              /\ result
                 = if is_Exception e0
                   then Raise (Exc (InvalidFieldValue f (type_name t) w
                                                      (cls_qualname cls))
                                   None (Some e0) false)
                   else Raise e0).
Proof.
  intros Hc Hb ev result. subst result.
  destruct (add_from_dict IM cls new_builder) as [[plans b]|] eqn:E;
    [|discriminate Hb].
  rewrite (from_dict_unfold _ _ _ _ _ _ _ _ _ _ Hc E).
  pose proof (add_from_dict_plans _ _ _ _ _ E) as Hplans.
  unfold from_dict_routine. fold ev.
  pose proof (from_dict_fields_outcome extern ev cls fl items plans [])
    as Hout.
  assert (Hfield : forall p, In p plans ->
            exists t, In (fp_name p, t) (field_types cls)
                      /\ plan_for cls (fp_name p, t) p).
  { clear -Hplans. induction Hplans as [|[f t] y xs ys Hxy _ IH];
      intros p [].
    - subst y. pose proof Hxy as (Hn & _). cbn [fst] in Hn.
      exists t. rewrite Hn. split; [now left|exact Hxy].
    - destruct (IH p H) as (t' & Hin & Hrest).
      exists t'. split; [now right|exact Hrest]. }
  destruct (from_dict_fields _ _ _ _ _ _ _) as [kw|e].
  - left. destruct Hout as (Hall & _ & Hadd). exists kw.
    split; [reflexivity|]. split.
    + intros f Hf. destruct (Hadd f Hf) as [H0|H0]; [now cbn in H0|].
      now rewrite <- (plans_names _ _ _ Hplans).
    + intros f Hd Hf. rewrite <- (plans_names _ _ _ Hplans) in Hf.
      apply in_map_iff in Hf as (p & <- & Hp).
      destruct (Hall p Hp) as [Hkw|Hreq]; [exact Hkw|].
      destruct (Hfield p Hp) as (t & _ & _ & _ & (dv & Hdv & Hr) & _).
      cbn [fst] in Hdv. rewrite Hd in Hdv. injection Hdv as <-.
      rewrite Hreq in Hr. discriminate Hr.
  - right. destruct Hout as (p & Hp & Hcase).
    destruct (Hfield p Hp) as (t & Hin & _ & Ht & (dv & Hdv & Hr) & Hu).
    cbn [fst snd] in Ht, Hdv, Hu. destruct Hu as (b1 & b2 & Hu).
    exists (fp_name p), t. split; [exact Hin|].
    destruct Hcase as [(Hreq & Hget & ->)|(w & e0 & Hget & Hw & Hm & Hev & ->)].
    + left. rewrite <- Ht. repeat split; [|exact Hget].
      rewrite Hdv. rewrite Hr in Hreq. now destruct dv.
    + right. exists w, (fp_expr p), b1, b2, e0. rewrite <- Ht.
      repeat split; auto. unfold wrapped.
      destruct (is_Exception e0) eqn:Ee; [reflexivity|].
      now rewrite (not_Exception_not_AttributeError _ Ee).
Qed.

Lemma from_dict_outcomes_witness :
  dict_get "app.Pair" app_classes = Some Pair
  /\ is_built (add_from_dict ∅ Pair new_builder) = true
  /\ from_dict no_library ∅ app_classes 1 "app.Pair"
               (VDict [(VStr "y", VInt 2)]) no_flags
     = Raise (Exn (MissingField "x" "builtins.int" "app.Pair") None)
  /\ ((exists kwargs,
          from_dict no_library ∅ app_classes 1 "app.Pair"
                    (VDict [(VStr "y", VInt 2)]) no_flags
          = construct Pair kwargs
          /\ (forall f, dict_get f kwargs <> None ->
                        In f (map fst (field_types Pair)))
          /\ (forall f, defaults Pair !! f = Some DMissing ->
                        In f (map fst (field_types Pair)) ->
                        dict_get f kwargs <> None))
      \/ exists f t,
          In (f, t) (field_types Pair)
          /\ ((defaults Pair !! f = Some DMissing
               /\ py_get no_library (VDict [(VStr "y", VInt 2)]) f
                  = Return VMissing
               /\ from_dict no_library ∅ app_classes 1 "app.Pair"
                            (VDict [(VStr "y", VInt 2)]) no_flags
                  = Raise (Exn (MissingField f (type_name t)
                                             (cls_qualname Pair)) None))
              \/ exists w decode b1 b2 e0,
                  py_get no_library (VDict [(VStr "y", VInt 2)]) f = Return w
                  /\ w <> VNone /\ w <> VMissing
                  /\ _unpack_field_value f t (cls_qualname Pair) "value"
                                         (metadatas Pair !! f) b1
                     = Built (decode, b2)
                  /\ eval no_library (run no_library ∅ app_classes 0)
                          (mkEnv w None (cls_qualname Pair) no_flags) decode
                     = Raise e0
                  /\ from_dict no_library ∅ app_classes 1 "app.Pair"
                               (VDict [(VStr "y", VInt 2)]) no_flags
                     = if is_Exception e0
                       then Raise (Exc (InvalidFieldValue f (type_name t) w
                                                          (cls_qualname Pair))
                                       None (Some e0) false)
                       else Raise e0)).
Proof.
  assert (H1 : dict_get "app.Pair" app_classes = Some Pair) by reflexivity.
  assert (H2 : is_built (add_from_dict ∅ Pair new_builder) = true)
    by (vm_compute; reflexivity).
  split; [exact H1|]. split; [exact H2|].
  split; [vm_compute; reflexivity|].
  exact (from_dict_outcomes no_library ∅ app_classes 0 "app.Pair" Pair
           no_flags [(VStr "y", VInt 2)] H1 H2).
Defined.

(** ** The types the two expression builders accept *)

Lemma ftype_nested_ind (P : ftype -> Prop) :
  (forall c, P (TClass c)) ->
  (forall c args, Forall P args -> P (TGeneric c args)) ->
  (forall n, P (TDataclass n)) ->
  (forall n, P (TSerializableType n)) ->
  (forall n, P (TStrategy n)) ->
  P TAny ->
  (forall args, Forall P args -> P (TUnion args)) ->
  P TAnyStr ->
  (forall n, P (TTypeVar n)) ->
  (forall a, P a -> P (TClassVar a)) ->
  (forall a, P a -> P (TInitVar a)) ->
  (forall r, P (TSpecial r)) ->
  forall t, P t.
Proof.
  intros Hc Hg Hd Hs Hst Ha Hu Has Htv Hcv Hiv Hsp.
  fix IH 1. intros t.
  destruct t as [c|c args|n|n|n| |args| |n|a|a|r].
  - apply Hc.
  - apply Hg. induction args as [|a args IHargs]; constructor;
      [apply IH|exact IHargs].
  - apply Hd.
  - apply Hs.
  - apply Hst.
  - apply Ha.
  - apply Hu. induction args as [|a args IHargs]; constructor;
      [apply IH|exact IHargs].
  - apply Has.
  - apply Htv.
  - apply Hcv, IH.
  - apply Hiv, IH.
  - apply Hsp.
Qed.

Lemma frozenset_is_set (c : pyclass) :
  issubclass c FrozenSet_ = true -> issubclass c AbstractSet_ = true.
Proof. induction c; cbn; try discriminate; auto. Qed.

Lemma built_pack (fname parent : string) (t : ftype) :
  (forall vn0 vn1 b0,
      is_built (_unpack_field_value fname t parent vn0 None b0) = true ->
      is_built (_pack_value fname t parent vn1) = true) ->
  forall vn0 b0 r vn1,
    _unpack_field_value fname t parent vn0 None b0 = Built r ->
    exists e, _pack_value fname t parent vn1 = Built e.
Proof.
  intros H vn0 b0 r vn1 E. specialize (H vn0 vn1 b0). rewrite E in H.
  destruct (_pack_value fname t parent vn1) as [e|]; [eauto|].
  now specialize (H eq_refl).
Qed.

Ltac split_ifs H :=
  repeat (first
    [ match type of H with
      | context [if ?c then _ else _] =>
          let E := fresh "E" in destruct c eqn:E
      | context [match _unpack_field_value ?f ?t ?p ?v ?m ?b with _ => _ end] =>
          let E := fresh "Eu" in
          destruct (_unpack_field_value f t p v m b) as [[? ?]|] eqn:E
      end ];
    cbn [orb andb negb is_built build_bind] in H |- *;
    try discriminate H).

Ltac use_built Hk :=
  repeat match goal with
         | E : _unpack_field_value ?f ?t ?p _ None _ = Built _
           |- context [_pack_value ?f ?t ?p ?v] =>
             let e := fresh "e" in
             let He := fresh "He" in
             destruct (built_pack f p t (Hk t ltac:(cbn; tauto)) _ _ _ v E)
               as [e He];
             rewrite He; cbn [build_bind is_built]
         end.

(** Whatever [_unpack_field_value] builds an expression for,
    [_pack_value] does too, for any metadata and at any place in an
    annotation. *)
Lemma unpack_built_pack_built (t : ftype) :
  forall (fname parent vn vn' : string)
         (md : option (list (string * meta_value))) (b : CodeBuilder),
    is_built (_unpack_field_value fname t parent vn md b) = true ->
    is_built (_pack_value fname t parent vn') = true.
Proof.
  induction t as [c|c args IH|n|n|n| |args IH| |n|a IH|a IH|r]
    using ftype_nested_ind; intros fname parent vn vn' md b H;
    try reflexivity; try discriminate H.
  - cbn [_unpack_field_value _pack_value] in *.
    unfold unpack_by_origin, pack_by_origin in *. cbn [is_generic] in *.
    unfold m_unserializable, m_fail, unserializable, m_ret in *.
    split_ifs H. all: try reflexivity.
  - assert (Hin : forall a, In a args ->
               forall vn0 vn1 b0,
                 is_built (_unpack_field_value fname a parent vn0 None b0) = true ->
                 is_built (_pack_value fname a parent vn1) = true).
    { intros a Ha vn0 vn1 b0. apply (proj1 (List.Forall_forall _ _) IH a Ha). }
    clear IH.
    cbn [_unpack_field_value _pack_value] in *.
    unfold unpack_by_origin, pack_by_origin in *. cbn [is_generic ftype_is] in *.
    unfold m_unserializable, m_fail, unserializable, m_ret, unpack_sequence,
      m_args0_is_dataclass, m_lift, args0_is_dataclass, m_bind in *.
    destruct args as [|k [|a rest]].
    + split_ifs H. all: try reflexivity.
    + split_ifs H. all: use_built Hin. all: try reflexivity.
      now rewrite (frozenset_is_set c E3).
    + split_ifs H. all: use_built Hin. all: try reflexivity.
      now rewrite (frozenset_is_set c E3).
  - cbn [_unpack_field_value _pack_value] in *.
    destruct args as [|a0 [|a1 [|]]]; try discriminate H.
    destruct (is_NoneType a1); [|discriminate H].
    inversion IH as [|? ? Ha0 _]; subst. eapply Ha0. exact H.
Qed.

(** The converse fails: a subclass of [bytes] is encoded like [bytes]
    and has no decoder. *)
Example encodable_not_decodable :
  is_built (_pack_value "blob" (TClass (c_sub "app.Blob" c_bytes)) "app.C"
                        "value") = true
  /\ is_built (_unpack_field_value "blob" (TClass (c_sub "app.Blob" c_bytes))
                                    "app.C" "value" None new_builder) = false.
Proof. split; reflexivity. Qed.

Lemma m_for_all_built {A B} (body : A -> M B) (l : list A) :
  (forall x b, In x l -> is_built (body x b) = true) ->
  forall b, is_built (m_for l body b) = true.
Proof.
  induction l as [|x l IH]; intros H b; [reflexivity|].
  cbn [m_for]. unfold m_bind at 1.
  specialize (H x b (or_introl eq_refl)) as Hx.
  destruct (body x b) as [[y b1]|]; [|discriminate Hx].
  unfold m_bind. specialize (IH (fun x' b' Hin => H x' b' (or_intror Hin)) b1).
  now destruct (m_for l body b1) as [[ys b2]|].
Qed.

(** X11.  A type that can be decoded can be encoded: a record type for which
    [from_dict] can be generated gets its [to_dict] as well, with an
    encoding expression for every field. *)
Theorem from_dict_built_to_dict_built (IM : gset string) (cls : pycls)
    (b b' : CodeBuilder) :
  is_built (add_from_dict IM cls b) = true ->
  is_built (add_to_dict IM cls b') = true
  /\ forall f t, In (f, t) (field_types cls) ->
                 is_built (_pack_value f t (cls_qualname cls) "value") = true.
Proof.
  intros H.
  destruct (add_from_dict IM cls b) as [[plans b1]|] eqn:E; [|discriminate H].
  pose proof (add_from_dict_plans _ _ _ _ _ E) as Hplans.
  assert (Hp : forall f t, In (f, t) (field_types cls) ->
               is_built (_pack_value f t (cls_qualname cls) "value") = true).
  { intros f t Hin.
    destruct (plans_of_field _ _ _ Hplans Hin)
      as (p & _ & _ & _ & _ & b3 & b4 & Hu).
    cbn [fst snd] in Hu.
    eapply unpack_built_pack_built. now rewrite Hu. }
  split; [|exact Hp].
  destruct (add_to_dict_loop IM cls b') as (b0 & fin & ->).
  assert (Hall : is_built (m_for (field_types cls) (add_to_dict_field cls) b0)
                 = true).
  { apply m_for_all_built. intros [f t] b2 Hin. specialize (Hp f t Hin).
    unfold add_to_dict_field, m_bind, m_add_line, m_do, m_indent, m_lift,
      m_ret.
    now destruct (_pack_value f t (cls_qualname cls) "value"). }
  now destruct (m_for _ _ _) as [[ps b2]|].
Qed.

Lemma from_dict_built_to_dict_built_witness :
  is_built (add_from_dict ∅ Order new_builder) = true
  /\ is_built (add_to_dict ∅ Order new_builder) = true.
Proof.
  assert (H : is_built (add_from_dict ∅ Order new_builder) = true)
    by (vm_compute; reflexivity).
  split; [exact H|].
  exact (proj1 (from_dict_built_to_dict_built ∅ Order new_builder new_builder
                  H)).
Defined.

(** Inside [Optional[...]] the expression is built over the name [value],
    also where the enclosing mapping binds the key to [key]: the key of
    [Dict[Optional[str], int]] is read from the value of the item. *)
Example optional_key_reads_value :
  match _pack_value "m"
          (TGeneric c_dict [TUnion [TClass c_str; TClass c_NoneType];
                            TClass c_int])
          "app.C" "value" with
  | Built e => render e
  | BuildError _ => ""
  end
  = "{value: int(value) for key, value in value.items()}".
Proof. reflexivity. Qed.

(** ** What [RoundedDecimal] writes *)

Lemma round_up_remainder (mode : rounding_mode) (s : bool) (q r m : N) :
  round_up mode s q r m = true -> (r < m)%N -> (r <> 0)%N.
Proof.
  intros H Hr ->. destruct mode; cbn in H; try discriminate H.
  - apply N.leb_le in H. lia.
  - apply orb_prop in H as [H|H].
    + apply N.ltb_lt in H. lia.
    + apply andb_prop in H as [H _]. apply N.eqb_eq in H. lia.
  - now rewrite andb_false_r in H.
  - now rewrite andb_false_r in H.
  - apply N.ltb_lt in H. lia.
Qed.

Lemma rescale_rounds (s : bool) (c : N) (e exp : Z) (mode : rounding_mode) :
  exists c',
    rescale s c e exp mode = Finite s c' exp
    /\ if (exp <=? e)%Z then c' = (c * 10 ^ Z.to_N (e - exp))%N
       else let m := (10 ^ Z.to_N (exp - e))%N in
            (c' * m < c + m /\ c < c' * m + m)%N.
Proof.
  unfold rescale. destruct (exp <=? e)%Z; [eauto|].
  set (m := (10 ^ Z.to_N (exp - e))%N).
  assert (Hm : (m <> 0)%N) by (apply N.pow_nonzero; discriminate).
  pose proof (N.div_mod c m Hm) as Hdiv.
  pose proof (N.mod_lt c m Hm) as Hlt.
  rewrite (N.mul_comm m) in Hdiv. clearbody m.
  remember (c / m)%N as q eqn:Hq. remember (c mod m)%N as r eqn:Hr0.
  clear Hq Hr0. remember (q * m)%N as qm eqn:Hqm.
  destruct (round_up mode s q r m) eqn:Er.
  - pose proof (round_up_remainder _ _ _ _ _ Er Hlt) as Hr.
    eexists. split; [reflexivity|]. cbv zeta.
    rewrite N.mul_add_distr_r, N.mul_1_l, <- Hqm. lia.
  - eexists. split; [reflexivity|]. cbv zeta. rewrite <- Hqm. lia.
Qed.

(** X12.  With [places] set, a finite value that [serialize] accepts is written
    with exactly the exponent [-places] and its own sign: unchanged in
    value (zeros appended) when it has at most [places] decimals, and
    otherwise less than one unit of the last place away from it. *)
Theorem RoundedDecimal_rounds (ctx : context) (places : Z)
    (mode : option rounding_mode) (s : bool) (c : N) (e : Z) (text : string) :
  let strategy := RoundedDecimal_init (Some places) mode in
  serialize ctx strategy (Finite s c e) = Return text ->
  exists c',
    deserialize strategy text = Return (Finite s c' (- places))
    /\ if (- places <=? e)%Z then c' = (c * 10 ^ Z.to_N (e + places))%N
       else let m := (10 ^ Z.to_N (- places - e))%N in
            (c' * m < c + m /\ c < c' * m + m)%N.
Proof.
  intros strategy H.
  assert (Hq : exists r, match quantize ctx (Finite s c e)
                                 (Finite false 1 (- places)) r with
                         | Return q => Return (str_Decimal q)
                         | Raise x => Raise x
                         end = Return text).
  { unfold serialize in H. cbn [exp rounding strategy RoundedDecimal_init
      Decimal_bool] in H. change (negb (1 =? 0)%N) with true in H.
    cbv iota in H. destruct mode as [r|]; eauto. }
  clear H. destruct Hq as [r H].
  destruct (quantize ctx (Finite s c e) (Finite false 1 (- places)) r)
    as [q|] eqn:Eq; [|discriminate H].
  injection H as <-. unfold deserialize. rewrite Decimal_of_str_str.
  cbn [quantize] in Eq.
  destruct (negb _) in Eq; [discriminate Eq|].
  destruct (c =? 0)%N eqn:Ec.
  - apply N.eqb_eq in Ec. subst c. injection Eq as <-.
    exists 0%N. split; [reflexivity|].
    destruct (- places <=? e)%Z; [reflexivity|]. cbv zeta.
    assert ((10 ^ Z.to_N (- places - e))%N <> 0%N)
      by (apply N.pow_nonzero; discriminate). lia.
  - destruct (Emax ctx <? adjusted c e)%Z; [discriminate Eq|].
    destruct (prec ctx <? adjusted c e - - places + 1)%Z; [discriminate Eq|].
    destruct (rescale_rounds s c e (- places)
                (match r with Some m => m | None => ctx_rounding ctx end))
      as (c' & Hres & Hc').
    rewrite Hres in Eq.
    destruct (Emax ctx <? adjusted c' (- places))%Z; [discriminate Eq|].
    destruct (prec ctx <? num_digits c')%Z; [discriminate Eq|].
    injection Eq as <-. exists c'. split; [reflexivity|].
    replace (e + places)%Z with (e - - places)%Z by lia. exact Hc'.
Qed.

Lemma RoundedDecimal_rounds_witness :
  serialize default_context (RoundedDecimal_init (Some 2%Z) None)
            (Finite false 12345 (-4)) = Return "1.23"
  /\ exists c',
      deserialize (RoundedDecimal_init (Some 2%Z) None) "1.23"
      = Return (Finite false c' (- 2))
      /\ if (- 2 <=? -4)%Z then c' = (12345 * 10 ^ Z.to_N (-4 + 2))%N
         else let m := (10 ^ Z.to_N (- 2 - -4))%N in
              (c' * m < 12345 + m /\ 12345 < c' * m + m)%N.
Proof.
  assert (H : serialize default_context (RoundedDecimal_init (Some 2%Z) None)
                        (Finite false 12345 (-4)) = Return "1.23")
    by (vm_compute; reflexivity).
  split; [exact H|].
  exact (RoundedDecimal_rounds default_context 2 None false 12345 (-4) "1.23"
           H).
Defined.

(** ** The text the builder writes *)

Lemma starts_with_refl (i rest : string) : starts_with i (i +:+ rest).
Proof. now exists rest. Qed.

Lemma starts_with_deeper (i j line : string) :
  starts_with (i +:+ j) line -> starts_with i line.
Proof. intros [rest ->]. exists (j +:+ rest). apply append_assoc. Qed.

Lemma extends_refl (b : CodeBuilder) : extends b b.
Proof.
  split; [reflexivity|]. split; [reflexivity|].
  exists []. rewrite app_nil_r. repeat split; [constructor|]. now left.
Qed.

Lemma extends_trans (b1 b2 b3 : CodeBuilder) :
  extends b1 b2 -> extends b2 b3 -> extends b1 b3.
Proof.
  intros (Hi & Hm & added & Hl & Hp & Himp)
         (Hi' & Hm' & added' & Hl' & Hp' & Himp').
  split; [congruence|]. split; [etransitivity; eassumption|].
  exists (added ++ added')%list. split; [|split].
  - now rewrite Hl', Hl, <- app_assoc.
  - apply Forall_app. split; [exact Hp|]. now rewrite <- Hi.
  - intros m Hin. destruct (Himp' m Hin) as [H|[i H]].
    + destruct (Himp m H) as [H'|[i H']]; [now left|].
      right. exists i. apply in_or_app. now left.
    + right. exists i. apply in_or_app. now right.
Qed.

Lemma extends_add_line (line : string) (b : CodeBuilder) :
  extends b (add_line line b).
Proof.
  split; [reflexivity|]. split; [reflexivity|].
  exists [_current_indent b +:+ line]. repeat split.
  - constructor; [apply starts_with_refl|constructor].
  - now left.
Qed.

Lemma extends_ensure (module : string) (b : CodeBuilder) :
  extends b (ensure_module_imported module b)
  /\ module ∈ modules (ensure_module_imported module b).
Proof.
  rewrite ensure_module_imported_spec. cbn [modules].
  split; [|apply elem_of_union_l, elem_of_singleton_2; reflexivity].
  split; [reflexivity|]. split; [apply union_subseteq_r|].
  exists (added_by module b). cbn [lines modules]. repeat split.
  - unfold added_by. destruct (bool_decide (module ∈ modules b));
      [constructor|].
    repeat (apply Forall_app; split);
      try destruct (bool_decide _);
      repeat constructor;
      unfold guard_line, import_line, else_line, global_line;
      rewrite ?append_assoc; apply starts_with_refl.
  - intros m Hm. apply elem_of_union in Hm as [Hm|Hm]; [|now left].
    apply elem_of_singleton_1 in Hm. subst m.
    unfold added_by. destruct (bool_decide (module ∈ modules b)) eqn:E.
    + left. now apply bool_decide_eq_true in E.
    + right. exists (_current_indent b). apply in_or_app. left.
      right. now left.
Qed.

Lemma extending_ret {A} (a : A) : extending (m_ret a).
Proof. intros b a' b' [= _ <-]. apply extends_refl. Qed.

Lemma extending_fail {A} (e : build_error) : extending (@m_fail A e).
Proof. intros b a b' H. discriminate H. Qed.

Lemma extending_lift {A} (r : build_result A) : extending (m_lift r).
Proof.
  intros b a b' H. unfold m_lift in H. destruct r; [|discriminate H].
  injection H as _ <-. apply extends_refl.
Qed.

Lemma extending_do (f : CodeBuilder -> CodeBuilder) :
  (forall b, extends b (f b)) -> extending (m_do f).
Proof. intros Hf b a b' [= _ <-]. apply Hf. Qed.

Lemma extending_add_line (line : string) : extending (m_add_line line).
Proof. apply extending_do. intros b. apply extends_add_line. Qed.

Lemma extending_bind {A B} (m : M A) (k : A -> M B) :
  extending m -> (forall a, extending (k a)) -> extending (m_bind m k).
Proof.
  intros Hm Hk b r b' H. unfold m_bind in H.
  destruct (m b) as [[a b1]|] eqn:E; [|discriminate H].
  eapply extends_trans; [eapply Hm; eassumption|eapply Hk; eassumption].
Qed.

(** Inside [with self.indent()] every line starts four spaces deeper, and
    the indentation is restored on the way out. *)
Lemma m_indent_inv {A} (body : M A) (b : CodeBuilder) (a : A)
    (b' : CodeBuilder) :
  extending body ->
  m_indent body b = Built (a, b') ->
  _current_indent b' = _current_indent b
  /\ modules b ⊆ modules b'
  /\ exists added,
      lines b' = (lines b ++ added)%list
      /\ Forall (starts_with (_current_indent b +:+ spaces 4)) added
      /\ forall m, m ∈ modules b' ->
                   m ∈ modules b \/ exists i, In (import_line i m) added.
Proof.
  intros Hbody H. unfold m_indent in H.
  destruct (body _) as [[a1 b1]|] eqn:E; [|discriminate H].
  injection H as <- <-.
  destruct (Hbody _ _ _ E) as (Hi & Hm & added & Hl & Hp & Himp).
  cbn [set_indent _current_indent modules lines] in *.
  rewrite Hi, drop_last_append. repeat split; [exact Hm|].
  exists added. auto.
Qed.

Lemma extending_indent {A} (body : M A) :
  extending body -> extending (m_indent body).
Proof.
  intros Hbody b a b' H.
  destruct (m_indent_inv body b a b' Hbody H)
    as (Hi & Hm & added & Hl & Hp & Himp).
  split; [exact Hi|]. split; [exact Hm|]. exists added.
  repeat split; [exact Hl| |exact Himp].
  eapply List.Forall_impl; [|exact Hp]. intros l. apply starts_with_deeper.
Qed.

Lemma extending_for {A B} (l : list A) (body : A -> M B) :
  (forall x, In x l -> extending (body x)) -> extending (m_for l body).
Proof.
  induction l as [|x l IH]; intros H; cbn [m_for].
  - apply extending_ret.
  - apply extending_bind; [apply H; now left|]. intros y.
    apply extending_bind; [apply IH; intros; apply H; now right|].
    intros ys. apply extending_ret.
Qed.

(** [_add_type_modules] never leaves its loop: every annotation has a
    module. *)
Lemma add_type_modules_args (t : ftype) (b : CodeBuilder) :
  fst (_add_type_modules t b) = true.
Proof. destruct t; reflexivity. Qed.

Lemma add_type_modules_each (c : pyclass) (args : list ftype)
    (b : CodeBuilder) :
  snd (_add_type_modules (TGeneric c args) b)
  = fold_left (fun b a => snd (_add_type_modules a b)) args
              (ensure_module_imported "typing" b)
  /\ snd (_add_type_modules (TUnion args) b)
     = fold_left (fun b a => snd (_add_type_modules a b)) args
                 (ensure_module_imported "typing" b).
Proof.
  cbn [_add_type_modules type_module snd].
  generalize (ensure_module_imported "typing" b). clear b.
  assert (H : forall b0 : CodeBuilder,
             (fix each (l : list ftype) (b : CodeBuilder) {struct l}
                : CodeBuilder :=
                match l with
                | [] => b
                | a :: l' =>
                    let '(go_on, b') := _add_type_modules a b in
                    if go_on then each l' b' else b'
                end) args b0
             = fold_left (fun b a => snd (_add_type_modules a b)) args b0).
  { induction args as [|a args IH]; intros b0; [reflexivity|].
    cbn [fold_left]. rewrite <- IH.
    pose proof (add_type_modules_args a b0) as Hgo.
    destruct (_add_type_modules a b0) as [go b1]. cbn [fst snd] in *.
    now subst go. }
  intros b0. split; apply H.
Qed.

Lemma extends_add_type_modules (t : ftype) :
  forall b,
    extends b (snd (_add_type_modules t b))
    /\ forall t' m, In t' (type_parts t) -> type_module t' = Some m ->
                    m ∈ modules (snd (_add_type_modules t b)).
Proof.
  assert (Hfold : forall args : list ftype,
            Forall (fun t => forall b,
                      extends b (snd (_add_type_modules t b))
                      /\ forall t' m, In t' (type_parts t) ->
                                      type_module t' = Some m ->
                                      m ∈ modules (snd (_add_type_modules t b)))
                   args ->
            forall b,
              extends b (fold_left (fun b a => snd (_add_type_modules a b))
                                   args b)
              /\ forall t' m, In t' (flat_map type_parts args) ->
                              type_module t' = Some m ->
                              m ∈ modules
                                    (fold_left
                                       (fun b a => snd (_add_type_modules a b))
                                       args b)).
  { induction 1 as [|a args Ha _ IH]; intros b; cbn [fold_left flat_map].
    - split; [apply extends_refl|intros t' m []].
    - destruct (Ha b) as [He Hm]. destruct (IH (snd (_add_type_modules a b)))
        as [He' Hm'].
      split; [eapply extends_trans; eassumption|].
      intros t' m Hin Ht. apply in_app_or in Hin as [Hin|Hin].
      + destruct He' as (_ & Hsub & _). apply Hsub. eapply Hm; eassumption.
      + eapply Hm'; eassumption. }
  induction t as [c|c args IH|n|n|n| |args IH| |n|a IH|a IH|r]
    using ftype_nested_ind; intros b.
  all: try (cbn [_add_type_modules type_module snd type_parts];
            split; [apply extends_ensure|];
            intros t' m [<-|[]] [= <-]; apply extends_ensure).
  - rewrite (proj1 (add_type_modules_each c args b)).
    destruct (Hfold args IH (ensure_module_imported "typing" b)) as [He Hm].
    split; [eapply extends_trans; [apply extends_ensure|exact He]|].
    intros t' m [<-|Hin] Ht.
    + injection Ht as <-. destruct He as (_ & Hsub & _). apply Hsub.
      apply extends_ensure.
    + eapply Hm; eassumption.
  - rewrite (proj2 (add_type_modules_each c_list args b)).
    destruct (Hfold args IH (ensure_module_imported "typing" b)) as [He Hm].
    split; [eapply extends_trans; [apply extends_ensure|exact He]|].
    intros t' m [<-|Hin] Ht.
    + injection Ht as <-. destruct He as (_ & Hsub & _). apply Hsub.
      apply extends_ensure.
    + eapply Hm; eassumption.
  - cbn [_add_type_modules type_module snd type_parts].
    split.
    + eapply extends_trans; [apply extends_ensure|].
      eapply extends_trans; apply extends_ensure.
    + intros t' m [<-|[]] [= <-].
      destruct (extends_ensure "builtins"
                  (ensure_module_imported "builtins"
                     (ensure_module_imported "typing" b)))
        as [(_ & Hsub & _) _].
      destruct (extends_ensure "builtins" (ensure_module_imported "typing" b))
        as [(_ & Hsub' & _) _].
      apply Hsub, Hsub'. apply extends_ensure.
  - cbn [_add_type_modules type_module snd type_parts].
    destruct (IH (ensure_module_imported "typing" b)) as [He Hm].
    split; [eapply extends_trans; [apply extends_ensure|exact He]|].
    intros t' m [<-|Hin] Ht.
    + injection Ht as <-. destruct He as (_ & Hsub & _). apply Hsub.
      apply extends_ensure.
    + eapply Hm; eassumption.
  - cbn [_add_type_modules type_module snd type_parts].
    destruct (IH (ensure_module_imported "dataclasses" b)) as [He Hm].
    split; [eapply extends_trans; [apply extends_ensure|exact He]|].
    intros t' m [<-|Hin] Ht.
    + injection Ht as <-. destruct He as (_ & Hsub & _). apply Hsub.
      apply extends_ensure.
    + eapply Hm; eassumption.
Qed.

Lemma extending_unpack (t : ftype) :
  forall fname parent vn md,
    extending (_unpack_field_value fname t parent vn md).
Proof.
  induction t as [c|c args IH|n|n|n| |args IH| |n|a IH|a IH|r]
    using ftype_nested_ind; intros fname parent vn md;
    cbn [_unpack_field_value];
    try apply extending_ret; try apply extending_fail.
  - unfold unpack_by_origin, unpack_sequence, unpack_datetime,
      m_unserializable, m_args0_is_dataclass.
    repeat first
      [ apply extending_ret | apply extending_fail | apply extending_lift
      | apply extending_bind; [|intros ?]
      | apply extending_do; intros ?; apply extends_ensure
      | match goal with
        | |- extending (if ?c then _ else _) => destruct c
        | |- extending (match ?x with _ => _ end) => destruct x
        end ].
  - assert (Hinner : forall n v,
               extending ((fix inner (args : list ftype) (arg_num : nat)
                               (v_name : string) {struct args} : M expr :=
                             match args, arg_num with
                             | a :: _, O =>
                                 _unpack_field_value fname a parent v_name None
                             | _ :: args', S n => inner args' n v_name
                             | [], _ => m_fail BuildIndexError
                             end) args n v)).
    { induction IH as [|a args Ha _ IHargs]; intros n v.
      - destruct n; apply extending_fail.
      - destruct n; [apply Ha|apply IHargs]. }
    unfold unpack_by_origin, unpack_sequence, unpack_datetime,
      m_unserializable, m_args0_is_dataclass.
    repeat first
      [ apply extending_ret | apply extending_fail | apply extending_lift
      | apply Hinner
      | apply extending_bind; [|intros ?]
      | apply extending_do; intros ?; apply extends_ensure
      | match goal with
        | |- extending (if ?c then _ else _) => destruct c
        | |- extending (match ?x with _ => _ end) => destruct x
        end ].
  - destruct args as [|a0 [|a1 [|]]]; try apply extending_fail.
    destruct (is_NoneType a1); [|apply extending_fail].
    inversion IH; subst. auto.
Qed.

Ltac extending_steps :=
  repeat first
    [ apply extending_ret | apply extending_fail | apply extending_lift
    | apply extending_add_line | apply extending_unpack
    | apply extending_indent
    | apply extending_bind; [|intros ?]
    | match goal with
      | |- extending (if ?c then _ else _) => destruct c
      | |- extending (match ?x with _ => _ end) => destruct x
      end ].

Lemma extending_add_from_dict_field (cls : pycls) (field : string * ftype) :
  extending (add_from_dict_field cls field).
Proof.
  destruct field as [f t]. unfold add_from_dict_field, add_unpack_block.
  apply extending_bind;
    [apply extending_do; intros b; apply extends_add_type_modules|intros ?].
  extending_steps.
Qed.

Lemma extending_add_to_dict_field (cls : pycls) (field : string * ftype) :
  extending (add_to_dict_field cls field).
Proof.
  destruct field as [f t]. unfold add_to_dict_field. extending_steps.
Qed.

(** The text of a routine: header lines at the margin, a body under
    [with self.indent()], one line at the margin after it. *)
Lemma routine_text {A} (IM : gset string) (header : list string)
    (body : M A) (last : string) (b : CodeBuilder) (a : A)
    (b' : CodeBuilder) :
  extending body ->
  m_bind (m_indent body) (fun p => m_bind (m_add_line last) (fun _ => m_ret p))
         (fold_left (fun b l => add_line l b) header (reset IM b))
  = Built (a, b') ->
  _current_indent b' = ""
  /\ exists text,
      lines b' = (header ++ text ++ [last])%list
      /\ Forall (starts_with (spaces 4)) text
      /\ forall m, m ∈ modules b' ->
                   m ∈ IM \/ exists i, In (import_line i m) text.
Proof.
  intros Hbody H.
  assert (Hh : forall (h : list string) (b0 : CodeBuilder),
             _current_indent b0 = "" ->
             let b1 := fold_left (fun b l => add_line l b) h b0 in
             _current_indent b1 = "" /\ modules b1 = modules b0
             /\ lines b1 = (lines b0 ++ h)%list).
  { induction h as [|l h IH]; intros b0 Hi; cbn [fold_left].
    - now rewrite app_nil_r.
    - destruct (IH (add_line l b0) Hi) as (H1 & H2 & H3).
      cbn [add_line _current_indent modules lines] in *.
      rewrite Hi, append_nil_l in H3. rewrite <- app_assoc in H3. auto. }
  destruct (Hh header (reset IM b) eq_refl) as (Hi & Hm & Hl).
  cbn [reset modules lines app] in Hm, Hl.
  unfold m_bind at 1 in H.
  destruct (m_indent body _) as [[p b1]|] eqn:E; [|discriminate H].
  unfold m_bind, m_add_line, m_do, m_ret in H. injection H as <- <-.
  destruct (m_indent_inv _ _ _ _ Hbody E) as (Hi1 & Hm1 & text & Hl1 & Hp & Himp).
  rewrite Hi, append_nil_l in Hp. rewrite Hi in Hi1. rewrite Hl in Hl1.
  rewrite Hm in Himp.
  cbn [add_line _current_indent modules lines].
  split; [exact Hi1|]. exists text.
  rewrite Hl1, Hi1, append_nil_l, <- app_assoc. auto.
Qed.

(** X13.  The source [add_from_dict] hands to [compile] is one decorated
    function definition followed by the [setattr] line: every line
    between the header and the last line is indented by four spaces or
    more, and the indentation of the builder is back at the margin. *)
Theorem add_from_dict_text (IM : gset string) (cls : pycls) (b b' : CodeBuilder)
    (plans : list field_plan) :
  add_from_dict IM cls b = Built (plans, b') ->
  _current_indent b' = ""
  /\ exists body,
      lines b'
      = ("@classmethod"
         :: "def from_dict(cls, d, use_bytes=False, use_enum=False, use_datetime=False):"
         :: body ++ ["setattr(cls, 'from_dict', from_dict)"])%list
      /\ Forall (starts_with (spaces 4)) body.
Proof.
  intros H. unfold add_from_dict in H.
  unfold m_bind at 1 2 3, m_do at 1, m_add_line at 1 2, m_do at 1 2 in H.
  eapply (routine_text IM
            ["@classmethod";
             "def from_dict(cls, d, use_bytes=False, use_enum=False, use_datetime=False):"])
    in H.
  - destruct H as (Hi & text & Hl & Hp & _). split; [exact Hi|].
    exists text. split; [exact Hl|exact Hp].
  - extending_steps. apply extending_for. intros x _.
    apply extending_add_from_dict_field.
Qed.

(** X14.  The source [add_to_dict] hands to [compile]: the header of
    [to_dict], its body indented by four spaces or more, then the
    [setattr] line; the indentation of the builder is back at the
    margin. *)
Theorem add_to_dict_text (IM : gset string) (cls : pycls) (b b' : CodeBuilder)
    (plans : list (string * expr)) :
  add_to_dict IM cls b = Built (plans, b') ->
  _current_indent b' = ""
  /\ exists body,
      lines b'
      = ("def to_dict(self, use_bytes=False, use_enum=False, use_datetime=False):"
         :: body ++ ["setattr(cls, 'to_dict', to_dict)"])%list
      /\ Forall (starts_with (spaces 4)) body.
Proof.
  intros H. unfold add_to_dict in H.
  unfold m_bind at 1 2, m_do at 1, m_add_line at 1, m_do at 1 in H.
  eapply (routine_text IM
            ["def to_dict(self, use_bytes=False, use_enum=False, use_datetime=False):"])
    in H.
  - destruct H as (Hi & text & Hl & Hp & _). split; [exact Hi|].
    exists text. split; [exact Hl|exact Hp].
  - extending_steps. apply extending_for. intros x _.
    apply extending_add_to_dict_field.
Qed.

Lemma registers_bind_l {A B} (P : string -> Prop) (m : M A) (k : A -> M B) :
  registers P m -> (forall a, extending (k a)) -> registers P (m_bind m k).
Proof.
  intros Hm Hk b r b' H s Hs. unfold m_bind in H.
  destruct (m b) as [[a b1]|] eqn:E; [|discriminate H].
  destruct (Hk a _ _ _ H) as (_ & Hsub & _). apply Hsub.
  eapply Hm; eassumption.
Qed.

Lemma registers_bind_r {A B} (P : string -> Prop) (m : M A) (k : A -> M B) :
  (forall a, registers P (k a)) -> registers P (m_bind m k).
Proof.
  intros Hk b r b' H s Hs. unfold m_bind in H.
  destruct (m b) as [[a b1]|] eqn:E; [|discriminate H].
  eapply Hk; eassumption.
Qed.

Lemma registers_indent {A} (P : string -> Prop) (body : M A) :
  registers P body -> registers P (m_indent body).
Proof.
  intros Hbody b a b' H s Hs. unfold m_indent in H.
  destruct (body _) as [[a1 b1]|] eqn:E; [|discriminate H].
  injection H as <- <-. cbn [set_indent modules]. eapply Hbody; eassumption.
Qed.

Lemma registers_for {A B} (P : string -> Prop) (l : list A) (body : A -> M B)
    (x : A) :
  In x l -> registers P (body x) -> (forall y, extending (body y)) ->
  registers P (m_for l body).
Proof.
  intros Hin Hx Hext. induction l as [|y l IH]; [destruct Hin|].
  cbn [m_for]. destruct Hin as [->|Hin].
  - apply registers_bind_l; [exact Hx|]. intros a.
    apply extending_bind; [apply extending_for; auto|].
    intros ys. apply extending_ret.
  - apply registers_bind_r. intros a. apply registers_bind_l; [auto|].
    intros ys. apply extending_ret.
Qed.

Lemma registers_add_from_dict_field (cls : pycls) (f : string) (t : ftype) :
  registers (fun m => exists t', In t' (type_parts t)
                                 /\ type_module t' = Some m)
            (add_from_dict_field cls (f, t)).
Proof.
  unfold add_from_dict_field, add_unpack_block.
  apply registers_bind_l.
  - intros b a b' [= _ <-] s (t' & Hin & Ht).
    eapply extends_add_type_modules; eassumption.
  - intros ?. extending_steps.
Qed.

(** X15.  The modules of the annotations: for every field, the module of its
    type and of every type nested in it is among [INITIAL_MODULES] or
    imported by a line of the source of [from_dict]. *)
Theorem add_from_dict_imports (IM : gset string) (cls : pycls)
    (b b' : CodeBuilder) (plans : list field_plan)
    (f : string) (t t' : ftype) (m : string) :
  add_from_dict IM cls b = Built (plans, b') ->
  In (f, t) (field_types cls) ->
  In t' (type_parts t) ->
  type_module t' = Some m ->
  m ∈ IM \/ exists i, In (import_line i m) (lines b').
Proof.
  intros H Hin Ht' Hm.
  assert (Hreg : m ∈ modules b').
  { revert H. unfold add_from_dict. intros H.
    eapply (registers_bind_r
              (fun m => exists t', In t' (type_parts t)
                                   /\ type_module t' = Some m)); [|exact H|eauto].
    intros ?. apply registers_bind_r. intros ?. apply registers_bind_r.
    intros ?. apply registers_bind_l; [|intros ?; extending_steps].
    apply registers_indent. apply registers_bind_r. intros ?.
    apply registers_bind_l; [|intros ?; extending_steps].
    apply registers_indent. apply registers_bind_r. intros ?.
    eapply registers_for; [exact Hin| |].
    - apply registers_add_from_dict_field.
    - intros y. apply extending_add_from_dict_field. }
  unfold add_from_dict in H.
  unfold m_bind at 1 2 3, m_do at 1, m_add_line at 1 2, m_do at 1 2 in H.
  eapply (routine_text IM
            ["@classmethod";
             "def from_dict(cls, d, use_bytes=False, use_enum=False, use_datetime=False):"])
    in H.
  - destruct H as (_ & text & Hl & _ & Himp).
    destruct (Himp m Hreg) as [Him|[i Hi]]; [now left|right].
    exists i. rewrite Hl. apply in_or_app. right. apply in_or_app. now left.
  - extending_steps. apply extending_for. intros x _.
    apply extending_add_from_dict_field.
Qed.

Lemma add_from_dict_text_witness :
  add_from_dict ∅ Pair new_builder = Built (Pair_plans, Pair_builder)
  /\ _current_indent Pair_builder = ""
  /\ exists body,
      lines Pair_builder
      = ("@classmethod"
         :: "def from_dict(cls, d, use_bytes=False, use_enum=False, use_datetime=False):"
         :: body ++ ["setattr(cls, 'from_dict', from_dict)"])%list
      /\ Forall (starts_with (spaces 4)) body.
Proof.
  assert (H : add_from_dict ∅ Pair new_builder
              = Built (Pair_plans, Pair_builder)) by (vm_compute; reflexivity).
  split; [exact H|].
  exact (add_from_dict_text ∅ Pair new_builder Pair_builder Pair_plans H).
Defined.

Lemma add_to_dict_text_witness :
  add_to_dict ∅ Pair new_builder = Built (Pair_pack_plans, Pair_pack_builder)
  /\ _current_indent Pair_pack_builder = ""
  /\ exists body,
      lines Pair_pack_builder
      = ("def to_dict(self, use_bytes=False, use_enum=False, use_datetime=False):"
         :: body ++ ["setattr(cls, 'to_dict', to_dict)"])%list
      /\ Forall (starts_with (spaces 4)) body.
Proof.
  assert (H : add_to_dict ∅ Pair new_builder
              = Built (Pair_pack_plans, Pair_pack_builder))
    by (vm_compute; reflexivity).
  split; [exact H|].
  exact (add_to_dict_text ∅ Pair new_builder Pair_pack_builder Pair_pack_plans
           H).
Defined.

Lemma add_from_dict_imports_witness :
  add_from_dict ∅ Order new_builder = Built (Order_plans, Order_builder)
  /\ In ("pair", TUnion [TDataclass "app.Pair"; TClass c_NoneType])
        (field_types Order)
  /\ In (TDataclass "app.Pair")
        (type_parts (TUnion [TDataclass "app.Pair"; TClass c_NoneType]))
  /\ type_module (TDataclass "app.Pair") = Some "app"
  /\ ("app" ∈ (∅ : gset string)
      \/ exists i, In (import_line i "app") (lines Order_builder)).
Proof.
  assert (H1 : add_from_dict ∅ Order new_builder
               = Built (Order_plans, Order_builder))
    by (vm_compute; reflexivity).
  assert (H2 : In ("pair", TUnion [TDataclass "app.Pair"; TClass c_NoneType])
                  (field_types Order))
    by (vm_compute; tauto).
  assert (H3 : In (TDataclass "app.Pair")
                  (type_parts (TUnion [TDataclass "app.Pair";
                                       TClass c_NoneType])))
    by (cbn; tauto).
  assert (H4 : type_module (TDataclass "app.Pair") = Some "app")
    by reflexivity.
  split; [exact H1|]. split; [exact H2|]. split; [exact H3|].
  split; [exact H4|].
  exact (add_from_dict_imports ∅ Order new_builder Order_builder Order_plans
           "pair" _ _ "app" H1 H2 H3 H4).
Defined.
